(** * Solo RPG Companion: the session-state and history engine

    A shallow embedding of the state engine of [index.tsx] (App.js part,
    ResourceTrackerPanel, DiceRoller) and of [constants.js]:

    - [validateAndMigrateData], the load-time validator, run on parsed JSON;
    - [updateHistory], [handleUndo], [handleRedo]: the bounded snapshot history;
    - the domain mutators ([addPlayLogEntry], [setResourceTrackers],
      [setLoadedGameDataPackage], ...) and the handlers that call them
      ([handleLoadGameDataPackageFile], [handleReflect],
      [handleReflectTrackerChange], the dice-history updater of
      [handleRollDice]);
    - the handlers of the panels that call the mutators: the play log
      ([submitCurrentInput], [handleSaveEdit], [handleSaveTitle]) and the
      resource trackers ([handleAddTracker], [handleDeleteTracker],
      [handleTrackerNameChange], [handleNameInputBlur]);
    - the dice and the random tables: [parseAndRollDice], [matchRollToEntry],
      [parseCSV], and the panel's [handleRollTable] and [handleImportCSV];
    - [escapeHtml] of the exported page.

    JavaScript values are an inductive type; records stand for the objects whose
    shape the code fixes; [crypto.randomUUID], [new Date()], [Date] parsing,
    [matchMedia] and [parseFloat] are the fields of a [Host]; a property read
    on [null] or [undefined] raises [TypeError] in a small state-and-exception
    monad whose state counts the identifiers drawn so far. React applies a
    queued state update before the next event is handled; a handler here is
    one event and applies its update in place.

    Numbers are modelled as integers ([Z]); fractions, NaN and infinities are
    outside the model. [Math.random] is a sequence of rationals, one term for
    each call in order. A string is its sequence of bytes; [trim], and the
    change of case of letters, act on the ASCII characters. *)

From Stdlib Require Import QArith Qround DecimalZ.
From Stdlib Require Import String Ascii ZArith List Bool Lia DecimalString.
Import ListNotations.
Local Open Scope string_scope.
Local Open Scope Z_scope.
Local Open Scope list_scope.

(** ** JavaScript values *)

Unset Elimination Schemes.
Inductive jsval : Type :=
| VUndef
| VNull
| VBool (b : bool)
| VNum (z : Z)
| VStr (s : string)
| VArr (elems : list jsval)
| VObj (members : list (string * jsval)).
Set Elimination Schemes.

(** [typeof v] *)
Definition typeOf (v : jsval) : string :=
  match v with
  | VUndef => "undefined"
  | VNull | VArr _ | VObj _ => "object"
  | VBool _ => "boolean"
  | VNum _ => "number"
  | VStr _ => "string"
  end.

(** [v === null] *)
Definition isNull (v : jsval) : bool :=
  match v with VNull => true | _ => false end.

(** [Array.isArray(v)] *)
Definition isArray (v : jsval) : bool :=
  match v with VArr _ => true | _ => false end.

(** The elements of an array (of nothing else). *)
Definition elements (v : jsval) : list jsval :=
  match v with VArr l => l | _ => [] end.

(** ToBoolean: what [!v], [v || d] and [v && w] test. *)
Definition truthy (v : jsval) : bool :=
  match v with
  | VUndef | VNull => false
  | VBool b => b
  | VNum z => negb (z =? 0)
  | VStr s => negb (s =? "")%string
  | VArr _ | VObj _ => true
  end.

(** [v || d] *)
Definition orElse (v d : jsval) : jsval := if truthy v then v else d.

(** The member list of an object is kept as written; as in [JSON.parse], the
    last of several members with one key is the one a read finds. *)
Fixpoint assoc (k : string) (l : list (string * jsval)) : option jsval :=
  match l with
  | [] => None
  | (k', v) :: r =>
      match assoc k r with
      | Some w => Some w
      | None => if (k' =? k)%string then Some v else None
      end
  end.

(** [v.k] or [v?.k] where [v] is known not to be [null] or [undefined], and
    [v?.k] in general. The keys the engine reads are fixed names, none of them
    [length] or an index, so only objects have them. *)
Definition get (v : jsval) (k : string) : jsval :=
  match v with
  | VObj l => match assoc k l with Some w => w | None => VUndef end
  | _ => VUndef
  end.

(** [o[k] = v] on a member list: the member keeps its place when the key is
    there already, and goes last otherwise. *)
Fixpoint objSet (k : string) (v : jsval) (l : list (string * jsval))
  : list (string * jsval) :=
  match l with
  | [] => [(k, v)]
  | (k', w) :: r =>
      if (k' =? k)%string then (k, v) :: r else (k', w) :: objSet k v r
  end.

Definition indexKey (n : nat) : string :=
  NilZero.string_of_uint (Nat.to_uint n).

Fixpoint indexed {A} (f : A -> jsval) (n : nat) (l : list A)
  : list (string * jsval) :=
  match l with
  | [] => []
  | a :: r => (indexKey n, f a) :: indexed f (S n) r
  end.

Fixpoint chars (s : string) : list string :=
  match s with
  | EmptyString => []
  | String c r => String c EmptyString :: chars r
  end.

(** The own enumerable members a spread [...v] copies: those of an object, the
    indexed elements of an array, the indexed characters of a string, and
    nothing for any other value. *)
Definition ownProps (v : jsval) : list (string * jsval) :=
  match v with
  | VObj l => l
  | VArr l => indexed (fun x => x) 0 l
  | VStr s => indexed VStr 0 (chars s)
  | _ => []
  end.

(** [{...base, ...v}], [base] given as a member list. *)
Definition spreadInto (base : list (string * jsval)) (src : list (string * jsval))
  : list (string * jsval) :=
  fold_left (fun acc kv => objSet (fst kv) (snd kv) acc) src base.

Definition hasKey (k : string) (l : list (string * jsval)) : bool :=
  match assoc k l with Some _ => true | None => false end.

(** The members of [l] whose key is not one of [ks]. *)
Definition withoutKeys (ks : list string) (l : list (string * jsval))
  : list (string * jsval) :=
  filter (fun kv => negb (existsb (String.eqb (fst kv)) ks)) l.

(** [a.includes(s)] on an array of strings. *)
Definition includes (a : list string) (s : string) : bool :=
  existsb (String.eqb s) a.

(** What [JSON.parse(JSON.stringify(v))] gives for a value inside an array
    or an object: members holding [undefined] are left out, [undefined] in an
    array becomes [null]. *)
Fixpoint jsonify (v : jsval) : jsval :=
  match v with
  | VArr l =>
      VArr (map (fun x => match x with VUndef => VNull | _ => jsonify x end) l)
  | VObj l =>
      VObj ((fix members (l : list (string * jsval)) : list (string * jsval) :=
               match l with
               | [] => []
               | (k, VUndef) :: r => members r
               | (k, x) :: r => (k, jsonify x) :: members r
               end) l)
  | _ => v
  end.

(** A value [JSON.parse] can produce: no [undefined] anywhere. *)
Fixpoint isJson (v : jsval) : bool :=
  match v with
  | VUndef => false
  | VArr l => forallb isJson l
  | VObj l =>
      (fix members (l : list (string * jsval)) : bool :=
         match l with
         | [] => true
         | (_, x) :: r => isJson x && members r
         end) l
  | _ => true
  end.

(** [String(v)], as a template literal converts an interpolated value. *)
Fixpoint toDisplayString (v : jsval) : string :=
  match v with
  | VUndef => "undefined"
  | VNull => "null"
  | VBool true => "true"
  | VBool false => "false"
  | VNum z => NilZero.string_of_int (Z.to_int z)
  | VStr s => s
  | VArr l =>
      (fix join (first : bool) (l : list jsval) : string :=
         match l with
         | [] => ""
         | x :: r =>
             ((if first then "" else ",")
                ++ match x with
                   | VUndef | VNull => ""
                   | _ => toDisplayString x
                   end
                ++ join false r)%string
         end) true l
  | VObj _ => "[object Object]"
  end.

(** [String.prototype.trim], over the ASCII white space (space, tab, line
    feed, vertical tab, form feed, carriage return). *)
Definition isSpace (c : ascii) : bool :=
  let n := nat_of_ascii c in
  ((n =? 32) || ((9 <=? n) && (n <=? 13)))%nat.

Fixpoint trimStart (s : string) : string :=
  match s with
  | EmptyString => EmptyString
  | String c r => if isSpace c then trimStart r else s
  end.

Fixpoint trimEnd (s : string) : string :=
  match s with
  | EmptyString => EmptyString
  | String c r =>
      match trimEnd r with
      | EmptyString => if isSpace c then EmptyString else String c EmptyString
      | r' => String c r'
      end
  end.

Definition trim (s : string) : string := trimEnd (trimStart s).

(** ** Arrays: index reads and [slice] *)

(** [l[i]]; [None] is [undefined]. *)
Definition nthZ {A} (l : list A) (i : Z) : option A :=
  if i <? 0 then None else nth_error l (Z.to_nat i).

Definition lengthZ {A} (l : list A) : Z := Z.of_nat (length l).

(** How [slice] reads a bound: from the end when negative, clamped. *)
Definition sliceBound (len i : Z) : Z :=
  if i <? 0 then Z.max (len + i) 0 else Z.min i len.

(** [l.slice(start, stop)] *)
Definition slice {A} (l : list A) (start stop : Z) : list A :=
  let from := sliceBound (lengthZ l) start in
  let to := sliceBound (lengthZ l) stop in
  firstn (Z.to_nat (to - from)) (skipn (Z.to_nat from) l).

(** [l.slice(start)] *)
Definition sliceFrom {A} (l : list A) (start : Z) : list A :=
  slice l start (lengthZ l).

(** ** The host: browser globals the engine calls *)

Class Host : Type := {
  (** the n-th identifier [crypto.randomUUID()] returns *)
  uuid : nat -> string;
  (** [new Date().toISOString()] *)
  nowISO : string;
  (** [!isNaN(new Date(s).getTime())] *)
  isValidDate : string -> bool;
  (** [window.matchMedia('(prefers-color-scheme: dark)').matches] *)
  prefersDark : bool;
  (** [parseFloat(s)]; [None] is NaN *)
  parseFloat : string -> option Z
}.

(** ** Effects: an identifier supply and exceptions *)

Inductive exn : Type :=
| TypeError
| SyntaxError
| Error (message : string).

Inductive outcome (A : Type) : Type :=
| Returned (a : A) (drawn : nat)
| Thrown (e : exn) (drawn : nat).
Arguments Returned {A} a drawn.
Arguments Thrown {A} e drawn.

Definition M (A : Type) : Type := nat -> outcome A.

Definition ret {A} (a : A) : M A := fun n => Returned a n.

Definition bind {A B} (m : M A) (k : A -> M B) : M B :=
  fun n => match m n with
           | Returned a n' => k a n'
           | Thrown e n' => Thrown e n'
           end.

Definition throw {A} (e : exn) : M A := fun n => Thrown e n.

(** [try { m } catch (e) { h e }] *)
Definition tryCatch {A} (m : M A) (h : exn -> M A) : M A :=
  fun n => match m n with
           | Returned a n' => Returned a n'
           | Thrown e n' => h e n'
           end.

Notation "x <- m ;; k" := (bind m (fun x => k))
  (at level 61, m at next level, right associativity).

Fixpoint mapM {A B} (f : A -> M B) (l : list A) : M (list B) :=
  match l with
  | [] => ret []
  | a :: r => b <- f a ;; bs <- mapM f r ;; ret (b :: bs)
  end.

(** [l.map(f).filter(x => x !== null)] where [f] answers [null] as [None]. *)
Fixpoint somes {A} (l : list (option A)) : list A :=
  match l with
  | [] => []
  | Some a :: r => a :: somes r
  | None :: r => somes r
  end.

(** [v.k] where [v] may be anything: a read on [null] or [undefined] throws. *)
Definition getT (v : jsval) (k : string) : M jsval :=
  match v with
  | VUndef | VNull => throw TypeError
  | _ => ret (get v k)
  end.

(** ** The data model

    One record per object shape. A field the code fills from game-data
    package content without a type test holds an arbitrary [jsval]; the
    others hold what the validator's [typeof] tests leave there. *)

Module LogEntry.
Record t : Type := mk {
  id : string;
  content : string;
  type : string;
  colorKey : string;
  timestamp : string
}.
End LogEntry.

Module CustomField.
Record t : Type := mk {
  id : string;
  fieldName : jsval;
  fieldValue : string
}.
End CustomField.

Module CharacterSheet.
Record t : Type := mk {
  name : string;
  image : option string;
  stats : string;
  statsLabel : jsval;
  customFields : list CustomField.t
}.
End CharacterSheet.

Module TableEntry.
Record t : Type := mk {
  id : jsval;
  value : jsval;
  rollValue : jsval
}.
End TableEntry.

Module RandomTable.
Record t : Type := mk {
  id : jsval;
  name : jsval;
  diceCommand : jsval;
  entries : list TableEntry.t
}.
End RandomTable.

Module TrackerRecord.
Record t : Type := mk {
  id : string;
  timestamp : string;
  change : Z;
  previousValue : Z;
  newValue : Z;
  reason : string
}.
End TrackerRecord.

Module ResourceTracker.
Record t : Type := mk {
  id : string;
  name : jsval;
  value : Z;
  history : list TrackerRecord.t
}.
End ResourceTracker.

Module DiceRoll.
Record t : Type := mk {
  id : string;
  command : string;
  individualRolls : list Z;
  total : Z;
  timestamp : string
}.
End DiceRoll.

Module CustomFieldTemplate.
Record t : Type := mk {
  id : jsval;
  label : jsval;
  type : string
}.
End CustomFieldTemplate.

Module SheetTemplate.
Record t : Type := mk {
  statsLabel : jsval;
  baseStats : list jsval;
  customFieldTemplates : list CustomFieldTemplate.t;
  (** the members of the package's template beyond those three *)
  extras : list (string * jsval)
}.
End SheetTemplate.

Module RulebookSection.
Record t : Type := mk {
  id : string;
  title : string;
  content : string
}.
End RulebookSection.

Module TrackerTemplate.
Record t : Type := mk {
  id : jsval;
  name : jsval;
  initialValue : Z
}.
End TrackerTemplate.

Module GameDataPackage.
Record t : Type := mk {
  manifest : list (string * jsval);
  characterSheetTemplate : SheetTemplate.t;
  rulebookSections : list RulebookSection.t;
  randomTables : list RandomTable.t;
  resourceTrackerTemplates : list TrackerTemplate.t;
  (** the members of the loaded package beyond those five *)
  extras : list (string * jsval)
}.
End GameDataPackage.

Module SessionState.
Record t : Type := mk {
  sessionId : string;
  playLogEntries : list LogEntry.t;
  playLogTitle : string;
  characterSheet : CharacterSheet.t;
  tables : list RandomTable.t;
  resourceTrackers : list ResourceTracker.t;
  diceRollHistory : list DiceRoll.t;
  theme : string;
  loadedGameDataPackage : option GameDataPackage.t;
  gameDataPackageLoadId : option string
}.
End SessionState.

(** ** Constants ([constants.js] and the head of App.js) *)

Definition PREDEFINED_COLORS_keys : list string :=
  ["default"; "red"; "blue"; "green"; "yellow"; "purple"].

Definition themeOptions : list string := ["dark"; "light"; "earth"; "pastel"].

Definition initialPlayLogTitle : string := "プレイログ".

Definition initialCharacterSheetValues : CharacterSheet.t :=
  CharacterSheet.mk "キャラクター名" None "" (VStr "能力値・詳細") [].

Definition MAX_HISTORY_SIZE : Z := 10.

(** [DEFAULT_GAME_DATA_PACKAGE_STRUCTURE.manifest] *)
Definition DEFAULT_manifest : list (string * jsval) :=
  [ ("gameTitle", VStr "無題のゲーム");
    ("author", VStr "不明な作者");
    ("version", VStr "1.0.0");
    ("description", VStr "");
    ("srgdVersion", VStr "1.0") ].

(** [DEFAULT_GAME_DATA_PACKAGE_STRUCTURE.characterSheetTemplate]. The
    validator always replaces [baseStats] and [customFieldTemplates], so the
    default under the last key (two templates with identifiers drawn when the
    module loads) never shows and is left empty here. *)
Definition DEFAULT_characterSheetTemplate : list (string * jsval) :=
  [ ("statsLabel", VStr "能力値・詳細");
    ("baseStats", VArr [VStr "体力"; VStr "技術"; VStr "知力"; VStr "魅力"]);
    ("customFieldTemplates", VArr []) ].

Definition packageKeys : list string :=
  ["manifest"; "characterSheetTemplate"; "rulebookSections"; "randomTables";
   "resourceTrackerTemplates"].

Definition sheetTemplateKeys : list string :=
  ["statsLabel"; "baseStats"; "customFieldTemplates"].

(** ** The objects the records stand for, and their JSON text

    [*_object] is the JavaScript object as the engine builds it, member by
    member; [stringifyParse] is [JSON.parse(JSON.stringify(v))], and two values
    have the same [JSON.stringify] text when their images under it are equal. *)

Definition stringifyParse (v : jsval) : jsval := jsonify v.







Definition TrackerRecord_object (h : TrackerRecord.t) : jsval :=
  VObj [ ("id", VStr (TrackerRecord.id h));
         ("timestamp", VStr (TrackerRecord.timestamp h));
         ("change", VNum (TrackerRecord.change h));
         ("previousValue", VNum (TrackerRecord.previousValue h));
         ("newValue", VNum (TrackerRecord.newValue h));
         ("reason", VStr (TrackerRecord.reason h)) ].

Definition ResourceTracker_object (t : ResourceTracker.t) : jsval :=
  VObj [ ("id", VStr (ResourceTracker.id t));
         ("name", ResourceTracker.name t);
         ("value", VNum (ResourceTracker.value t));
         ("history", VArr (map TrackerRecord_object (ResourceTracker.history t))) ].








(** Equality of values, member order included. *)
Fixpoint jsval_eqb (a b : jsval) : bool :=
  match a, b with
  | VUndef, VUndef => true
  | VNull, VNull => true
  | VBool x, VBool y => Bool.eqb x y
  | VNum x, VNum y => (x =? y)%Z
  | VStr x, VStr y => (x =? y)%string
  | VArr x, VArr y =>
      (fix all2 (x y : list jsval) : bool :=
         match x, y with
         | [], [] => true
         | a' :: x', b' :: y' => jsval_eqb a' b' && all2 x' y'
         | _, _ => false
         end) x y
  | VObj x, VObj y =>
      (fix all2 (x y : list (string * jsval)) : bool :=
         match x, y with
         | [], [] => true
         | (k, a') :: x', (k', b') :: y' =>
             (k =? k')%string && jsval_eqb a' b' && all2 x' y'
         | _, _ => false
         end) x y
  | _, _ => false
  end.

(** [JSON.stringify(a) !== JSON.stringify(b)] *)
Definition stringifyDiffers (a b : jsval) : bool :=
  negb (jsval_eqb (stringifyParse a) (stringifyParse b)).

(** [JSON.parse(JSON.stringify(tables))] on random tables. *)
Definition copyTableEntry (e : TableEntry.t) : TableEntry.t :=
  TableEntry.mk (jsonify (TableEntry.id e)) (jsonify (TableEntry.value e))
    (jsonify (TableEntry.rollValue e)).

Definition copyTable (t : RandomTable.t) : RandomTable.t :=
  RandomTable.mk (jsonify (RandomTable.id t)) (jsonify (RandomTable.name t))
    (jsonify (RandomTable.diceCommand t))
    (map copyTableEntry (RandomTable.entries t)).

(** ** Record updates: [{ ...s, field: x }] *)

Definition with_sessionId (x : string) (s : SessionState.t) : SessionState.t :=
  SessionState.mk x (SessionState.playLogEntries s) (SessionState.playLogTitle s)
    (SessionState.characterSheet s) (SessionState.tables s)
    (SessionState.resourceTrackers s) (SessionState.diceRollHistory s)
    (SessionState.theme s) (SessionState.loadedGameDataPackage s)
    (SessionState.gameDataPackageLoadId s).

Definition with_playLogEntries (x : list LogEntry.t) (s : SessionState.t)
  : SessionState.t :=
  SessionState.mk (SessionState.sessionId s) x (SessionState.playLogTitle s)
    (SessionState.characterSheet s) (SessionState.tables s)
    (SessionState.resourceTrackers s) (SessionState.diceRollHistory s)
    (SessionState.theme s) (SessionState.loadedGameDataPackage s)
    (SessionState.gameDataPackageLoadId s).

Definition with_playLogTitle (x : string) (s : SessionState.t) : SessionState.t :=
  SessionState.mk (SessionState.sessionId s) (SessionState.playLogEntries s) x
    (SessionState.characterSheet s) (SessionState.tables s)
    (SessionState.resourceTrackers s) (SessionState.diceRollHistory s)
    (SessionState.theme s) (SessionState.loadedGameDataPackage s)
    (SessionState.gameDataPackageLoadId s).

Definition with_characterSheet (x : CharacterSheet.t) (s : SessionState.t)
  : SessionState.t :=
  SessionState.mk (SessionState.sessionId s) (SessionState.playLogEntries s)
    (SessionState.playLogTitle s) x (SessionState.tables s)
    (SessionState.resourceTrackers s) (SessionState.diceRollHistory s)
    (SessionState.theme s) (SessionState.loadedGameDataPackage s)
    (SessionState.gameDataPackageLoadId s).

Definition with_tables (x : list RandomTable.t) (s : SessionState.t)
  : SessionState.t :=
  SessionState.mk (SessionState.sessionId s) (SessionState.playLogEntries s)
    (SessionState.playLogTitle s) (SessionState.characterSheet s) x
    (SessionState.resourceTrackers s) (SessionState.diceRollHistory s)
    (SessionState.theme s) (SessionState.loadedGameDataPackage s)
    (SessionState.gameDataPackageLoadId s).

Definition with_resourceTrackers (x : list ResourceTracker.t) (s : SessionState.t)
  : SessionState.t :=
  SessionState.mk (SessionState.sessionId s) (SessionState.playLogEntries s)
    (SessionState.playLogTitle s) (SessionState.characterSheet s)
    (SessionState.tables s) x (SessionState.diceRollHistory s)
    (SessionState.theme s) (SessionState.loadedGameDataPackage s)
    (SessionState.gameDataPackageLoadId s).

Definition with_diceRollHistory (x : list DiceRoll.t) (s : SessionState.t)
  : SessionState.t :=
  SessionState.mk (SessionState.sessionId s) (SessionState.playLogEntries s)
    (SessionState.playLogTitle s) (SessionState.characterSheet s)
    (SessionState.tables s) (SessionState.resourceTrackers s) x
    (SessionState.theme s) (SessionState.loadedGameDataPackage s)
    (SessionState.gameDataPackageLoadId s).

Definition with_theme (x : string) (s : SessionState.t) : SessionState.t :=
  SessionState.mk (SessionState.sessionId s) (SessionState.playLogEntries s)
    (SessionState.playLogTitle s) (SessionState.characterSheet s)
    (SessionState.tables s) (SessionState.resourceTrackers s)
    (SessionState.diceRollHistory s) x (SessionState.loadedGameDataPackage s)
    (SessionState.gameDataPackageLoadId s).

Section Engine.
Context `{Host}.

Definition randomUUID : M string := fun n => Returned (uuid n) (S n).

Definition initialDefaultTheme : string :=
  if prefersDark then "dark" else "light".

Definition getInitialSessionData : M SessionState.t :=
  newSessionId <- randomUUID ;;
  ret (SessionState.mk newSessionId [] initialPlayLogTitle
         initialCharacterSheetValues [] [] [] initialDefaultTheme None None).

(** ** validateAndMigrateData *)

(** [typeof v === 'object' && v !== null] *)
Definition isObject (v : jsval) : bool :=
  (typeOf v =? "object")%string && negb (isNull v).

(** [typeof v === 'string' ? v : d] *)
Definition stringOr (v : jsval) (d : string) : string :=
  match v with VStr s => s | _ => d end.

(** [typeof v === 'string' ? v : crypto.randomUUID()] *)
Definition stringOrFresh (v : jsval) : M string :=
  match v with VStr s => ret s | _ => randomUUID end.

(** [typeof v === 'number' ? v : d] *)
Definition numberOr (v : jsval) (d : Z) : Z :=
  match v with VNum z => z | _ => d end.

(** [typeof v === 'string' && !isNaN(new Date(v).getTime()) ? v
     : new Date().toISOString()] *)
Definition timestampOrNow (v : jsval) : string :=
  match v with
  | VStr s => if isValidDate s then s else nowISO
  | _ => nowISO
  end.

(** [typeof v === 'string' && allowed.includes(v) ? v : d] *)
Definition oneOfOr (allowed : list string) (v : jsval) (d : string) : string :=
  match v with
  | VStr s => if includes allowed s then s else d
  | _ => d
  end.

(** [v || crypto.randomUUID()] *)
Definition orFresh (v : jsval) : M jsval :=
  if truthy v then ret v else (u <- randomUUID ;; ret (VStr u)).

Definition validateLogEntry (entry : jsval) : M (option LogEntry.t) :=
  if isObject entry then
    id <- stringOrFresh (get entry "id") ;;
    ret (Some (LogEntry.mk id
                 (stringOr (get entry "content") "")
                 (oneOfOr ["normal"; "heading"] (get entry "type") "normal")
                 (oneOfOr PREDEFINED_COLORS_keys (get entry "colorKey") "default")
                 (timestampOrNow (get entry "timestamp"))))
  else ret None.

Definition validateCustomField (cf : jsval) : M CustomField.t :=
  id <- stringOrFresh (get cf "id") ;;
  ret (CustomField.mk id
         (VStr (stringOr (get cf "fieldName") ""))
         (stringOr (get cf "fieldValue") "")).

Definition validateCharacterSheet (sheet : jsval) : M CharacterSheet.t :=
  let loadedSheet := orElse sheet (VObj []) in
  customFields <-
    (if isArray (get loadedSheet "customFields")
     then mapM validateCustomField (elements (get loadedSheet "customFields"))
     else ret (CharacterSheet.customFields initialCharacterSheetValues)) ;;
  ret (CharacterSheet.mk
         (stringOr (get loadedSheet "name")
            (CharacterSheet.name initialCharacterSheetValues))
         (match get loadedSheet "image" with
          | VStr s => Some s
          | _ => None
          end)
         (stringOr (get loadedSheet "stats")
            (CharacterSheet.stats initialCharacterSheetValues))
         (match get loadedSheet "statsLabel" with
          | VStr s => VStr s
          | _ => CharacterSheet.statsLabel initialCharacterSheetValues
          end)
         customFields).

Definition validateTableEntry (entry : jsval) : M (option TableEntry.t) :=
  if negb (typeOf entry =? "object")%string || isNull entry then ret None
  else
    id <- stringOrFresh (get entry "id") ;;
    ret (Some (TableEntry.mk (VStr id)
                 (VStr (stringOr (get entry "value") ""))
                 (match get entry "rollValue" with
                  | VStr s => VStr s
                  | _ => VUndef
                  end))).

Definition validateTable (table : jsval) : M (option RandomTable.t) :=
  if negb (typeOf table =? "object")%string || isNull table then ret None
  else
    id <- stringOrFresh (get table "id") ;;
    entries <-
      (if isArray (get table "entries")
       then es <- mapM validateTableEntry (elements (get table "entries")) ;;
            ret (somes es)
       else ret []) ;;
    ret (Some (RandomTable.mk (VStr id)
                 (VStr (stringOr (get table "name") "無名テーブル"))
                 (VStr (stringOr (get table "diceCommand") ""))
                 entries)).

Definition validateTrackerRecord (h : jsval) : M (option TrackerRecord.t) :=
  if negb (typeOf h =? "object")%string || isNull h then ret None
  else
    id <- stringOrFresh (get h "id") ;;
    ret (Some (TrackerRecord.mk id
                 (timestampOrNow (get h "timestamp"))
                 (numberOr (get h "change") 0)
                 (numberOr (get h "previousValue") 0)
                 (numberOr (get h "newValue") 0)
                 (stringOr (get h "reason") ""))).

Definition validateTracker (tracker : jsval) : M (option ResourceTracker.t) :=
  if negb (typeOf tracker =? "object")%string || isNull tracker then ret None
  else
    id <- stringOrFresh (get tracker "id") ;;
    history <-
      (if isArray (get tracker "history")
       then hs <- mapM validateTrackerRecord (elements (get tracker "history")) ;;
            ret (somes hs)
       else ret []) ;;
    ret (Some (ResourceTracker.mk id
                 (VStr (stringOr (get tracker "name") "無名リソース"))
                 (numberOr (get tracker "value") 0)
                 history)).

Definition validateDiceRoll (roll : jsval) : M (option DiceRoll.t) :=
  if negb (typeOf roll =? "object")%string || isNull roll then ret None
  else
    id <- stringOrFresh (get roll "id") ;;
    ret (Some (DiceRoll.mk id
                 (stringOr (get roll "command") "")
                 (if isArray (get roll "individualRolls")
                  then somes (map (fun n => match n with
                                            | VNum z => Some z
                                            | _ => None
                                            end)
                                (elements (get roll "individualRolls")))
                  else [])
                 (numberOr (get roll "total") 0)
                 (timestampOrNow (get roll "timestamp")))).

(** The elements of [pkg.characterSheetTemplate.customFieldTemplates],
    [pkg.rulebookSections], [pkg.randomTables] (and their [entries]) and
    [pkg.resourceTrackerTemplates] are read without a test that they are
    objects: [getT] throws where an element is [null]. *)

Definition validateCustomFieldTemplate (cft : jsval) : M CustomFieldTemplate.t :=
  idv <- getT cft "id" ;;
  id <- orFresh idv ;;
  labelv <- getT cft "label" ;;
  typev <- getT cft "type" ;;
  ret (CustomFieldTemplate.mk id
         (orElse labelv (VStr "無題の項目"))
         (oneOfOr ["text"; "textarea"; "number"] typev "text")).

Definition validateRulebookSection (section : jsval) : M RulebookSection.t :=
  idv <- getT section "id" ;;
  id <- stringOrFresh idv ;;
  titlev <- getT section "title" ;;
  contentv <- getT section "content" ;;
  ret (RulebookSection.mk id
         (stringOr titlev "無題のセクション")
         (stringOr contentv "")).

Definition validatePackageTableEntry (e : jsval) : M TableEntry.t :=
  idv <- getT e "id" ;;
  id <- orFresh idv ;;
  rollValuev <- getT e "rollValue" ;;
  valuev <- getT e "value" ;;
  ret (TableEntry.mk id (orElse valuev (VStr "")) (orElse rollValuev (VStr ""))).

Definition validatePackageTable (rt : jsval) : M RandomTable.t :=
  idv <- getT rt "id" ;;
  id <- orFresh idv ;;
  namev <- getT rt "name" ;;
  diceCommandv <- getT rt "diceCommand" ;;
  entriesv <- getT rt "entries" ;;
  entries <-
    (if isArray entriesv
     then mapM validatePackageTableEntry (elements entriesv)
     else ret []) ;;
  ret (RandomTable.mk id
         (orElse namev (VStr "無題のテーブル"))
         (orElse diceCommandv (VStr ""))
         entries).

Definition validateTrackerTemplate (rtt : jsval) : M TrackerTemplate.t :=
  idv <- getT rtt "id" ;;
  id <- orFresh idv ;;
  namev <- getT rtt "name" ;;
  initialValuev <- getT rtt "initialValue" ;;
  ret (TrackerTemplate.mk id
         (orElse namev (VStr "無題のリソース"))
         (numberOr initialValuev 0)).

(** The object literal assigned to [validated.loadedGameDataPackage]
    (App.js, inside [validateAndMigrateData]); [pkg] is truthy and of type
    object there. The five members of the default structure are all written
    again after the two spreads, so of [{...DEFAULT, ...pkg}] only the other
    members of [pkg] stay as they are: the [extras]. *)
Definition validatePackage (pkg : jsval) : M GameDataPackage.t :=
  let manifest :=
    spreadInto DEFAULT_manifest (ownProps (orElse (get pkg "manifest") (VObj []))) in
  let cst := get pkg "characterSheetTemplate" in
  let sheetMembers :=
    spreadInto DEFAULT_characterSheetTemplate (ownProps (orElse cst (VObj []))) in
  customFieldTemplates <-
    (if isArray (get cst "customFieldTemplates")
     then mapM validateCustomFieldTemplate (elements (get cst "customFieldTemplates"))
     else ret []) ;;
  rulebookSections <-
    (if isArray (get pkg "rulebookSections")
     then mapM validateRulebookSection (elements (get pkg "rulebookSections"))
     else ret []) ;;
  randomTables <-
    (if isArray (get pkg "randomTables")
     then mapM validatePackageTable (elements (get pkg "randomTables"))
     else ret []) ;;
  resourceTrackerTemplates <-
    (if isArray (get pkg "resourceTrackerTemplates")
     then mapM validateTrackerTemplate (elements (get pkg "resourceTrackerTemplates"))
     else ret []) ;;
  ret (GameDataPackage.mk manifest
         (SheetTemplate.mk
            (get (VObj sheetMembers) "statsLabel")
            (if isArray (get cst "baseStats")
             then elements (get cst "baseStats")
             else [])
            customFieldTemplates
            (withoutKeys sheetTemplateKeys sheetMembers))
         rulebookSections randomTables resourceTrackerTemplates
         (withoutKeys packageKeys (spreadInto [] (ownProps pkg)))).

Definition validateAndMigrateData (loadedData : jsval) : M SessionState.t :=
  if negb (truthy loadedData) || negb (typeOf loadedData =? "object")%string
  then getInitialSessionData
  else
    initial <- getInitialSessionData ;;
    _ <- randomUUID ;;
    playLogEntries <-
      (if isArray (get loadedData "playLogEntries")
       then es <- mapM validateLogEntry (elements (get loadedData "playLogEntries")) ;;
            ret (somes es)
       else ret (SessionState.playLogEntries initial)) ;;
    let playLogTitle := stringOr (get loadedData "playLogTitle") initialPlayLogTitle in
    characterSheet <- validateCharacterSheet (get loadedData "characterSheet") ;;
    tables <-
      (if isArray (get loadedData "tables")
       then ts <- mapM validateTable (elements (get loadedData "tables")) ;;
            ret (somes ts)
       else ret (SessionState.tables initial)) ;;
    resourceTrackers <-
      (if isArray (get loadedData "resourceTrackers")
       then rs <- mapM validateTracker (elements (get loadedData "resourceTrackers")) ;;
            ret (somes rs)
       else ret (SessionState.resourceTrackers initial)) ;;
    diceRollHistory <-
      (if isArray (get loadedData "diceRollHistory")
       then ds <- mapM validateDiceRoll (elements (get loadedData "diceRollHistory")) ;;
            ret (somes ds)
       else ret (SessionState.diceRollHistory initial)) ;;
    let theme := stringOr (get loadedData "theme") initialDefaultTheme in
    loadedGameDataPackage <-
      (if truthy (get loadedData "loadedGameDataPackage")
          && (typeOf (get loadedData "loadedGameDataPackage") =? "object")%string
       then p <- validatePackage (get loadedData "loadedGameDataPackage") ;;
            ret (Some p)
       else ret (SessionState.loadedGameDataPackage initial)) ;;
    let loadId0 :=
      match get loadedData "gameDataPackageLoadId" with
      | VStr s => Some s
      | _ => None
      end in
    loadId1 <-
      (match loadedGameDataPackage, loadId0 with
       | Some _, None | Some _, Some "" => u <- randomUUID ;; ret (Some u)
       | _, _ => ret loadId0
       end) ;;
    let gameDataPackageLoadId :=
      match loadedGameDataPackage with
      | None => None
      | Some _ => loadId1
      end in
    sessionId <- stringOrFresh (get loadedData "sessionId") ;;
    ret (SessionState.mk sessionId playLogEntries playLogTitle characterSheet
           tables resourceTrackers diceRollHistory theme
           loadedGameDataPackage gameDataPackageLoadId).

(** ** The history store ([App]'s [sessionHistory] and [currentSessionIndex]) *)

Record App : Type := mkApp {
  sessionHistory : list SessionState.t;
  currentSessionIndex : Z
}.

(** [sessionHistory[currentSessionIndex]] *)
Definition currentSessionData (app : App) : option SessionState.t :=
  nthZ (sessionHistory app) (currentSessionIndex app).

(** What [updateHistory] is given: a function of the current snapshot, a
    function of no parameter, or a ready-made state. A result of [None] is a
    falsy one ([null], [undefined]). *)
Inductive Updater : Type :=
| UFunction (f : option SessionState.t -> M (option SessionState.t))
| UThunk (f : M (option SessionState.t))
| UState (s : option SessionState.t).

Definition updateHistory (sessionUpdaterFuncOrState : Updater) (app : App) : M App :=
  let prevHistory := sessionHistory app in
  let currentActualSessionFromPrev := nthZ prevHistory (currentSessionIndex app) in
  newSessionState <-
    (match sessionUpdaterFuncOrState with
     | UFunction f => f currentActualSessionFromPrev
     | UThunk f => f
     | UState s => ret s
     end) ;;
  match newSessionState with
  | None => ret app
  | Some s =>
      if (SessionState.sessionId s =? "")%string then ret app
      else
        let historyUpToCurrent := slice prevHistory 0 (currentSessionIndex app + 1) in
        let updatedFullHistory := (historyUpToCurrent ++ [s])%list in
        let updatedFullHistory :=
          if lengthZ updatedFullHistory >? MAX_HISTORY_SIZE
          then sliceFrom updatedFullHistory
                 (lengthZ updatedFullHistory - MAX_HISTORY_SIZE)
          else updatedFullHistory in
        ret (mkApp updatedFullHistory (lengthZ updatedFullHistory - 1))
  end.

Definition handleUndo (app : App) : App :=
  mkApp (sessionHistory app) (Z.max 0 (currentSessionIndex app - 1)).

Definition handleRedo (app : App) : App :=
  mkApp (sessionHistory app)
    (Z.min (lengthZ (sessionHistory app) - 1) (currentSessionIndex app + 1)).

(** The state [App] starts from: the validated local-storage entry when there
    is one that parses, the defaults otherwise. *)
Definition initialApp (savedSession : option jsval) : M App :=
  s <- tryCatch
         (match savedSession with
          | Some parsedData => validateAndMigrateData parsedData
          | None => getInitialSessionData
          end)
         (fun _ => getInitialSessionData) ;;
  ret (mkApp [s] 0).

Definition handleResetApp (app : App) : M App :=
  newInitialSessionState <- getInitialSessionData ;;
  ret (mkApp [newInitialSessionState] 0).

(** ** Domain mutators

    Each builds its new state inside the function it gives [updateHistory];
    [currentData.sessionId] throws where there is no current snapshot. *)

(** An argument that is either a value or a function of the current value. *)
Inductive ValueOrUpdater (A : Type) : Type :=
| Plain (a : A)
| Fn (f : A -> A).
#[global] Arguments Plain {A} a.
#[global] Arguments Fn {A} f.

Definition resolve {A} (x : ValueOrUpdater A) (current : A) : A :=
  match x with Plain a => a | Fn f => f current end.

Definition onCurrent (f : SessionState.t -> M SessionState.t) : Updater :=
  UFunction (fun currentData =>
               match currentData with
               | None => throw TypeError
               | Some c => s <- f c ;; ret (Some s)
               end).

(** [updatesForSession] is [null] ([None]) or an object whose
    [resourceTrackers] is an array. The new entry, with its identifier, is
    built before the current snapshot is read. *)
Definition addPlayLogEntry (content type colorKey : string)
    (updatesForSession : option (list ResourceTracker.t)) : App -> M App :=
  updateHistory (UFunction (fun currentData =>
    id <- randomUUID ;;
    let newEntry := LogEntry.mk id content type colorKey nowISO in
    match currentData with
    | None => throw TypeError
    | Some currentData =>
        let newSessionData :=
          with_playLogEntries (SessionState.playLogEntries currentData ++ [newEntry])
            currentData in
        ret (Some (match updatesForSession with
                   | Some trackers => with_resourceTrackers trackers newSessionData
                   | None => newSessionData
                   end))
    end)).

Definition deletePlayLogEntry (id : string) : App -> M App :=
  updateHistory (onCurrent (fun currentData =>
    ret (with_playLogEntries
           (filter (fun entry => negb (LogEntry.id entry =? id)%string)
              (SessionState.playLogEntries currentData))
           currentData))).

Definition updatePlayLogEntry (id newContent newColorKey : string) : App -> M App :=
  updateHistory (onCurrent (fun currentData =>
    ret (with_playLogEntries
           (map (fun entry =>
                   if (LogEntry.id entry =? id)%string
                   then LogEntry.mk (LogEntry.id entry) newContent
                          (LogEntry.type entry) newColorKey nowISO
                   else entry)
              (SessionState.playLogEntries currentData))
           currentData))).

Definition setPlayLogTitle (newTitle : string) : App -> M App :=
  updateHistory (onCurrent (fun currentData =>
    ret (with_playLogTitle newTitle currentData))).

Definition setCharacterSheet (newSheetOrUpdater : ValueOrUpdater CharacterSheet.t)
  : App -> M App :=
  updateHistory (onCurrent (fun currentData =>
    ret (with_characterSheet
           (resolve newSheetOrUpdater (SessionState.characterSheet currentData))
           currentData))).

Definition setTables (newTablesOrUpdater : ValueOrUpdater (list RandomTable.t))
  : App -> M App :=
  updateHistory (onCurrent (fun currentData =>
    ret (with_tables (resolve newTablesOrUpdater (SessionState.tables currentData))
           currentData))).

Definition setResourceTrackers
    (newTrackersOrUpdater : ValueOrUpdater (list ResourceTracker.t)) : App -> M App :=
  updateHistory (onCurrent (fun currentData =>
    ret (with_resourceTrackers
           (resolve newTrackersOrUpdater (SessionState.resourceTrackers currentData))
           currentData))).

Definition setDiceRollHistory
    (newHistoryOrUpdater : ValueOrUpdater (list DiceRoll.t)) : App -> M App :=
  updateHistory (onCurrent (fun currentData =>
    ret (with_diceRollHistory
           (resolve newHistoryOrUpdater (SessionState.diceRollHistory currentData))
           currentData))).

Definition setTheme (newTheme : string) : App -> M App :=
  updateHistory (onCurrent (fun currentData => ret (with_theme newTheme currentData))).

(** [option string] read as a condition: [null] and the empty string are falsy. *)
Definition truthyId (o : option string) : bool :=
  match o with
  | Some s => negb (s =? "")%string
  | None => false
  end.

Definition customFieldOfTemplate (tmpl : CustomFieldTemplate.t) : M CustomField.t :=
  id <- randomUUID ;;
  ret (CustomField.mk id (CustomFieldTemplate.label tmpl)
         (if (CustomFieldTemplate.type tmpl =? "number")%string then "0" else "")).

Definition trackerOfTemplate (tmpl : TrackerTemplate.t) : M ResourceTracker.t :=
  id <- randomUUID ;;
  ret (ResourceTracker.mk id (TrackerTemplate.name tmpl)
         (TrackerTemplate.initialValue tmpl) []).

(** The function [setLoadedGameDataPackage] hands to [updateHistory]. A
    package here is one the validator built, so its [characterSheetTemplate]
    and that template's [customFieldTemplates] are there (truthy). *)
Definition loadedGameDataPackageUpdate (gameDataPkg : option GameDataPackage.t)
    (newLoadIdOverride : option string) (currentData : SessionState.t)
  : M SessionState.t :=
  let sheet := SessionState.characterSheet currentData in
  match gameDataPkg with
  | Some pkg =>
      let csTemplate := GameDataPackage.characterSheetTemplate pkg in
      let statsLabel :=
        orElse (SheetTemplate.statsLabel csTemplate)
          (CharacterSheet.statsLabel initialCharacterSheetValues) in
      customFields <-
        (if (length (CharacterSheet.customFields sheet) =? 0)%nat
         then mapM customFieldOfTemplate (SheetTemplate.customFieldTemplates csTemplate)
         else ret (CharacterSheet.customFields sheet)) ;;
      updatedTrackers <-
        (if (length (SessionState.resourceTrackers currentData) =? 0)%nat
            && (0 <? length (GameDataPackage.resourceTrackerTemplates pkg))%nat
         then mapM trackerOfTemplate (GameDataPackage.resourceTrackerTemplates pkg)
         else ret (SessionState.resourceTrackers currentData)) ;;
      let updatedTables :=
        if (length (SessionState.tables currentData) =? 0)%nat
           && (0 <? length (GameDataPackage.randomTables pkg))%nat
        then map copyTable (GameDataPackage.randomTables pkg)
        else SessionState.tables currentData in
      effectiveLoadId <-
        (if truthyId newLoadIdOverride then ret newLoadIdOverride
         else if truthyId (SessionState.gameDataPackageLoadId currentData)
              then ret (SessionState.gameDataPackageLoadId currentData)
              else u <- randomUUID ;; ret (Some u)) ;;
      ret (SessionState.mk (SessionState.sessionId currentData)
             (SessionState.playLogEntries currentData)
             (SessionState.playLogTitle currentData)
             (CharacterSheet.mk (CharacterSheet.name sheet) (CharacterSheet.image sheet)
                (CharacterSheet.stats sheet) statsLabel customFields)
             updatedTables updatedTrackers
             (SessionState.diceRollHistory currentData)
             (SessionState.theme currentData)
             gameDataPkg effectiveLoadId)
  | None =>
      ret (SessionState.mk (SessionState.sessionId currentData)
             (SessionState.playLogEntries currentData)
             (SessionState.playLogTitle currentData)
             (CharacterSheet.mk (CharacterSheet.name sheet) (CharacterSheet.image sheet)
                (CharacterSheet.stats sheet)
                (CharacterSheet.statsLabel initialCharacterSheetValues)
                (CharacterSheet.customFields initialCharacterSheetValues))
             [] []
             (SessionState.diceRollHistory currentData)
             (SessionState.theme currentData)
             None None)
  end.

Definition setLoadedGameDataPackage (gameDataPkg : option GameDataPackage.t)
    (newLoadIdOverride : option string) : App -> M App :=
  updateHistory (onCurrent (loadedGameDataPackageUpdate gameDataPkg newLoadIdOverride)).

(** ** Handlers *)

(** What the user is shown ([alert]). *)
Inductive Alert : Type :=
| SessionLoaded
| SessionLoadFailed (e : exn)
| PackageLoaded (gameTitle : jsval)
| PackageLoadFailed (e : exn).

(** [JSON.parse(result)]: the file's text parsed, [None] where it does not
    parse. *)
Definition parseJSON (parsed : option jsval) : M jsval :=
  match parsed with
  | Some v => ret v
  | None => throw SyntaxError
  end.

Definition handleLoadSession (file : option jsval) (app : App) : M (App * Alert) :=
  tryCatch
    (loadedData <- parseJSON file ;;
     validatedData <- validateAndMigrateData loadedData ;;
     ret (mkApp [validatedData] 0, SessionLoaded))
    (fun error => ret (app, SessionLoadFailed error)).

(** The [try] block of [handleLoadGameDataPackageFile]. *)
Definition tryLoadGameDataPackage (file : option jsval) (app : App)
  : M (App * Alert) :=
  parsed <- parseJSON file ;;
  validated <- validateAndMigrateData (VObj [("loadedGameDataPackage", parsed)]) ;;
  match SessionState.loadedGameDataPackage validated with
  | None => throw (Error "無効なゲームデータパッケージ形式です。")
  | Some loadedGameData =>
      let gameTitle := get (VObj (GameDataPackage.manifest loadedGameData)) "gameTitle" in
      if negb (truthy gameTitle)
      then throw (Error "無効なゲームデータパッケージ形式です。")
      else
        newLoadId <- randomUUID ;;
        app' <- setLoadedGameDataPackage (Some loadedGameData) (Some newLoadId) app ;;
        ret (app', PackageLoaded gameTitle)
  end.

Definition handleLoadGameDataPackageFile (file : option jsval) (app : App)
  : M (App * Alert) :=
  tryCatch (tryLoadGameDataPackage file app)
    (fun error =>
       app' <- setLoadedGameDataPackage None None app ;;
       ret (app', PackageLoadFailed error)).



(** [${n}] for a number. *)
Definition showNumber (z : Z) : string := toDisplayString (VNum z).

(** The function [handleReflectTrackerChange] maps over the trackers:
    [{ ...t, value: newValue, history: [record, ...t.history.slice(0, 49)] }]
    for a tracker of the given id, the tracker itself otherwise. *)
Definition reflectInto (id : string) (newValue : Z) (record : TrackerRecord.t)
    (t : ResourceTracker.t) : ResourceTracker.t :=
  if (ResourceTracker.id t =? id)%string
  then ResourceTracker.mk (ResourceTracker.id t) (ResourceTracker.name t) newValue
         (record :: slice (ResourceTracker.history t) 0 49)
  else t.

(** [ResourceTrackerPanel]'s [handleReflectTrackerChange]; [trackers] is the
    panel's prop, [setTrackers] is [setResourceTrackers] and [addLogEntry] is
    [addPlayLogEntry], as [App] passes them. *)
Definition handleReflectTrackerChange (trackers : list ResourceTracker.t)
    (id : string) (newValueFromItem : Z) (reason : string) (app : App) : M App :=
  match find (fun t => (ResourceTracker.id t =? id)%string) trackers with
  | None => ret app
  | Some currentTracker =>
      let previousValue := ResourceTracker.value currentTracker in
      let newValue := newValueFromItem in
      let changeAmount := newValue - previousValue in
      let trackerName :=
        toDisplayString
          (orElse (ResourceTracker.name currentTracker) (VStr "名称未設定トラッカー")) in
      let trimmedReason := trim reason in
      recordId <- randomUUID ;;
      let logEntryForInternalHistory :=
        TrackerRecord.mk recordId nowISO changeAmount previousValue newValue
          trimmedReason in
      let newTrackersArray :=
        map (reflectInto id newValue logEntryForInternalHistory) trackers in
      let valueActuallyChanged := negb (newValue =? previousValue) in
      let reasonActuallyProvided := negb (trimmedReason =? "")%string in
      let reasonSuffix :=
        if negb (trimmedReason =? "")%string
        then (" 理由: " ++ trimmedReason)%string
        else "" in
      if valueActuallyChanged || reasonActuallyProvided then
        let logMessage :=
          if valueActuallyChanged
          then ("リソース「" ++ trackerName ++ "」変更: " ++ showNumber previousValue
                  ++ " → " ++ showNumber newValue
                  ++ " (" ++ (if changeAmount >? 0 then "+" else "")
                  ++ showNumber changeAmount ++ ")" ++ reasonSuffix)%string
          else ("リソース「" ++ trackerName ++ "」確認: " ++ showNumber newValue
                  ++ reasonSuffix)%string in
        addPlayLogEntry logMessage "normal" "default" (Some newTrackersArray) app
      else
        if stringifyDiffers (VArr (map ResourceTracker_object newTrackersArray))
             (VArr (map ResourceTracker_object trackers))
        then setResourceTrackers (Plain newTrackersArray) app
        else ret app
  end.



End Engine.

(** ** The panels: handlers of the components [App] renders

    A handler is given the props and the component state it reads as
    parameters. [App] passes [addPlayLogEntry] as [addLogEntry] and
    [onAddEntry], [updatePlayLogEntry] as [onUpdateEntry],
    [deletePlayLogEntry] as [onDeleteEntry], [setPlayLogTitle] as
    [onPlayLogTitleChange], [setResourceTrackers] as [setTrackers] and
    [setTables] as it is. What a handler does to the state only its own
    component shows (which item is being edited, the text of an input) is
    left out, as are [alert] and [console]. *)

(** [v === s] for a string [s]. *)
Definition isTheString (v : jsval) (s : string) : bool :=
  match v with VStr x => (x =? s)%string | _ => false end.

Section Panels.
Context `{Host}.






(** [ResourceTrackerPanel]'s [handleDeleteTracker]. *)
Definition handleDeleteTracker (trackers : list ResourceTracker.t) (id : string)
    (app : App) : M App :=
  match find (fun t => (ResourceTracker.id t =? id)%string) trackers with
  | None => ret app
  | Some trackerToDelete =>
      let trackerName :=
        toDisplayString
          (orElse (ResourceTracker.name trackerToDelete) (VStr "不明なトラッカー")) in
      let newTrackersArray :=
        filter (fun t => negb (ResourceTracker.id t =? id)%string) trackers in
      addPlayLogEntry
        ("リソーストラッカー「" ++ trackerName ++ "」を削除しました。")%string
        "normal" "yellow" (Some newTrackersArray) app
  end.



End Panels.

(** ** Text: what the patterns and the string methods of the utilities do

    The patterns of the dice and table utilities match ASCII characters
    only, and a string is read character by character. Integers are exact:
    the integers beyond 2^53, which JavaScript rounds, are outside the model
    as fractions are. *)

(** [\d] *)
Definition isDigit (c : ascii) : bool :=
  let n := nat_of_ascii c in ((48 <=? n) && (n <=? 57))%nat.

(** The digits a greedy [\d] repetition takes at the head of [s], and what
    it leaves. *)
Fixpoint takeDigits (s : string) : string * string :=
  match s with
  | EmptyString => (EmptyString, EmptyString)
  | String c r =>
      if isDigit c
      then let (digits, rest) := takeDigits r in (String c digits, rest)
      else (EmptyString, s)
  end.

(** [parseInt(s)] and [parseInt(s, 10)] for a string of digits, the only
    strings the patterns hand them. *)
Definition parseInt (digits : string) : Z :=
  match NilZero.uint_of_string digits with
  | Some d => Z.of_uint d
  | None => 0
  end.

(** [String.prototype.toLowerCase], over the ASCII letters. *)
Definition lowerChar (c : ascii) : ascii :=
  let n := nat_of_ascii c in
  if ((65 <=? n) && (n <=? 90))%nat then ascii_of_nat (n + 32) else c.

Fixpoint toLowerCase (s : string) : string :=
  match s with
  | EmptyString => EmptyString
  | String c r => String (lowerChar c) (toLowerCase r)
  end.

(** ** Dice commands ([utils/diceUtils.js]) *)

(** [fatePattern], anchored at both ends: digits or none (the first group),
    [d], then [f] or [F]. The first group of a match. *)
Definition fatePattern (s : string) : option string :=
  let (numDiceStr, rest) := takeDigits s in
  if (rest =? "df")%string || (rest =? "dF")%string then Some numDiceStr else None.

(** [standardPattern], anchored at both ends: digits or none (group 1), [d],
    digits (group 2) and then, or not, a sign [+] or [-] (group 3) with
    digits (group 4). The groups of a match. *)
Definition standardPattern (s : string)
  : option (string * string * option (ascii * string)) :=
  let (numDiceStr, rest) := takeDigits s in
  match rest with
  | String "d"%char afterD =>
      let (sidesStr, rest) := takeDigits afterD in
      if (sidesStr =? "")%string then None
      else
        match rest with
        | EmptyString => Some (numDiceStr, sidesStr, None)
        | String operator afterOperator =>
            if Ascii.eqb operator "+" || Ascii.eqb operator "-"
            then
              let (modifierStr, rest) := takeDigits afterOperator in
              if negb (modifierStr =? "")%string && (rest =? "")%string
              then Some (numDiceStr, sidesStr, Some (operator, modifierStr))
              else None
            else None
        end
  | _ => None
  end.

(** What [parseAndRollDice] returns: [{ error }] or
    [{ command, individualRolls, total }]. *)
Inductive RollResult : Type :=
| RollError (error : string)
| Rolled (command : string) (individualRolls : list Z) (total : Z).

(** [l.reduce((sum, roll) => sum + roll, 0)] *)
Definition sumRolls (l : list Z) : Z := fold_left Z.add l 0.

Section Dice.

(** [random i] is what the [i]-th call of [Math.random()] returns. *)
Variable random : nat -> Q.

(** [Array(numDice).fill(0).map(() => die(Math.random()))] when [drawn]
    calls have been made before. *)
Definition rollDice (die : Q -> Z) (numDice : Z) (drawn : nat) : list Z :=
  map (fun k => die (random (drawn + k))) (seq 0 (Z.to_nat numDice)).

Definition parseAndRollDice (command : string) (drawn : nat) : RollResult :=
  let originalCommand := trim command in
  let lowerCommand := toLowerCase originalCommand in
  match fatePattern lowerCommand with
  | Some numDiceStr =>
      let numDice := if (numDiceStr =? "")%string then 1 else parseInt numDiceStr in
      if (numDice <=? 0) || (numDice >? 100)
      then RollError "ダイスの数は1から100の間でなければなりません。"
      else
        let individualRolls :=
          rollDice (fun r => Qfloor (r * 3) - 1) numDice drawn in
        Rolled originalCommand individualRolls (sumRolls individualRolls)
  | None =>
      match standardPattern lowerCommand with
      | Some (numDiceStr, sidesStr, modifierPart) =>
          let numDice :=
            if (numDiceStr =? "")%string then 1 else parseInt numDiceStr in
          let sides := parseInt sidesStr in
          let modifier :=
            match modifierPart with
            | Some (_, modifierStr) => parseInt modifierStr
            | None => 0
            end in
          if (numDice <=? 0) || (numDice >? 100)
          then RollError "ダイスの数は1から100の間でなければなりません。"
          else if (sides <=? 1) || (sides >? 1000)
          then RollError "ダイスの面は2から1000の間でなければなりません。"
          else if (modifier <? 0) || (modifier >? 1000)
          then RollError "修正値は0から1000の間でなければなりません。"
          else
            let individualRolls :=
              rollDice (fun r => Qfloor (r * inject_Z sides) + 1) numDice drawn in
            let total := sumRolls individualRolls in
            Rolled originalCommand individualRolls
              (match modifierPart with
               | Some ("+"%char, _) => total + modifier
               | Some ("-"%char, _) => total - modifier
               | _ => total
               end)
      | None => RollError "無効なダイスコマンド形式です。例: 2d6, d20+3, 4dF"
      end
  end.

End Dice.

(** ** Random tables ([components/RandomTablesPanel.js]) *)

(** The patterns of [matchRollToEntry], each anchored at both ends: digits, a
    dash, digits; digits and a plus sign; digits and a dash; digits alone.
    Each gives the groups of a match. *)
Definition rangePattern (s : string) : option (string * string) :=
  let (minStr, rest) := takeDigits s in
  if (minStr =? "")%string then None
  else
    match rest with
    | String "-"%char afterDash =>
        let (maxStr, rest) := takeDigits afterDash in
        if negb (maxStr =? "")%string && (rest =? "")%string
        then Some (minStr, maxStr)
        else None
    | _ => None
    end.

Definition plusPattern (s : string) : option string :=
  let (minStr, rest) := takeDigits s in
  if negb (minStr =? "")%string && (rest =? "+")%string then Some minStr else None.

Definition minusPattern (s : string) : option string :=
  let (maxStr, rest) := takeDigits s in
  if negb (maxStr =? "")%string && (rest =? "-")%string then Some maxStr else None.

Definition exactPattern (s : string) : option string :=
  let (valStr, rest) := takeDigits s in
  if negb (valStr =? "")%string && (rest =? "")%string then Some valStr else None.

(** [rollValueStr] is whatever the entry holds as its [rollValue]: a value
    that is truthy and not a string has no [trim] to call. *)
Definition matchRollToEntry (total : Z) (rollValueStr : jsval) : M bool :=
  if negb (truthy rollValueStr) then ret false
  else
    match rollValueStr with
    | VStr str =>
        if (trim str =? "")%string then ret false
        else
          let trimmedStr := trim str in
          match rangePattern trimmedStr with
          | Some (minStr, maxStr) =>
              ret ((total >=? parseInt minStr) && (total <=? parseInt maxStr))
          | None =>
              match plusPattern trimmedStr with
              | Some minStr => ret (total >=? parseInt minStr)
              | None =>
                  match minusPattern trimmedStr with
                  | Some maxStr => ret (total <=? parseInt maxStr)
                  | None =>
                      match exactPattern trimmedStr with
                      | Some valStr => ret (total =? parseInt valStr)
                      | None => ret false
                      end
                  end
              end
          end
    | _ => throw TypeError
    end.

(** [l.filter(p)] for a test that may raise. *)
Fixpoint filterM {A} (p : A -> M bool) (l : list A) : M (list A) :=
  match l with
  | [] => ret []
  | a :: r =>
      keep <- p a ;;
      rest <- filterM p r ;;
      ret (if keep then a :: rest else rest)
  end.

(** What the panel shows of a roll: [rollResult] and [rollDetails], each
    [null] ([None]) or set. *)
Module RollDetails.
Record t : Type := mk {
  command : jsval;
  rolls : list Z;
  total : Z;
  resultValue : jsval
}.
End RollDetails.

Module RollShown.
Record t : Type := mk {
  rollResult : option jsval;
  rollDetails : option RollDetails.t
}.
End RollShown.

Section TablesPanel.
Context `{Host}.
Variable random : nat -> Q.

(** [RandomTablesPanel]'s [handleRollTable]. [tables] is the panel's prop,
    [selectedTableId] its selection, a string ([null] is read as the empty
    string is), [shown] what it shows before the roll, and [drawn] the number
    of calls of [Math.random()] made before. *)
Definition handleRollTable (tables : list RandomTable.t) (selectedTableId : string)
    (shown : RollShown.t) (drawn : nat) (app : App) : M (App * RollShown.t) :=
  if (selectedTableId =? "")%string then ret (app, shown)
  else
    match find (fun t => isTheString (RandomTable.id t) selectedTableId) tables with
    | None =>
        ret (app, RollShown.mk (Some (VStr "テーブルが空か、選択されていません。")) None)
    | Some table =>
        if (length (RandomTable.entries table) =? 0)%nat
        then ret (app, RollShown.mk (Some (VStr "テーブルが空か、選択されていません。")) None)
        else
          let tableName := toDisplayString (RandomTable.name table) in
          if truthy (RandomTable.diceCommand table) then
            match RandomTable.diceCommand table with
            | VStr diceCommand =>
                match parseAndRollDice random diceCommand drawn with
                | RollError error =>
                    app' <- addPlayLogEntry
                              ("ランダムテーブル「" ++ tableName ++ "」ダイスエラー ("
                                 ++ diceCommand ++ "): " ++ error)%string
                              "normal" "red" None app ;;
                    ret (app', RollShown.mk (Some (VStr ("ダイスエラー: " ++ error))) None)
                | Rolled _ individualRolls total =>
                    matchingEntries <-
                      filterM (fun entry =>
                                 matchRollToEntry total (TableEntry.rollValue entry))
                        (RandomTable.entries table) ;;
                    if (0 <? length matchingEntries)%nat then
                      match nthZ matchingEntries
                              (Qfloor (random (drawn + length individualRolls)%nat
                                       * inject_Z (lengthZ matchingEntries))) with
                      | None => throw TypeError
                      | Some resultEntry =>
                          app' <- addPlayLogEntry
                                    ("ランダムテーブル「" ++ tableName ++ "」 ("
                                       ++ diceCommand ++ " -> " ++ showNumber total
                                       ++ "): "
                                       ++ toDisplayString (TableEntry.value resultEntry))%string
                                    "normal" "default" None app ;;
                          ret (app',
                               RollShown.mk None
                                 (Some (RollDetails.mk (VStr diceCommand)
                                          individualRolls total
                                          (TableEntry.value resultEntry))))
                      end
                    else
                      app' <- addPlayLogEntry
                                ("ランダムテーブル「" ++ tableName ++ "」 ("
                                   ++ diceCommand ++ " -> " ++ showNumber total
                                   ++ "): 該当なし")%string
                                "normal" "yellow" None app ;;
                      ret (app',
                           RollShown.mk None
                             (Some (RollDetails.mk (VStr diceCommand)
                                      individualRolls total (VStr "該当なし"))))
                end
            | _ => throw TypeError
            end
          else
            match nthZ (RandomTable.entries table)
                    (Qfloor (random drawn
                             * inject_Z (lengthZ (RandomTable.entries table)))) with
            | None => throw TypeError
            | Some entry =>
                let result := TableEntry.value entry in
                app' <- addPlayLogEntry
                          ("ランダムテーブル「" ++ tableName ++ "」の結果: "
                             ++ toDisplayString result)%string
                          "normal" "default" None app ;;
                ret (app', RollShown.mk (Some result) None)
            end
    end.

End TablesPanel.

(** ** CSV tables ([utils/csvParser.js]) *)

(** [String.prototype.toUpperCase], over the ASCII letters. *)
Definition upperChar (c : ascii) : ascii :=
  let n := nat_of_ascii c in
  if ((97 <=? n) && (n <=? 122))%nat then ascii_of_nat (n - 32) else c.

Fixpoint toUpperCase (s : string) : string :=
  match s with
  | EmptyString => EmptyString
  | String c r => String (upperChar c) (toUpperCase r)
  end.

(** [s.startsWith(p)] *)
Fixpoint startsWith (s p : string) {struct p} : bool :=
  match p with
  | EmptyString => true
  | String b p' =>
      match s with
      | EmptyString => false
      | String a s' => Ascii.eqb a b && startsWith s' p'
      end
  end.

(** [s.substring(n)] *)
Fixpoint substringFrom (n : nat) (s : string) : string :=
  match n, s with
  | O, _ => s
  | S m, String _ r => substringFrom m r
  | S _, EmptyString => EmptyString
  end.

Definition carriageReturn : ascii := ascii_of_nat 13.
Definition lineFeed : ascii := ascii_of_nat 10.

(** [s.split] at the line ends: a carriage return with a line feed, a line
    feed, a carriage return. *)
Fixpoint splitLines (s : string) : list string :=
  match s with
  | EmptyString => [EmptyString]
  | String c r =>
      if Ascii.eqb c carriageReturn then
        match r with
        | String c' r' =>
            if Ascii.eqb c' lineFeed then EmptyString :: splitLines r'
            else EmptyString :: splitLines r
        | EmptyString => EmptyString :: splitLines r
        end
      else if Ascii.eqb c lineFeed then EmptyString :: splitLines r
      else
        match splitLines r with
        | line :: lines => String c line :: lines
        | [] => [String c EmptyString]
        end
  end.

(** [line.split] at a comma with at least one character after it, for a line
    that holds no line end: [Some (before, after)] stands for the three parts
    [before], [after] and the empty string, [None] for the line alone. The
    first comma is the one: when nothing follows it there is no other. *)
Fixpoint splitAtComma (line : string) : option (string * string) :=
  match line with
  | EmptyString => None
  | String c r =>
      if Ascii.eqb c ","
      then match r with
           | EmptyString => None
           | _ => Some (EmptyString, r)
           end
      else match splitAtComma r with
           | Some (before, after) => Some (String c before, after)
           | None => None
           end
  end.

(** [rollValue] is [None] where the entry has no such member. *)
Module ParsedCSVEntry.
Record t : Type := mk {
  rollValue : option string;
  value : string
}.
End ParsedCSVEntry.

(** [diceCommand] is [None] where it is [null]. *)
Module ParsedCSVResult.
Record t : Type := mk {
  diceCommand : option string;
  entries : list ParsedCSVEntry.t
}.
End ParsedCSVResult.

(** What [parseCSV] resolves with when the file reads as the text
    [csvText]. *)
Definition parseCSV (csvText : string) : ParsedCSVResult.t :=
  let lines := splitLines csvText in
  let firstLine := match lines with first :: _ => first | [] => EmptyString end in
  let hasHeader := startsWith (toUpperCase firstLine) "#DICE:" in
  let diceCommand := if hasHeader then Some (trim (substringFrom 6 firstLine)) else None in
  let lineOffset := if hasHeader then 1%nat else 0%nat in
  let parsedEntries :=
    flat_map
      (fun rawLine =>
         let line := trim rawLine in
         if (String.length line =? 0)%nat then []
         else if truthyId diceCommand then
           match splitAtComma line with
           | Some (before, after) =>
               [ParsedCSVEntry.mk (Some (trim before)) (trim after)]
           | None =>
               if negb (trim line =? "")%string
               then [ParsedCSVEntry.mk None (trim line)]
               else []
           end
         else [ParsedCSVEntry.mk None line])
      (skipn lineOffset lines) in
  ParsedCSVResult.mk diceCommand parsedEntries.


Section ImportPanel.
Context `{Host}.



End ImportPanel.


(** ** The exported page ([generateExportHTMLContent]) *)

(** [s.replace(/c/g, by)] for a pattern of one character [c] and a
    replacement [by] without a dollar sign. *)
Fixpoint replaceChar (c : ascii) (replacement : string) (s : string) : string :=
  match s with
  | EmptyString => EmptyString
  | String a r =>
      if Ascii.eqb a c then (replacement ++ replaceChar c replacement r)%string
      else String a (replaceChar c replacement r)
  end.

Definition doubleQuote : ascii := "034"%char.

(** [escapeHtml], the function [generateExportHTMLContent] passes every text
    of the session through. *)
Definition escapeHtml (unsafe : jsval) : string :=
  match unsafe with
  | VNull | VUndef => ""
  | _ =>
      replaceChar "'" "&#039;"
        (replaceChar doubleQuote "&quot;"
           (replaceChar ">" "&gt;"
              (replaceChar "<" "&lt;"
                 (replaceChar "&" "&amp;" (toDisplayString unsafe)))))
  end.

(** A host to run examples on. *)
Definition host0 : Host := {|
  uuid := fun n => ("uuid-" ++ indexKey n)%string;
  nowISO := "2024-01-01T00:00:00.000Z";
  isValidDate := fun s => negb (s =? "")%string;
  prefersDark := true;
  parseFloat := fun s => option_map Z.of_int (NilZero.int_of_string s)
|}.

(** ** Example data *)

Definition snapshot (id theme : string) : SessionState.t :=
  SessionState.mk id [] initialPlayLogTitle initialCharacterSheetValues
    [] [] [] theme None None.

(** The default session [host0] starts with. *)
Definition fresh0 : SessionState.t := snapshot "uuid-0" "dark".

Definition snapA : SessionState.t := snapshot "uuid-0" "light".
Definition snapB : SessionState.t := snapshot "uuid-0" "earth".
Definition snapC : SessionState.t := snapshot "uuid-0" "pastel".
Definition snapD : SessionState.t := with_playLogTitle "D" snapB.

(** A transform whose result has no session id. *)
Definition dropSessionId : SessionState.t -> SessionState.t := with_sessionId "".

(** A session file whose game-data package lists [null] among its rulebook
    sections. *)
Definition nullSectionFile : jsval :=
  VObj [("loadedGameDataPackage", VObj [("rulebookSections", VArr [VNull])])].

(** A session file whose theme is none of the four themes. *)
Definition neonThemeFile : jsval := VObj [("theme", VStr "neon")].

(** A session in play: one tracker, one table, one custom field, a loaded
    package. *)
Definition package0 : GameDataPackage.t :=
  GameDataPackage.mk
    (spreadInto DEFAULT_manifest [("gameTitle", VStr "Ironsworn")])
    (SheetTemplate.mk (VStr "Stats") [] [] [])
    [] [] [] [].

Definition tracker0 : ResourceTracker.t :=
  ResourceTracker.mk "tracker-T" (VStr "Health") 5 [].

Definition played0 : SessionState.t :=
  SessionState.mk "session-1" [] initialPlayLogTitle
    (CharacterSheet.mk "Kira" None "" (VStr "Stats")
       [CustomField.mk "field-1" (VStr "Bond") "3"])
    [RandomTable.mk (VStr "table-1") (VStr "Oracle") (VStr "") []]
    [tracker0] [] "dark" (Some package0) (Some "load-1").

(** A package file whose manifest has an empty title. *)
Definition untitledPackageFile : jsval :=
  VObj [("manifest", VObj [("gameTitle", VStr "")])].



(** A session file whose log entry and custom-field template carry values
    outside their sets. *)
Definition strayValuesFile : jsval :=
  VObj [("playLogEntries",
         VArr [VObj [("type", VStr "shout"); ("colorKey", VStr "pink")]; VNull]);
        ("loadedGameDataPackage",
         VObj [("characterSheetTemplate",
                VObj [("customFieldTemplates",
                       VArr [VObj [("type", VStr "date")]])])])].

(** A sequence for [Math.random()] to return: 0.25, 0.75, 0.25, ... *)
Definition random0 (i : nat) : Q := if Nat.even i then 1 # 4 else 3 # 4.

(** A table to roll on with a die: 1 to 3 a goblin, 4 to 6 a dragon. *)
Definition foes : RandomTable.t :=
  RandomTable.mk (VStr "t1") (VStr "Foes") (VStr "1d6")
    [TableEntry.mk (VStr "e1") (VStr "Goblin") (VStr "1-3");
     TableEntry.mk (VStr "e2") (VStr "Dragon") (VStr "4-6")].

(** ** Valid session states

    What the data model asks of a SessionState beyond the types of the
    records: entry types and colours from their sets, timestamps that parse,
    strings where the validator demands strings, and for a loaded package the
    shape the validator gives one. *)

Definition isString (v : jsval) : bool :=
  match v with VStr _ => true | _ => false end.

Definition isUndefined (v : jsval) : bool :=
  match v with VUndef => true | _ => false end.




Definition jsonMembers (l : list (string * jsval)) : bool :=
  forallb (fun kv => isJson (snd kv)) l.





Definition validTableEntry (e : TableEntry.t) : bool :=
  isString (TableEntry.id e) && isString (TableEntry.value e)
  && (isString (TableEntry.rollValue e) || isUndefined (TableEntry.rollValue e)).

Definition validTable (t : RandomTable.t) : bool :=
  isString (RandomTable.id t) && isString (RandomTable.name t)
  && isString (RandomTable.diceCommand t)
  && forallb validTableEntry (RandomTable.entries t).







Section Validity.
Context `{Host}.






End Validity.

(** ** Vocabulary of the properties *)

(** The last [n] elements of [l]. *)
Definition lastN {A} (n : nat) (l : list A) : list A :=
  skipn (length l - n) l.

(** A history whose cursor is on its newest snapshot, cut to the capacity. *)
Definition tipApp (all : list SessionState.t) : App :=
  mkApp (lastN 10 all) (lengthZ (lastN 10 all) - 1).




(** The invariant of the history store. *)
Definition wellFormed (app : App) : Prop :=
  0 <= currentSessionIndex app < lengthZ (sessionHistory app)
  /\ lengthZ (sessionHistory app) <= MAX_HISTORY_SIZE.

(** No element of the array [v] is [null] or [undefined] (nothing else has
    elements). *)
Definition noNullish (v : jsval) : bool :=
  forallb (fun e => negb (isNull e || isUndefined e)) (elements v).

(** The arrays of the package [pkg] whose elements the validator reads
    without a test hold neither [null] nor [undefined]. *)
Definition readablePackage (pkg : jsval) : bool :=
  noNullish (get (get pkg "characterSheetTemplate") "customFieldTemplates")
  && noNullish (get pkg "rulebookSections")
  && noNullish (get pkg "randomTables")
  && forallb (fun rt => noNullish (get rt "entries"))
       (elements (get pkg "randomTables"))
  && noNullish (get pkg "resourceTrackerTemplates").

(** [returns o P]: the computation ended with a result, and the result and
    the identifiers drawn satisfy [P]. *)
Definition returns {A} (o : outcome A) (P : A -> nat -> Prop) : Prop :=
  match o with
  | Returned a n => P a n
  | Thrown _ _ => False
  end.

Section Vocabulary.
Context `{Host}.

(** The elements [mapM] builds when each draws one identifier. *)
Fixpoint freshMap {A B} (g : string -> A -> B) (l : list A) (n : nat) : list B :=
  match l with
  | [] => []
  | a :: r => g (uuid n) a :: freshMap g r (S n)
  end.

(** What [updateHistory] computes as [newSessionState]. *)
Definition applyUpdater (u : Updater) (current : option SessionState.t)
  : M (option SessionState.t) :=
  match u with
  | UFunction f => f current
  | UThunk f => f
  | UState s => ret s
  end.



(** The history a commit of [s] leaves: the snapshots up to the cursor, then
    [s], cut to the capacity from the front; the cursor on [s]. *)
Definition committed (app : App) (s : SessionState.t) : App :=
  tipApp (firstn (Z.to_nat (currentSessionIndex app + 1)) (sessionHistory app) ++ [s]).

(** The histories the application can be in. *)
Inductive reachable : App -> Prop :=
| reach_initial saved n app n' :
    initialApp saved n = Returned app n' -> reachable app
| reach_update u app n app' n' :
    reachable app -> updateHistory u app n = Returned app' n' -> reachable app'
| reach_undo app : reachable app -> reachable (handleUndo app)
| reach_redo app : reachable app -> reachable (handleRedo app)
| reach_load file app n app' alert n' :
    reachable app ->
    handleLoadSession file app n = Returned (app', alert) n' -> reachable app'
| reach_reset app n app' n' :
    reachable app -> handleResetApp app n = Returned app' n' -> reachable app'.

End Vocabulary.

(** The user's edits, each a domain mutator. *)
Inductive Edit : Type :=
| AddPlayLogEntry (content type colorKey : string)
    (updatesForSession : option (list ResourceTracker.t))
| DeletePlayLogEntry (id : string)
| UpdatePlayLogEntry (id newContent newColorKey : string)
| SetPlayLogTitle (newTitle : string)
| SetCharacterSheet (newSheetOrUpdater : ValueOrUpdater CharacterSheet.t)
| SetTables (newTablesOrUpdater : ValueOrUpdater (list RandomTable.t))
| SetResourceTrackers (newTrackersOrUpdater : ValueOrUpdater (list ResourceTracker.t))
| SetDiceRollHistory (newHistoryOrUpdater : ValueOrUpdater (list DiceRoll.t))
| SetTheme (newTheme : string)
| SetLoadedGameDataPackage (gameDataPkg : option GameDataPackage.t)
    (newLoadIdOverride : option string).

Definition edit `{Host} (e : Edit) : App -> M App :=
  match e with
  | AddPlayLogEntry content type colorKey updatesForSession =>
      addPlayLogEntry content type colorKey updatesForSession
  | DeletePlayLogEntry id => deletePlayLogEntry id
  | UpdatePlayLogEntry id newContent newColorKey =>
      updatePlayLogEntry id newContent newColorKey
  | SetPlayLogTitle newTitle => setPlayLogTitle newTitle
  | SetCharacterSheet x => setCharacterSheet x
  | SetTables x => setTables x
  | SetResourceTrackers x => setResourceTrackers x
  | SetDiceRollHistory x => setDiceRollHistory x
  | SetTheme newTheme => setTheme newTheme
  | SetLoadedGameDataPackage gameDataPkg newLoadIdOverride =>
      setLoadedGameDataPackage gameDataPkg newLoadIdOverride
  end.

(** ** Vocabulary of the properties of the utilities *)

(** The decimal digits of a number, its sign left out. *)
Definition digitsOf (z : Z) : Decimal.uint :=
  match Z.to_int z with
  | Decimal.Pos d => d
  | Decimal.Neg d => d
  end.

(** Nothing, or the decimal digits of a number that is not negative: what the
    first group of the dice patterns holds. *)
Definition digitsOrNothing (s : string) : Prop :=
  s = "" \/ exists n, 0 <= n /\ s = showNumber n.

(** Every character of [s] is an ASCII character. *)
Fixpoint isAscii (s : string) : bool :=
  match s with
  | EmptyString => true
  | String c r => (nat_of_ascii c <? 128)%nat && isAscii r
  end.

(** A roll value [matchRollToEntry] can read: a falsy value or a string, of
    ASCII characters. *)
Definition readableRollValue (v : jsval) : bool :=
  negb (truthy v) || match v with VStr s => isAscii s | _ => false end.

(** What [matchRollToEntry] answers where it answers. *)
Definition rollMatches (total : Z) (rollValue : jsval) : bool :=
  match matchRollToEntry total rollValue 0%nat with
  | Returned b _ => b
  | Thrown _ _ => false
  end.

(** The snapshot [addPlayLogEntry] builds from [s] when [drawn] identifiers
    have been drawn: one more entry at the end of the log. *)
Definition logged `{Host} (s : SessionState.t) (drawn : nat)
    (content type colorKey : string) : SessionState.t :=
  with_playLogEntries
    (SessionState.playLogEntries s
       ++ [LogEntry.mk (uuid drawn) content type colorKey nowISO]) s.

(** [s] holds neither a carriage return nor a line feed. *)
Fixpoint noLineEnd (s : string) : bool :=
  match s with
  | EmptyString => true
  | String c r =>
      negb (Ascii.eqb c carriageReturn) && negb (Ascii.eqb c lineFeed) && noLineEnd r
  end.

(** [s] holds no comma. *)
Fixpoint noComma (s : string) : bool :=
  match s with
  | EmptyString => true
  | String c r => negb (Ascii.eqb c ",") && noComma r
  end.

(** A text to write in a cell of a CSV file and read back as it is: ASCII,
    on one line, with no white space at its ends. *)
Definition cell (s : string) : bool :=
  isAscii s && noLineEnd s && (trim s =? s)%string.

(** Lines joined by line feeds. *)
Definition joinLines (lines : list string) : string :=
  String.concat (String lineFeed EmptyString) lines.

(** The line of a dice table for a roll value and a value. *)
Definition csvRow (row : string * string) : string :=
  (fst row ++ "," ++ snd row)%string.

(** What [parseCSV] leaves in an entry: a value that is not blank and has no
    white space at its ends, and a roll value, where there is one, without
    white space at its ends. *)
Definition cleanEntry (e : ParsedCSVEntry.t) : Prop :=
  ParsedCSVEntry.value e <> ""
  /\ trim (ParsedCSVEntry.value e) = ParsedCSVEntry.value e
  /\ match ParsedCSVEntry.rollValue e with
     | Some r => trim r = r
     | None => True
     end.


(** The character reference [escapeHtml] has for a character, the character
    itself where it has none. *)
Definition entity (a : ascii) : string :=
  if Ascii.eqb a "&" then "&amp;"
  else if Ascii.eqb a "<" then "&lt;"
  else if Ascii.eqb a ">" then "&gt;"
  else if Ascii.eqb a doubleQuote then "&quot;"
  else if Ascii.eqb a "'" then "&#039;"
  else String a EmptyString.

(** [s] with every character replaced by what [f] gives for it, in one
    pass. *)
Fixpoint substitute (f : ascii -> string) (s : string) : string :=
  match s with
  | EmptyString => EmptyString
  | String a r => (f a ++ substitute f r)%string
  end.

(** [s] holds the character [c]. *)
Fixpoint occurs (c : ascii) (s : string) : bool :=
  match s with
  | EmptyString => false
  | String a r => Ascii.eqb a c || occurs c r
  end.
(** * Properties *)

(** Proof steps used throughout. *)




(** ** Arrays *)

Lemma slice_from_start {A} (l : list A) (k : Z) :
  0 <= k -> slice l 0 k = firstn (Z.to_nat k) l.
Proof.
  intros Hk. unfold slice, sliceBound, lengthZ.
  replace (0 <? 0) with false by reflexivity.
  destruct (k <? 0) eqn:E; [apply Z.ltb_lt in E; lia|].
  rewrite (Z.min_l 0) by lia. cbn [Z.to_nat skipn]. rewrite Z.sub_0_r.
  destruct (Z.le_gt_cases k (Z.of_nat (length l))) as [Hle|Hgt].
  - rewrite Z.min_l by lia. reflexivity.
  - rewrite Z.min_r by lia. rewrite Nat2Z.id.
    rewrite !firstn_all2 by lia. reflexivity.
Qed.

Lemma sliceFrom_nonneg {A} (l : list A) (k : Z) :
  0 <= k -> sliceFrom l k = skipn (Z.to_nat k) l.
Proof.
  intros Hk. unfold sliceFrom, slice, sliceBound, lengthZ.
  destruct (k <? 0) eqn:E; [apply Z.ltb_lt in E; lia|].
  destruct (Z.of_nat (length l) <? 0) eqn:E2; [apply Z.ltb_lt in E2; lia|].
  rewrite (Z.min_l (Z.of_nat (length l))) by lia.
  destruct (Z.le_gt_cases k (Z.of_nat (length l))) as [Hle|Hgt].
  - rewrite Z.min_l by lia.
    apply firstn_all2. rewrite length_skipn. lia.
  - rewrite Z.min_r by lia. rewrite Nat2Z.id.
    rewrite !skipn_all2 by lia. apply firstn_nil.
Qed.

Lemma lastN_length {A} (n : nat) (l : list A) :
  length (lastN n l) = Nat.min n (length l).
Proof. unfold lastN. rewrite length_skipn. lia. Qed.

Lemma lastN_short {A} (n : nat) (l : list A) :
  (length l <= n)%nat -> lastN n l = l.
Proof.
  intros Hl. unfold lastN. replace (length l - n)%nat with 0%nat by lia.
  reflexivity.
Qed.


Lemma lastN_snoc_last {A} (n : nat) (l : list A) (x : A) :
  (0 < n)%nat ->
  nth_error (lastN n (l ++ [x])) (length (lastN n (l ++ [x])) - 1) = Some x.
Proof.
  intros Hn. rewrite lastN_length. unfold lastN.
  rewrite nth_error_skipn, length_app. cbn [length].
  replace (length l + 1 - n + (Nat.min n (length l + 1) - 1))%nat
    with (length l) by lia.
  rewrite nth_error_app2 by lia. rewrite Nat.sub_diag. reflexivity.
Qed.

(** ** The history store *)

Section HistoryFacts.
Context `{Host}.

Lemma truncate_to_capacity (l : list SessionState.t) :
  (if lengthZ l >? MAX_HISTORY_SIZE
   then sliceFrom l (lengthZ l - MAX_HISTORY_SIZE) else l) = lastN 10 l.
Proof.
  unfold MAX_HISTORY_SIZE, lengthZ.
  destruct (Z.of_nat (length l) >? 10) eqn:E.
  - apply Z.gtb_lt in E. rewrite sliceFrom_nonneg by lia.
    unfold lastN. f_equal. lia.
  - rewrite lastN_short; [reflexivity|].
    destruct (Z.gtb_spec (Z.of_nat (length l)) 10); [discriminate|lia].
Qed.

Lemma updateHistory_unfold (u : Updater) (app : App) (n : nat) :
  updateHistory u app n =
  match applyUpdater u (currentSessionData app) n with
  | Returned None n' => Returned app n'
  | Returned (Some s) n' =>
      if (SessionState.sessionId s =? "")%string then Returned app n'
      else Returned
             (tipApp (slice (sessionHistory app) 0 (currentSessionIndex app + 1) ++ [s]))
             n'
  | Thrown e n' => Thrown e n'
  end.
Proof.
  unfold updateHistory, bind, applyUpdater, currentSessionData.
  destruct u as [f|f|s0]; cbn beta iota.
  - destruct (f _ n) as [[s|] n'|e n']; try reflexivity.
    destruct (SessionState.sessionId s =? "")%string; [reflexivity|].
    unfold ret, tipApp. rewrite truncate_to_capacity. reflexivity.
  - destruct (f n) as [[s|] n'|e n']; try reflexivity.
    destruct (SessionState.sessionId s =? "")%string; [reflexivity|].
    unfold ret, tipApp. rewrite truncate_to_capacity. reflexivity.
  - unfold ret. destruct s0 as [s|]; try reflexivity.
    destruct (SessionState.sessionId s =? "")%string; [reflexivity|].
    unfold tipApp. rewrite truncate_to_capacity. reflexivity.
Qed.

(** A commit whose new state carries a session id. *)
Lemma updateHistory_accept (u : Updater) (app : App) (s : SessionState.t) (n n' : nat) :
  0 <= currentSessionIndex app + 1 ->
  applyUpdater u (currentSessionData app) n = Returned (Some s) n' ->
  SessionState.sessionId s <> "" ->
  updateHistory u app n = Returned (committed app s) n'.
Proof.
  intros Hidx Hu Hid. rewrite updateHistory_unfold, Hu.
  apply String.eqb_neq in Hid. rewrite Hid.
  unfold committed. rewrite slice_from_start by exact Hidx. reflexivity.
Qed.

(** An update is either dropped or a commit. *)
Lemma updateHistory_cases (u : Updater) (app app' : App) (n n' : nat) :
  0 <= currentSessionIndex app + 1 ->
  updateHistory u app n = Returned app' n' ->
  app' = app \/
  exists s, app' = committed app s /\ SessionState.sessionId s <> ""
            /\ applyUpdater u (currentSessionData app) n = Returned (Some s) n'.
Proof.
  intros Hidx. rewrite updateHistory_unfold.
  destruct (applyUpdater u (currentSessionData app) n) as [[s|] m|e m];
    [|intros [= <- <-]; now left|discriminate].
  destruct (SessionState.sessionId s =? "")%string eqn:E.
  - intros [= <- <-]. now left.
  - intros [= <- <-]. right. exists s. apply String.eqb_neq in E.
    unfold committed. rewrite slice_from_start by exact Hidx. auto.
Qed.

Lemma tipApp_wellFormed (l : list SessionState.t) (s : SessionState.t) :
  wellFormed (tipApp (l ++ [s])).
Proof.
  unfold wellFormed, tipApp, lengthZ, MAX_HISTORY_SIZE. cbn [sessionHistory currentSessionIndex].
  rewrite lastN_length, length_app. cbn [length]. lia.
Qed.

Lemma single_wellFormed (s : SessionState.t) : wellFormed (mkApp [s] 0).
Proof. unfold wellFormed, lengthZ, MAX_HISTORY_SIZE. cbn. lia. Qed.

(** [0 <= cursor < history.length <= 10] in every reachable history. *)
Lemma reachable_wellFormed (app : App) : reachable app -> wellFormed app.
Proof.
  induction 1 as [saved n app n' Hinit|u app n app' n' _ IH Hup|app _ IH|app _ IH
                 |file app n app' alert n' _ IH Hload|app n app' n' _ IH Hreset].
  - unfold initialApp, bind in Hinit.
    destruct (tryCatch _ _ n) as [s m|e m]; [|discriminate].
    injection Hinit as <- _. apply single_wellFormed.
  - destruct IH as [Hc Hl].
    destruct (updateHistory_cases u app app' n n') as [->|[s [-> _]]];
      [lia|exact Hup|split; assumption|apply tipApp_wellFormed].
  - unfold wellFormed, handleUndo in *. cbn [sessionHistory currentSessionIndex] in *. lia.
  - unfold wellFormed, handleRedo in *. cbn [sessionHistory currentSessionIndex] in *. lia.
  - unfold handleLoadSession, tryCatch, bind in Hload.
    destruct (parseJSON file n) as [v m|e m].
    + destruct (validateAndMigrateData v m) as [s k|e k].
      * injection Hload as <- _ _. apply single_wellFormed.
      * injection Hload as <- _ _. exact IH.
    + injection Hload as <- _ _. exact IH.
  - unfold handleResetApp, bind in Hreset.
    destruct (getInitialSessionData n) as [s m|e m]; [|discriminate].
    injection Hreset as <- _. apply single_wellFormed.
Qed.

End HistoryFacts.

Section CommitFacts.
Context `{Host}.


Lemma tipApp_current (l : list SessionState.t) (s : SessionState.t) :
  currentSessionData (tipApp (l ++ [s])) = Some s.
Proof.
  unfold currentSessionData, tipApp, nthZ, lengthZ.
  cbn [sessionHistory currentSessionIndex].
  pose proof (lastN_length 10 (l ++ [s])) as Hlen.
  rewrite length_app in Hlen. cbn [length] in Hlen.
  destruct (Z.ltb_spec (Z.of_nat (length (lastN 10 (l ++ [s]))) - 1) 0); [lia|].
  replace (Z.to_nat (Z.of_nat (length (lastN 10 (l ++ [s]))) - 1))
    with (length (lastN 10 (l ++ [s])) - 1)%nat by lia.
  apply lastN_snoc_last. lia.
Qed.






End CommitFacts.


(** C8. A commit that appends a new snapshot (its new state carries a session
    id) while the cursor is not at the last index keeps the snapshots up to
    the cursor, drops every snapshot after it and puts the new one last; the
    cursor is on it, and redo right after changes nothing. *)
Theorem commit_discards_redo_branch (u : Updater) (app : App)
    (s : SessionState.t) (n n' : nat) :
  0 <= currentSessionIndex app < lengthZ (sessionHistory app) - 1 ->
  applyUpdater u (currentSessionData app) n = Returned (Some s) n' ->
  SessionState.sessionId s <> "" ->
  exists app',
    updateHistory u app n = Returned app' n'
    /\ sessionHistory app'
       = lastN 10 (firstn (Z.to_nat (currentSessionIndex app + 1)) (sessionHistory app)
                     ++ [s])
    /\ (lengthZ (sessionHistory app) <= MAX_HISTORY_SIZE ->
        sessionHistory app'
        = firstn (Z.to_nat (currentSessionIndex app + 1)) (sessionHistory app) ++ [s])
    /\ currentSessionData app' = Some s
    /\ currentSessionIndex app' = lengthZ (sessionHistory app') - 1
    /\ handleRedo app' = app'.
Proof.
  intros Hidx Hu Hid. exists (committed app s).
  split; [apply updateHistory_accept; [lia|exact Hu|exact Hid]|].
  split; [reflexivity|].
  split.
  - intros Hcap. unfold committed, tipApp. cbn [sessionHistory].
    apply lastN_short. rewrite length_app, length_firstn. cbn [length].
    unfold lengthZ, MAX_HISTORY_SIZE in *. lia.
  - split; [apply tipApp_current|]. split; [reflexivity|].
    unfold handleRedo, committed, tipApp. cbn [sessionHistory currentSessionIndex].
    f_equal. lia.
Qed.

(** C9 (as amended). From every reachable history whose cursor is not at
    index 0, or which holds a single snapshot, undo and then redo return to
    the same cursor and so to the same snapshot; undo sets the cursor to
    max(0, cursor - 1) and redo to min(history.length - 1, cursor + 1). *)
Theorem undo_then_redo `{Host} (app : App) :
  reachable app ->
  0 < currentSessionIndex app \/ lengthZ (sessionHistory app) = 1 ->
  currentSessionIndex (handleUndo app) = Z.max 0 (currentSessionIndex app - 1)
  /\ currentSessionIndex (handleRedo app)
     = Z.min (lengthZ (sessionHistory app) - 1) (currentSessionIndex app + 1)
  /\ handleRedo (handleUndo app) = app
  /\ currentSessionData (handleRedo (handleUndo app)) = currentSessionData app.
Proof.
  intros Hreach Hpos. destruct (reachable_wellFormed app Hreach) as [Hc Hl].
  assert (E : handleRedo (handleUndo app) = app).
  { destruct app as [h c]. unfold handleRedo, handleUndo.
    cbn [sessionHistory currentSessionIndex] in *. f_equal. lia. }
  split; [reflexivity|]. split; [reflexivity|]. split; [exact E|].
  rewrite E. reflexivity.
Qed.



Lemma commit_discards_redo_branch_witness :
  exists app',
    updateHistory (UState (Some snapD)) (mkApp [fresh0; snapA; snapB; snapC] 1) 0%nat
    = Returned app' 0%nat
    /\ sessionHistory app'
       = lastN 10 (firstn (Z.to_nat (1 + 1)) [fresh0; snapA; snapB; snapC] ++ [snapD])
    /\ (lengthZ [fresh0; snapA; snapB; snapC] <= MAX_HISTORY_SIZE ->
        sessionHistory app'
        = firstn (Z.to_nat (1 + 1)) [fresh0; snapA; snapB; snapC] ++ [snapD])
    /\ currentSessionData app' = Some snapD
    /\ currentSessionIndex app' = lengthZ (sessionHistory app') - 1
    /\ handleRedo app' = app'.
Proof.
  apply (commit_discards_redo_branch (UState (Some snapD))
           (mkApp [fresh0; snapA; snapB; snapC] 1) snapD 0%nat 0%nat).
  - vm_compute. split; [discriminate|reflexivity].
  - reflexivity.
  - discriminate.
Defined.

Lemma reachable_two_snapshots : @reachable host0 (mkApp [fresh0; snapA] 1).
Proof.
  apply (@reach_update host0 (UState (Some snapA)) (mkApp [fresh0] 0) 1%nat
           (mkApp [fresh0; snapA] 1) 1%nat).
  - apply (@reach_initial host0 None 0%nat (mkApp [fresh0] 0) 1%nat). reflexivity.
  - reflexivity.
Defined.

Lemma undo_then_redo_witness :
  currentSessionIndex (handleUndo (mkApp [fresh0; snapA] 1))
  = Z.max 0 (currentSessionIndex (mkApp [fresh0; snapA] 1) - 1)
  /\ currentSessionIndex (handleRedo (mkApp [fresh0; snapA] 1))
     = Z.min (lengthZ (sessionHistory (mkApp [fresh0; snapA] 1)) - 1)
         (currentSessionIndex (mkApp [fresh0; snapA] 1) + 1)
  /\ handleRedo (handleUndo (mkApp [fresh0; snapA] 1)) = mkApp [fresh0; snapA] 1
  /\ currentSessionData (handleRedo (handleUndo (mkApp [fresh0; snapA] 1)))
     = currentSessionData (mkApp [fresh0; snapA] 1).
Proof.
  apply (@undo_then_redo host0 (mkApp [fresh0; snapA] 1) reachable_two_snapshots).
  left. reflexivity.
Defined.

(** C9, counterexample: after one commit and one undo the history is
    [fresh0; snapA] with the cursor at 0. Undo leaves the cursor at 0, redo
    then moves it to 1: the current snapshot is [snapA], not [fresh0]. *)
Lemma undo_then_redo_at_first_snapshot :
  @reachable host0 (mkApp [fresh0; snapA] 0)
  /\ currentSessionData (mkApp [fresh0; snapA] 0) = Some fresh0
  /\ handleRedo (handleUndo (mkApp [fresh0; snapA] 0)) = mkApp [fresh0; snapA] 1
  /\ currentSessionData (handleRedo (handleUndo (mkApp [fresh0; snapA] 0))) = Some snapA
  /\ fresh0 <> snapA.
Proof.
  split; [exact (@reach_undo host0 _ reachable_two_snapshots)|].
  repeat split. discriminate.
Qed.

(** ** The validator *)

(** C1. The validator is not total: on a session file whose game-data package
    has [null] among its [rulebookSections], reading [section.id] raises a
    TypeError (after the two identifiers drawn for the defaults), where the
    claim has it return a SessionState. *)
Theorem validateAndMigrateData_throws_on_null_section `{Host} (n : nat) :
  validateAndMigrateData nullSectionFile n = Thrown TypeError (S (S n)).
Proof. reflexivity. Qed.

(** [null], a string and the empty object are all answered with defaults. *)
Lemma validateAndMigrateData_defaults `{Host} (n : nat) :
  validateAndMigrateData VNull n = getInitialSessionData n
  /\ validateAndMigrateData (VStr "garbage") n = getInitialSessionData n
  /\ validateAndMigrateData (VObj []) n
     = Returned (SessionState.mk (uuid (S (S n))) [] initialPlayLogTitle
                   initialCharacterSheetValues [] [] [] initialDefaultTheme None None)
         (S (S (S n))).
Proof. repeat split. Qed.

(** C10. The theme is not checked against the themes: on a session file whose
    theme is the string neon the validated theme is neon, which is none of
    dark, light, earth and pastel. *)
Theorem validateAndMigrateData_keeps_unknown_theme `{Host} (n : nat) :
  exists s n',
    validateAndMigrateData neonThemeFile n = Returned s n'
    /\ SessionState.theme s = "neon"
    /\ includes themeOptions (SessionState.theme s) = false.
Proof.
  exists (SessionState.mk (uuid (S (S n))) [] initialPlayLogTitle
            initialCharacterSheetValues [] [] [] "neon" None None).
  exists (S (S (S n))). repeat split.
Qed.

(** ** The domain mutators *)

Section MutatorFacts.
Context `{Host}.

Lemma updateHistory_onCurrent (f : SessionState.t -> M SessionState.t) (app : App)
    (s s' : SessionState.t) (n n' : nat) :
  currentSessionData app = Some s ->
  0 <= currentSessionIndex app + 1 ->
  f s n = Returned s' n' ->
  SessionState.sessionId s' <> "" ->
  updateHistory (onCurrent f) app n = Returned (committed app s') n'.
Proof.
  intros Hcur Hidx Hf Hid. apply updateHistory_accept; [exact Hidx| |exact Hid].
  rewrite Hcur. cbn [applyUpdater onCurrent]. unfold bind. rewrite Hf. reflexivity.
Qed.

Lemma mapM_fresh {A B} (g : string -> A -> B) (l : list A) :
  forall n,
    mapM (fun a => id <- randomUUID ;; ret (g id a)) l n
    = Returned (freshMap g l n) (length l + n).
Proof.
  induction l as [|a r IH]; intros n; [reflexivity|].
  cbn [mapM freshMap length]. unfold bind at 1 2. cbn [randomUUID ret].
  unfold bind. rewrite IH. unfold ret. f_equal. lia.
Qed.

Lemma freshMap_map {A B C} (g : string -> A -> B) (p : B -> C) (q : A -> C)
    (l : list A) :
  (forall id a, p (g id a) = q a) ->
  forall n, map p (freshMap g l n) = map q l.
Proof.
  intros Hpq. induction l as [|a r IH]; intros n; [reflexivity|].
  cbn [freshMap map]. now rewrite Hpq, IH.
Qed.

Lemma length_zero_eqb {A} (l : list A) :
  (length l =? 0)%nat = match l with [] => true | _ => false end.
Proof. destruct l; reflexivity. Qed.

End MutatorFacts.

Lemma returns_exists {A} (o : outcome A) (P : A -> nat -> Prop) :
  returns o P <-> exists a n, o = Returned a n /\ P a n.
Proof.
  split.
  - destruct o as [a n|e n]; cbn; [eauto|contradiction].
  - intros [a [n [-> HP]]]. exact HP.
Qed.

Lemma returns_bind {A B} (m : M A) (k : A -> M B) (n : nat) (P : B -> nat -> Prop) :
  returns (m n) (fun a n1 => returns (k a n1) P) -> returns (bind m k n) P.
Proof. unfold bind. destruct (m n) as [a n1|e n1]; cbn; auto. Qed.

Lemma returns_weaken {A} (o : outcome A) (P Q : A -> nat -> Prop) :
  returns o P -> (forall a n, P a n -> Q a n) -> returns o Q.
Proof. destruct o as [a n|e n]; cbn; auto. Qed.

Section LoadPackageFacts.
Context `{Host}.

Lemma customFieldsOfTemplates (l : list CustomFieldTemplate.t) (n : nat) :
  returns (mapM customFieldOfTemplate l n)
    (fun fields _ =>
       map (fun cf => (CustomField.fieldName cf, CustomField.fieldValue cf)) fields
       = map (fun tmpl =>
                (CustomFieldTemplate.label tmpl,
                 if (CustomFieldTemplate.type tmpl =? "number")%string then "0" else ""))
           l).
Proof.
  unfold customFieldOfTemplate.
  rewrite (mapM_fresh (fun id tmpl =>
             CustomField.mk id (CustomFieldTemplate.label tmpl)
               (if (CustomFieldTemplate.type tmpl =? "number")%string then "0" else ""))).
  cbn [returns]. apply freshMap_map. reflexivity.
Qed.

Lemma trackersOfTemplates (l : list TrackerTemplate.t) (n : nat) :
  returns (mapM trackerOfTemplate l n)
    (fun trackers _ =>
       map (fun t => (ResourceTracker.name t, ResourceTracker.value t,
                      ResourceTracker.history t)) trackers
       = map (fun tmpl => (TrackerTemplate.name tmpl, TrackerTemplate.initialValue tmpl, []))
           l).
Proof.
  unfold trackerOfTemplate.
  rewrite (mapM_fresh (fun id tmpl =>
             ResourceTracker.mk id (TrackerTemplate.name tmpl)
               (TrackerTemplate.initialValue tmpl) [])).
  cbn [returns]. apply freshMap_map. reflexivity.
Qed.

Lemma effectiveLoadId_returns (loadId current : option string) (n : nat)
    (P : option string -> nat -> Prop) :
  (forall o m, P o m) ->
  returns ((if truthyId loadId then ret loadId
            else if truthyId current then ret current
                 else u <- randomUUID ;; ret (Some u)) n) P.
Proof.
  intros HP. destruct (truthyId loadId); [apply HP|].
  destruct (truthyId current); apply HP.
Qed.

End LoadPackageFacts.

(** What [loadedGameDataPackageUpdate] changes and what it keeps. *)
Lemma loadedGameDataPackageUpdate_frame `{Host} (pkg : GameDataPackage.t)
    (loadId : option string) (s : SessionState.t) (n : nat) :
  returns (loadedGameDataPackageUpdate (Some pkg) loadId s n)
    (fun s' _ =>
       let sheet := SessionState.characterSheet s in
       let sheet' := SessionState.characterSheet s' in
       let template := GameDataPackage.characterSheetTemplate pkg in
       (CharacterSheet.customFields sheet <> [] ->
        CharacterSheet.customFields sheet' = CharacterSheet.customFields sheet)
       /\ (CharacterSheet.customFields sheet = [] ->
           map (fun cf => (CustomField.fieldName cf, CustomField.fieldValue cf))
             (CharacterSheet.customFields sheet')
           = map (fun tmpl =>
                    (CustomFieldTemplate.label tmpl,
                     if (CustomFieldTemplate.type tmpl =? "number")%string
                     then "0" else ""))
               (SheetTemplate.customFieldTemplates template))
       /\ (SessionState.resourceTrackers s <> [] ->
           SessionState.resourceTrackers s' = SessionState.resourceTrackers s)
       /\ (SessionState.resourceTrackers s = [] ->
           map (fun t => (ResourceTracker.name t, ResourceTracker.value t,
                          ResourceTracker.history t))
             (SessionState.resourceTrackers s')
           = map (fun tmpl =>
                    (TrackerTemplate.name tmpl, TrackerTemplate.initialValue tmpl, []))
               (GameDataPackage.resourceTrackerTemplates pkg))
       /\ (SessionState.tables s <> [] -> SessionState.tables s' = SessionState.tables s)
       /\ (SessionState.tables s = [] ->
           SessionState.tables s' = map copyTable (GameDataPackage.randomTables pkg))
       /\ CharacterSheet.statsLabel sheet'
          = orElse (SheetTemplate.statsLabel template) (VStr "能力値・詳細")
       /\ SessionState.loadedGameDataPackage s' = Some pkg
       /\ SessionState.sessionId s' = SessionState.sessionId s
       /\ SessionState.playLogEntries s' = SessionState.playLogEntries s
       /\ SessionState.playLogTitle s' = SessionState.playLogTitle s
       /\ SessionState.diceRollHistory s' = SessionState.diceRollHistory s
       /\ SessionState.theme s' = SessionState.theme s
       /\ CharacterSheet.name sheet' = CharacterSheet.name sheet
       /\ CharacterSheet.image sheet' = CharacterSheet.image sheet
       /\ CharacterSheet.stats sheet' = CharacterSheet.stats sheet)
  /\ returns (loadedGameDataPackageUpdate None loadId s n)
       (fun s' n' =>
          let sheet := SessionState.characterSheet s in
          let sheet' := SessionState.characterSheet s' in
          n' = n
          /\ CharacterSheet.customFields sheet' = []
          /\ SessionState.resourceTrackers s' = []
          /\ SessionState.tables s' = []
          /\ CharacterSheet.statsLabel sheet' = VStr "能力値・詳細"
          /\ SessionState.loadedGameDataPackage s' = None
          /\ SessionState.gameDataPackageLoadId s' = None
          /\ SessionState.sessionId s' = SessionState.sessionId s
          /\ SessionState.playLogEntries s' = SessionState.playLogEntries s
          /\ SessionState.playLogTitle s' = SessionState.playLogTitle s
          /\ SessionState.diceRollHistory s' = SessionState.diceRollHistory s
          /\ SessionState.theme s' = SessionState.theme s
          /\ CharacterSheet.name sheet' = CharacterSheet.name sheet
          /\ CharacterSheet.image sheet' = CharacterSheet.image sheet
          /\ CharacterSheet.stats sheet' = CharacterSheet.stats sheet).
Proof.
  split; [|cbn; repeat split].
  unfold loadedGameDataPackageUpdate.
  apply returns_bind.
  apply returns_weaken with
    (P := fun fields _ =>
            (CharacterSheet.customFields (SessionState.characterSheet s) <> [] ->
             fields = CharacterSheet.customFields (SessionState.characterSheet s))
            /\ (CharacterSheet.customFields (SessionState.characterSheet s) = [] ->
                map (fun cf => (CustomField.fieldName cf, CustomField.fieldValue cf)) fields
                = map (fun tmpl =>
                         (CustomFieldTemplate.label tmpl,
                          if (CustomFieldTemplate.type tmpl =? "number")%string
                          then "0" else ""))
                    (SheetTemplate.customFieldTemplates
                       (GameDataPackage.characterSheetTemplate pkg)))).
  { rewrite length_zero_eqb.
    destruct (CharacterSheet.customFields (SessionState.characterSheet s)) as [|cf r].
    - eapply returns_weaken; [apply customFieldsOfTemplates|].
      intros fields m Hf. split; [congruence|auto].
    - cbn. split; [reflexivity|discriminate]. }
  intros fields n1 [Hkeep Hfill].
  apply returns_bind.
  apply returns_weaken with
    (P := fun trackers _ =>
            (SessionState.resourceTrackers s <> [] ->
             trackers = SessionState.resourceTrackers s)
            /\ (SessionState.resourceTrackers s = [] ->
                map (fun t => (ResourceTracker.name t, ResourceTracker.value t,
                               ResourceTracker.history t)) trackers
                = map (fun tmpl =>
                         (TrackerTemplate.name tmpl, TrackerTemplate.initialValue tmpl, []))
                    (GameDataPackage.resourceTrackerTemplates pkg))).
  { rewrite length_zero_eqb.
    destruct (SessionState.resourceTrackers s) as [|t r].
    - destruct (GameDataPackage.resourceTrackerTemplates pkg) as [|tmpl l] eqn:E.
      + cbn. split; [congruence|reflexivity].
      + cbn [andb length Nat.ltb Nat.leb]. rewrite <- E.
        eapply returns_weaken; [apply trackersOfTemplates|].
        intros trackers m Ht. split; [congruence|auto].
    - cbn. split; [reflexivity|discriminate]. }
  intros trackers n2 [Hkeep2 Hfill2].
  apply returns_bind. apply effectiveLoadId_returns. intros o m.
  cbn [returns ret SessionState.characterSheet SessionState.resourceTrackers
         SessionState.tables CharacterSheet.customFields CharacterSheet.statsLabel
         SessionState.loadedGameDataPackage SessionState.sessionId
         SessionState.playLogEntries SessionState.playLogTitle
         SessionState.diceRollHistory SessionState.theme CharacterSheet.name
         CharacterSheet.image CharacterSheet.stats].
  repeat split; try assumption.
  - intros Ht. rewrite length_zero_eqb.
    destruct (SessionState.tables s); [congruence|reflexivity].
  - intros ->. cbn [length Nat.eqb andb].
    destruct (GameDataPackage.randomTables pkg); reflexivity.
Qed.

(** C7. Loading a package into any session: the custom fields, the resource
    trackers and the tables are kept when the session has some, and built
    from the package's templates (custom fields from the custom-field
    templates, trackers from the resource-tracker templates, tables as a copy
    of the package's tables) when it has none; the stats label is the
    template's, whatever the session held (the application default stands in
    for a falsy label); everything else of the session stays. Clearing
    (no package) resets those fields to the application defaults and nulls the
    package and the load id. *)
Theorem loadGameDataPackage_frame `{Host} (pkg : GameDataPackage.t)
    (loadId : option string) (s : SessionState.t) (n : nat) :
  returns (loadedGameDataPackageUpdate (Some pkg) loadId s n)
    (fun s' _ =>
       let sheet := SessionState.characterSheet s in
       let sheet' := SessionState.characterSheet s' in
       let template := GameDataPackage.characterSheetTemplate pkg in
       (CharacterSheet.customFields sheet <> [] ->
        CharacterSheet.customFields sheet' = CharacterSheet.customFields sheet)
       /\ (CharacterSheet.customFields sheet = [] ->
           map (fun cf => (CustomField.fieldName cf, CustomField.fieldValue cf))
             (CharacterSheet.customFields sheet')
           = map (fun tmpl =>
                    (CustomFieldTemplate.label tmpl,
                     if (CustomFieldTemplate.type tmpl =? "number")%string
                     then "0" else ""))
               (SheetTemplate.customFieldTemplates template))
       /\ (SessionState.resourceTrackers s <> [] ->
           SessionState.resourceTrackers s' = SessionState.resourceTrackers s)
       /\ (SessionState.resourceTrackers s = [] ->
           map (fun t => (ResourceTracker.name t, ResourceTracker.value t,
                          ResourceTracker.history t))
             (SessionState.resourceTrackers s')
           = map (fun tmpl =>
                    (TrackerTemplate.name tmpl, TrackerTemplate.initialValue tmpl, []))
               (GameDataPackage.resourceTrackerTemplates pkg))
       /\ (SessionState.tables s <> [] -> SessionState.tables s' = SessionState.tables s)
       /\ (SessionState.tables s = [] ->
           SessionState.tables s' = map copyTable (GameDataPackage.randomTables pkg))
       /\ CharacterSheet.statsLabel sheet'
          = orElse (SheetTemplate.statsLabel template) (VStr "能力値・詳細")
       /\ SessionState.loadedGameDataPackage s' = Some pkg
       /\ SessionState.sessionId s' = SessionState.sessionId s
       /\ SessionState.playLogEntries s' = SessionState.playLogEntries s
       /\ SessionState.playLogTitle s' = SessionState.playLogTitle s
       /\ SessionState.diceRollHistory s' = SessionState.diceRollHistory s
       /\ SessionState.theme s' = SessionState.theme s
       /\ CharacterSheet.name sheet' = CharacterSheet.name sheet
       /\ CharacterSheet.image sheet' = CharacterSheet.image sheet
       /\ CharacterSheet.stats sheet' = CharacterSheet.stats sheet)
  /\ returns (loadedGameDataPackageUpdate None loadId s n)
       (fun s' n' =>
          let sheet := SessionState.characterSheet s in
          let sheet' := SessionState.characterSheet s' in
          n' = n
          /\ CharacterSheet.customFields sheet' = []
          /\ SessionState.resourceTrackers s' = []
          /\ SessionState.tables s' = []
          /\ CharacterSheet.statsLabel sheet' = VStr "能力値・詳細"
          /\ SessionState.loadedGameDataPackage s' = None
          /\ SessionState.gameDataPackageLoadId s' = None
          /\ SessionState.sessionId s' = SessionState.sessionId s
          /\ SessionState.playLogEntries s' = SessionState.playLogEntries s
          /\ SessionState.playLogTitle s' = SessionState.playLogTitle s
          /\ SessionState.diceRollHistory s' = SessionState.diceRollHistory s
          /\ SessionState.theme s' = SessionState.theme s
          /\ CharacterSheet.name sheet' = CharacterSheet.name sheet
          /\ CharacterSheet.image sheet' = CharacterSheet.image sheet
          /\ CharacterSheet.stats sheet' = CharacterSheet.stats sheet).
Proof. exact (loadedGameDataPackageUpdate_frame pkg loadId s n). Qed.

(** ** Member lists *)

Lemma assoc_None (k : string) (l : list (string * jsval)) :
  assoc k l = None <-> ~ In k (map fst l).
Proof.
  induction l as [|[k0 v0] r IH]; cbn [assoc map fst In].
  - tauto.
  - destruct (assoc k r) as [w|].
    + split; [discriminate|]. intros Hn. exfalso. apply Hn. right.
      destruct (in_dec string_dec k (map fst r)) as [Hin|Hout]; [exact Hin|].
      apply IH in Hout. discriminate.
    + destruct (String.eqb_spec k0 k) as [->|Hne].
      * split; [discriminate|]. intros Hn. exfalso. apply Hn. now left.
      * split; [|reflexivity]. intros _ [Heq|Hin]; [congruence|].
        apply (proj1 IH); [reflexivity|exact Hin].
Qed.

Lemma objSet_keys (k : string) (v : jsval) (l : list (string * jsval)) :
  map fst (objSet k v l)
  = if in_dec string_dec k (map fst l) then map fst l else map fst l ++ [k].
Proof.
  induction l as [|[k0 v0] r IH]; cbn [objSet map fst]; [reflexivity|].
  destruct (String.eqb_spec k0 k) as [->|Hne].
  - cbn [map fst]. destruct (in_dec string_dec k (k :: map fst r)) as [_|Hn];
      [reflexivity|]. exfalso. apply Hn. now left.
  - cbn [map fst]. rewrite IH.
    destruct (in_dec string_dec k (map fst r)) as [Hin|Hout];
      destruct (in_dec string_dec k (k0 :: map fst r)) as [Hin'|Hout'];
      try reflexivity.
    + exfalso. apply Hout'. now right.
    + exfalso. destruct Hin' as [Heq|Hin']; [congruence|auto].
Qed.

Lemma objSet_NoDup (k : string) (v : jsval) (l : list (string * jsval)) :
  NoDup (map fst l) -> NoDup (map fst (objSet k v l)).
Proof.
  intros Hnd. rewrite objSet_keys.
  destruct (in_dec string_dec k (map fst l)) as [Hin|Hout]; [exact Hnd|].
  apply NoDup_app; [exact Hnd|repeat constructor; intros []|].
  intros x Hx [<-|[]]. exact (Hout Hx).
Qed.

Lemma assoc_objSet (k k' : string) (v : jsval) (l : list (string * jsval)) :
  NoDup (map fst l) ->
  assoc k' (objSet k v l) = if (k =? k')%string then Some v else assoc k' l.
Proof.
  induction l as [|[k0 v0] r IH]; intros Hnd; cbn [objSet assoc].
  - destruct (k =? k')%string; reflexivity.
  - cbn [map fst] in Hnd. inversion Hnd as [|? ? Hout Hnd']; subst.
    destruct (String.eqb_spec k0 k) as [->|Hne]; cbn [assoc].
    + destruct (String.eqb_spec k k') as [->|Hne'].
      * apply assoc_None in Hout. rewrite Hout. reflexivity.
      * reflexivity.
    + rewrite (IH Hnd'). destruct (String.eqb_spec k k') as [->|Hne'].
      * reflexivity.
      * reflexivity.
Qed.

Lemma spreadInto_NoDup (src base : list (string * jsval)) :
  NoDup (map fst base) -> NoDup (map fst (spreadInto base src)).
Proof.
  revert base. induction src as [|[k v] r IH]; intros base Hnd; [exact Hnd|].
  apply (IH (objSet k v base)). now apply objSet_NoDup.
Qed.

(** A read of [{...base, ...src}] finds the member of [src], and that of
    [base] where [src] has none. *)
Lemma assoc_spreadInto (k : string) (src base : list (string * jsval)) :
  NoDup (map fst base) ->
  assoc k (spreadInto base src)
  = match assoc k src with Some v => Some v | None => assoc k base end.
Proof.
  revert base. induction src as [|[k0 v0] r IH]; intros base Hnd; [reflexivity|].
  change (spreadInto base ((k0, v0) :: r)) with (spreadInto (objSet k0 v0 base) r).
  rewrite IH by now apply objSet_NoDup.
  cbn [assoc]. destruct (assoc k r); [reflexivity|].
  rewrite assoc_objSet by exact Hnd.
  destruct (k0 =? k)%string; reflexivity.
Qed.

Lemma DEFAULT_manifest_NoDup : NoDup (map fst DEFAULT_manifest).
Proof.
  cbn. repeat constructor; cbn; intuition discriminate.
Qed.

(** ** Loading a game-data package file *)

Section LoadFileFacts.
Context `{Host}.

(** The validator on the wrapper [handleLoadGameDataPackageFile] builds. *)
Lemma validateAndMigrateData_wrapper (l : list (string * jsval)) (n : nat) :
  validateAndMigrateData (VObj [("loadedGameDataPackage", VObj l)]) n
  = match validatePackage (VObj l) (S (S n)) with
    | Returned p k =>
        Returned (SessionState.mk (uuid (S k)) [] initialPlayLogTitle
                    initialCharacterSheetValues [] [] [] initialDefaultTheme
                    (Some p) (Some (uuid k)))
          (S (S k))
    | Thrown e k => Thrown e k
    end.
Proof.
  unfold validateAndMigrateData, bind. cbn -[validatePackage].
  destruct (validatePackage (VObj l) (S (S n))) as [p k|e k]; reflexivity.
Qed.

Lemma validatePackage_manifest (v : jsval) (n k : nat) (p : GameDataPackage.t) :
  validatePackage v n = Returned p k ->
  GameDataPackage.manifest p
  = spreadInto DEFAULT_manifest (ownProps (orElse (get v "manifest") (VObj []))).
Proof.
  unfold validatePackage, bind.
  repeat match goal with
         | |- context [match ?m ?x with Returned _ _ => _ | Thrown _ _ => _ end] =>
             destruct (m x) as [? ?|? ?]; [|discriminate]
         end.
  unfold ret. intros [= <- _]. reflexivity.
Qed.

Lemma empty_title_is_an_object (file : jsval) :
  get (get file "manifest") "gameTitle" = VStr "" ->
  exists l ml, file = VObj l /\ get file "manifest" = VObj ml
               /\ assoc "gameTitle" ml = Some (VStr "").
Proof.
  intros Hg. destruct file as [| | | | |?|l]; try discriminate.
  exists l. destruct (get (VObj l) "manifest") as [| | | | |?|ml] eqn:Em; try discriminate.
  exists ml. repeat split. cbn [get] in Hg.
  destruct (assoc "gameTitle" ml); [congruence|discriminate].
Qed.

(** Every road through the [try] block ends in a throw when the title is
    empty. *)
Lemma empty_title_throws (file : jsval) (app : App) (n : nat) :
  get (get file "manifest") "gameTitle" = VStr "" ->
  exists e k, tryLoadGameDataPackage (Some file) app n = Thrown e k.
Proof.
  intros Hg. destruct (empty_title_is_an_object file Hg) as [l [ml [-> [Hm Ht]]]].
  unfold tryLoadGameDataPackage.
  unfold bind at 1. cbn [parseJSON ret]. unfold bind at 1.
  rewrite validateAndMigrateData_wrapper.
  destruct (validatePackage (VObj l) (S (S n))) as [p k|e k] eqn:Ep; [|eauto].
  cbn [SessionState.loadedGameDataPackage].
  rewrite (validatePackage_manifest _ _ _ _ Ep), Hm.
  cbn [orElse truthy ownProps get].
  rewrite assoc_spreadInto by exact DEFAULT_manifest_NoDup. rewrite Ht.
  cbn [truthy negb String.eqb]. unfold throw. eauto.
Qed.

End LoadFileFacts.

Lemma currentSessionData_index (app : App) (s : SessionState.t) :
  currentSessionData app = Some s -> 0 <= currentSessionIndex app + 1.
Proof.
  unfold currentSessionData, nthZ.
  destruct (Z.ltb_spec (currentSessionIndex app) 0); [discriminate|lia].
Qed.

(** C5 (as amended). Loading a package file whose manifest has an empty
    gameTitle ends in the error alert, and the rejection clears the package:
    one commit whose snapshot has no loaded package and no load id, no
    custom fields, trackers or tables and the default stats label, and
    otherwise the values the session had before the call. *)
Theorem empty_title_package_is_rejected `{Host} (file : jsval) (app : App)
    (s : SessionState.t) (n : nat) :
  get (get file "manifest") "gameTitle" = VStr "" ->
  currentSessionData app = Some s ->
  SessionState.sessionId s <> "" ->
  returns (handleLoadGameDataPackageFile (Some file) app n)
    (fun result _ =>
       exists e s',
         snd result = PackageLoadFailed e
         /\ fst result = committed app s'
         /\ currentSessionData (fst result) = Some s'
         /\ SessionState.loadedGameDataPackage s' = None
         /\ SessionState.gameDataPackageLoadId s' = None
         /\ SessionState.resourceTrackers s' = []
         /\ SessionState.tables s' = []
         /\ CharacterSheet.customFields (SessionState.characterSheet s') = []
         /\ CharacterSheet.statsLabel (SessionState.characterSheet s') = VStr "能力値・詳細"
         /\ SessionState.sessionId s' = SessionState.sessionId s
         /\ SessionState.playLogEntries s' = SessionState.playLogEntries s
         /\ SessionState.playLogTitle s' = SessionState.playLogTitle s
         /\ SessionState.diceRollHistory s' = SessionState.diceRollHistory s
         /\ SessionState.theme s' = SessionState.theme s
         /\ CharacterSheet.name (SessionState.characterSheet s')
            = CharacterSheet.name (SessionState.characterSheet s)
         /\ CharacterSheet.image (SessionState.characterSheet s')
            = CharacterSheet.image (SessionState.characterSheet s)
         /\ CharacterSheet.stats (SessionState.characterSheet s')
            = CharacterSheet.stats (SessionState.characterSheet s)).
Proof.
  intros Hg Hcur Hid.
  destruct (empty_title_throws file app n Hg) as [e [k Hthrow]].
  unfold handleLoadGameDataPackageFile, tryCatch. rewrite Hthrow.
  unfold bind, setLoadedGameDataPackage.
  erewrite updateHistory_onCurrent;
    [|exact Hcur|exact (currentSessionData_index app s Hcur)|reflexivity|exact Hid].
  cbn [returns ret fst snd]. eexists. eexists.
  split; [reflexivity|]. split; [reflexivity|].
  split; [apply tipApp_current|]. repeat split.
Qed.

Lemma empty_title_package_is_rejected_witness :
  returns (@handleLoadGameDataPackageFile host0 (Some untitledPackageFile)
             (mkApp [played0] 0) 0%nat)
    (fun result _ =>
       exists e s',
         snd result = PackageLoadFailed e
         /\ fst result = committed (mkApp [played0] 0) s'
         /\ currentSessionData (fst result) = Some s'
         /\ SessionState.loadedGameDataPackage s' = None
         /\ SessionState.gameDataPackageLoadId s' = None
         /\ SessionState.resourceTrackers s' = []
         /\ SessionState.tables s' = []
         /\ CharacterSheet.customFields (SessionState.characterSheet s') = []
         /\ CharacterSheet.statsLabel (SessionState.characterSheet s') = VStr "能力値・詳細"
         /\ SessionState.sessionId s' = SessionState.sessionId played0
         /\ SessionState.playLogEntries s' = SessionState.playLogEntries played0
         /\ SessionState.playLogTitle s' = SessionState.playLogTitle played0
         /\ SessionState.diceRollHistory s' = SessionState.diceRollHistory played0
         /\ SessionState.theme s' = SessionState.theme played0
         /\ CharacterSheet.name (SessionState.characterSheet s')
            = CharacterSheet.name (SessionState.characterSheet played0)
         /\ CharacterSheet.image (SessionState.characterSheet s')
            = CharacterSheet.image (SessionState.characterSheet played0)
         /\ CharacterSheet.stats (SessionState.characterSheet s')
            = CharacterSheet.stats (SessionState.characterSheet played0)).
Proof.
  apply (@empty_title_package_is_rejected host0 untitledPackageFile
           (mkApp [played0] 0) played0 0%nat).
  - reflexivity.
  - reflexivity.
  - discriminate.
Defined.

(** C5, counterexample: a session in play (a tracker, a table, a custom field,
    a loaded package with its load id) is given a package file whose manifest
    has an empty gameTitle. The load is rejected with the error alert, and the
    session does not keep its values: the loaded package and its load id are
    gone, and so are the tracker, the table and the custom field. *)
Lemma rejected_package_clears_the_session :
  exists cleared k,
    @handleLoadGameDataPackageFile host0 (Some untitledPackageFile)
      (mkApp [played0] 0) 0%nat
    = Returned (mkApp [played0; cleared] 1,
                PackageLoadFailed (Error "無効なゲームデータパッケージ形式です。")) k
    /\ SessionState.loadedGameDataPackage played0 = Some package0
    /\ SessionState.loadedGameDataPackage cleared = None
    /\ SessionState.gameDataPackageLoadId played0 = Some "load-1"
    /\ SessionState.gameDataPackageLoadId cleared = None
    /\ SessionState.resourceTrackers played0 = [tracker0]
    /\ SessionState.resourceTrackers cleared = []
    /\ SessionState.tables played0 <> []
    /\ SessionState.tables cleared = [].
Proof.
  eexists. eexists. split; [vm_compute; reflexivity|].
  repeat split. discriminate.
Qed.

(** ** Adjusting a resource tracker *)

Section AdjustFacts.
Context `{Host}.



End AdjustFacts.



(** Called by itself with the current value and an empty reason,
    [handleReflectTrackerChange] does commit: the new record is in the array it
    compares, so the two [JSON.stringify] texts differ. The guard of
    [handleReflect] is what keeps such a call from happening. *)
Lemma handleReflectTrackerChange_unguarded :
  @handleReflectTrackerChange host0 [tracker0] "tracker-T" 5 "" (mkApp [played0] 0) 0%nat
  = Returned
      (committed (mkApp [played0] 0)
         (with_resourceTrackers
            [ResourceTracker.mk "tracker-T" (VStr "Health") 5
               [TrackerRecord.mk "uuid-0" "2024-01-01T00:00:00.000Z" 0 5 5 ""]]
            played0))
      1%nat.
Proof. vm_compute. reflexivity. Qed.

(** ** The bounds on the dice and tracker histories *)

Section BoundFacts.
Context `{Host}.





End BoundFacts.




(** ** The round trip through JSON *)

(** Induction over values, elements and members included. *)
Lemma jsval_induction (P : jsval -> Prop) :
  P VUndef -> P VNull -> (forall b, P (VBool b)) -> (forall z, P (VNum z)) ->
  (forall s, P (VStr s)) ->
  (forall l, Forall P l -> P (VArr l)) ->
  (forall l, Forall (fun kv => P (snd kv)) l -> P (VObj l)) ->
  forall v, P v.
Proof.
  intros Hu Hn Hb Hz Hs Ha Ho. fix IH 1. intros [| |b|z|s|l|l].
  - exact Hu.
  - exact Hn.
  - apply Hb.
  - apply Hz.
  - apply Hs.
  - apply Ha. induction l as [|x r IHr]; constructor; [apply IH|exact IHr].
  - apply Ho. induction l as [|[k x] r IHr]; constructor; [apply IH|exact IHr].
Qed.

Lemma jsonify_json (v : jsval) : isJson v = true -> jsonify v = v.
Proof.
  induction v as [| |b|z|s|l IH|l IH] using jsval_induction;
    try reflexivity; try discriminate.
  - cbn [isJson jsonify]. intros Hl. f_equal.
    induction IH as [|x r Hx _ IHr]; [reflexivity|].
    cbn [forallb] in Hl. apply andb_prop in Hl as [Hjx Hjr].
    cbn [map]. rewrite (IHr Hjr). f_equal.
    destruct x; try reflexivity; try discriminate; exact (Hx Hjx).
  - cbn [isJson jsonify]. intros Hl. f_equal.
    induction IH as [|[k x] r Hx _ IHr]; [reflexivity|].
    apply andb_prop in Hl as [Hjx Hjr]. cbn [snd] in Hx.
    rewrite (IHr Hjr).
    destruct x; try reflexivity; try discriminate; rewrite (Hx Hjx); reflexivity.
Qed.

Lemma jsonMembers_spec (l : list (string * jsval)) :
  jsonMembers l = true -> jsonify (VObj l) = VObj l.
Proof.
  intros Hl. apply jsonify_json. cbn [isJson].
  induction l as [|[k x] r IH]; [reflexivity|].
  cbn [jsonMembers forallb snd] in Hl. apply andb_prop in Hl as [Hx Hr].
  rewrite Hx. exact (IH Hr).
Qed.






Section RoundTrip.
Context `{Host}.











End RoundTrip.

(** *** Member lists that a spread gives back *)












(** *** A loaded package *)





Section PackageRoundTrip.
Context `{Host}.








End PackageRoundTrip.





Section PackageObject.
Context `{Host}.



End PackageObject.





Section SessionRoundTrip.
Context `{Host}.




End SessionRoundTrip.

Section SessionIdFacts.
Context `{Host}.

(** Where the validator returns, the session id is the input's when that is a
    string, and the identifier drawn last otherwise. *)
Lemma validateAndMigrateData_sessionId (v : jsval) (n n' : nat) (s : SessionState.t) :
  validateAndMigrateData v n = Returned s n' ->
  SessionState.sessionId s
  = match v, get v "sessionId" with
    | VObj _, VStr x => x
    | _, _ => uuid (Nat.pred n')
    end.
Proof.
  unfold validateAndMigrateData.
  destruct (negb (truthy v) || negb (typeOf v =? "object")%string) eqn:Etest.
  - unfold getInitialSessionData, bind, randomUUID, ret. intros [= <- <-].
    cbn [SessionState.sessionId Nat.pred].
    destruct v as [| | | | | |l]; try reflexivity. discriminate.
  - unfold bind.
    repeat match goal with
           | |- context [match ?m ?x with Returned _ _ => _ | Thrown _ _ => _ end] =>
               destruct (m x) as [? ?|? ?] eqn:?; [|discriminate]
           end.
    unfold ret. intros [= <- <-]. cbn [SessionState.sessionId].
    match goal with
    | E : stringOrFresh _ _ = Returned _ _ |- _ => revert E
    end.
    unfold stringOrFresh, randomUUID, ret.
    destruct v as [| |b|z|x|arr|l];
      try (cbn in Etest; rewrite ?orb_true_r in Etest; discriminate).
    + cbn [get]. intros [= <- <-]. reflexivity.
    + destruct (get (VObj l) "sessionId"); intros [= <- <-]; reflexivity.
Qed.

End SessionIdFacts.

Section EditFacts.
Context `{Host}.




End EditFacts.




(** ** More about the history store and the validator *)

(** X1. In every reachable history, [0 <= cursor < history.length <= 10]; in
    particular the history is never empty and there is a current snapshot. *)
Theorem history_invariant `{Host} (app : App) :
  reachable app ->
  0 <= currentSessionIndex app
  /\ currentSessionIndex app < lengthZ (sessionHistory app)
  /\ lengthZ (sessionHistory app) <= MAX_HISTORY_SIZE
  /\ exists s, currentSessionData app = Some s.
Proof.
  intros Hreach. destruct (reachable_wellFormed app Hreach) as [[H0 Hlt] Hcap].
  repeat split; try assumption.
  unfold currentSessionData, nthZ.
  destruct (Z.ltb_spec (currentSessionIndex app) 0); [lia|].
  destruct (nth_error (sessionHistory app) (Z.to_nat (currentSessionIndex app)))
    as [s|] eqn:E; [now exists s|].
  apply nth_error_None in E. unfold lengthZ in Hlt. lia.
Qed.

Lemma history_invariant_witness :
  0 <= currentSessionIndex (mkApp [fresh0; snapA] 1)
  /\ currentSessionIndex (mkApp [fresh0; snapA] 1)
     < lengthZ (sessionHistory (mkApp [fresh0; snapA] 1))
  /\ lengthZ (sessionHistory (mkApp [fresh0; snapA] 1)) <= MAX_HISTORY_SIZE
  /\ exists s, currentSessionData (mkApp [fresh0; snapA] 1) = Some s.
Proof.
  exact (@history_invariant host0 (mkApp [fresh0; snapA] 1) reachable_two_snapshots).
Defined.

(** X2. An update whose new state is absent, or has no session id, changes neither
    the history nor the cursor. *)
Theorem updateHistory_drops_invalid_state (u : Updater) (app : App)
    (r : option SessionState.t) (n n' : nat) :
  applyUpdater u (currentSessionData app) n = Returned r n' ->
  match r with
  | Some s => SessionState.sessionId s = ""
  | None => True
  end ->
  updateHistory u app n = Returned app n'.
Proof.
  intros Hu Hr. rewrite updateHistory_unfold, Hu.
  destruct r as [s|]; [|reflexivity]. rewrite Hr. reflexivity.
Qed.

Lemma updateHistory_drops_invalid_state_witness :
  updateHistory (UState (Some (dropSessionId fresh0))) (mkApp [fresh0; snapA] 0) 0%nat
  = Returned (mkApp [fresh0; snapA] 0) 0%nat.
Proof.
  apply (updateHistory_drops_invalid_state (UState (Some (dropSessionId fresh0)))
           (mkApp [fresh0; snapA] 0) (Some (dropSessionId fresh0)) 0%nat 0%nat).
  - reflexivity.
  - reflexivity.
Defined.

Section ValidatorFacts.
Context `{Host}.

Lemma total_bind {A B} (m : M A) (k : A -> M B) (n : nat) :
  returns (m n) (fun _ _ => True) ->
  (forall a n1, returns (k a n1) (fun _ _ => True)) ->
  returns (bind m k n) (fun _ _ => True).
Proof.
  intros Hm Hk. apply returns_bind.
  apply (returns_weaken _ _ _ Hm). intros a n1 _. apply Hk.
Qed.

Lemma mapM_total {A B} (f : A -> M B) (l : list A) :
  (forall a, In a l -> forall n, returns (f a n) (fun _ _ => True)) ->
  forall n, returns (mapM f l n) (fun _ _ => True).
Proof.
  induction l as [|a r IH]; intros Hf n; cbn [mapM].
  - exact I.
  - apply total_bind; [apply Hf; left; reflexivity|].
    intros b n1. apply total_bind; [|intros; exact I].
    apply IH. intros a' Ha'. apply Hf. right. exact Ha'.
Qed.

Lemma stringOrFresh_total (v : jsval) (n : nat) :
  returns (stringOrFresh v n) (fun _ _ => True).
Proof. destruct v; exact I. Qed.

Lemma orFresh_total (v : jsval) (n : nat) :
  returns (orFresh v n) (fun _ _ => True).
Proof. unfold orFresh. destruct (truthy v); exact I. Qed.

Lemma getT_total (v : jsval) (k : string) (n : nat) :
  negb (isNull v || isUndefined v) = true ->
  returns (getT v k n) (fun _ _ => True).
Proof. destruct v; cbn; intros; try exact I; discriminate. Qed.

Lemma getT_ret (v : jsval) (k : string) :
  negb (isNull v || isUndefined v) = true -> getT v k = ret (get v k).
Proof. destruct v; cbn; intros; try reflexivity; discriminate. Qed.

Ltac total :=
  repeat match goal with
  | |- True => exact I
  | |- returns (ret _ _) _ => exact I
  | |- returns (randomUUID _) _ => exact I
  | |- returns (bind (getT ?v ?k) _ _) _ => rewrite (getT_ret v k) by assumption
  | |- returns (bind (ret ?a) ?k ?n) _ =>
      change (bind (ret a) k n) with (k a n); cbv beta
  | |- returns (bind _ _ _) _ => apply total_bind; [|intros ? ?]
  | |- returns ((if ?c then _ else _) _) _ => destruct c eqn:?
  | |- returns (stringOrFresh _ _) _ => apply stringOrFresh_total
  | |- returns (orFresh _ _) _ => apply orFresh_total
  | |- returns (mapM _ _ _) _ => apply mapM_total; intros ? ? ?
  end.

Lemma validateLogEntry_total (v : jsval) (n : nat) :
  returns (validateLogEntry v n) (fun _ _ => True).
Proof. unfold validateLogEntry. total. Qed.

Lemma validateCharacterSheet_total (v : jsval) (n : nat) :
  returns (validateCharacterSheet v n) (fun _ _ => True).
Proof. unfold validateCharacterSheet, validateCustomField. cbv zeta. total. Qed.

Lemma validateTable_total (v : jsval) (n : nat) :
  returns (validateTable v n) (fun _ _ => True).
Proof. unfold validateTable, validateTableEntry. total. Qed.

Lemma validateTracker_total (v : jsval) (n : nat) :
  returns (validateTracker v n) (fun _ _ => True).
Proof. unfold validateTracker, validateTrackerRecord. total. Qed.

Lemma validateDiceRoll_total (v : jsval) (n : nat) :
  returns (validateDiceRoll v n) (fun _ _ => True).
Proof. unfold validateDiceRoll. total. Qed.

Lemma noNullish_In (v e : jsval) :
  noNullish v = true -> In e (elements v) ->
  negb (isNull e || isUndefined e) = true.
Proof.
  unfold noNullish. intros Hv He.
  exact (proj1 (forallb_forall _ _) Hv e He).
Qed.

Ltac nullish_in :=
  match goal with
  | E : In _ (elements ?v) |- _ => apply (noNullish_In v); assumption
  end.

Lemma validateCustomFieldTemplate_total (v : jsval) (n : nat) :
  negb (isNull v || isUndefined v) = true ->
  returns (validateCustomFieldTemplate v n) (fun _ _ => True).
Proof.
  intros Hv. unfold validateCustomFieldTemplate.
  total.
Qed.

Lemma validateRulebookSection_total (v : jsval) (n : nat) :
  negb (isNull v || isUndefined v) = true ->
  returns (validateRulebookSection v n) (fun _ _ => True).
Proof.
  intros Hv. unfold validateRulebookSection.
  total.
Qed.

Lemma validatePackageTableEntry_total (v : jsval) (n : nat) :
  negb (isNull v || isUndefined v) = true ->
  returns (validatePackageTableEntry v n) (fun _ _ => True).
Proof.
  intros Hv. unfold validatePackageTableEntry.
  total.
Qed.

Lemma validateTrackerTemplate_total (v : jsval) (n : nat) :
  negb (isNull v || isUndefined v) = true ->
  returns (validateTrackerTemplate v n) (fun _ _ => True).
Proof.
  intros Hv. unfold validateTrackerTemplate.
  total.
Qed.

Lemma validatePackageTable_total (v : jsval) (n : nat) :
  negb (isNull v || isUndefined v) = true ->
  noNullish (get v "entries") = true ->
  returns (validatePackageTable v n) (fun _ _ => True).
Proof.
  intros Hv He. unfold validatePackageTable.
  total.
  apply validatePackageTableEntry_total.
  nullish_in.
Qed.

Lemma validatePackage_total (pkg : jsval) (n : nat) :
  readablePackage pkg = true ->
  returns (validatePackage pkg n) (fun _ _ => True).
Proof.
  unfold readablePackage. intros Hp.
  repeat (apply andb_prop in Hp; destruct Hp as [Hp ?]).
  unfold validatePackage. cbv zeta.
  total.
  - apply validateCustomFieldTemplate_total. nullish_in.
  - apply validateRulebookSection_total. nullish_in.
  - apply validatePackageTable_total.
    + nullish_in.
    + match goal with
      | F : forallb _ _ = true |- _ =>
          exact (proj1 (forallb_forall _ _) F _ ltac:(eassumption))
      end.
  - apply validateTrackerTemplate_total. nullish_in.
Qed.

(** X3. The validator returns for every input whose game-data package, when it
    has one, holds neither [null] nor [undefined] in the arrays it maps over. *)
Theorem validateAndMigrateData_returns (v : jsval) (n : nat) :
  (truthy (get v "loadedGameDataPackage")
   && (typeOf (get v "loadedGameDataPackage") =? "object")%string = true ->
   readablePackage (get v "loadedGameDataPackage") = true) ->
  exists s n', validateAndMigrateData v n = Returned s n'.
Proof.
  intros Hp.
  enough (Ht : returns (validateAndMigrateData v n) (fun _ _ => True)).
  { apply returns_exists in Ht. destruct Ht as [s [n' [E _]]]. now exists s, n'. }
  unfold validateAndMigrateData.
  destruct (negb (truthy v) || negb (typeOf v =? "object")%string); [exact I|].
  apply total_bind; [exact I|]. intros initial n1.
  total.
  - apply validateLogEntry_total.
  - apply validateCharacterSheet_total.
  - apply validateTable_total.
  - apply validateTracker_total.
  - apply validateDiceRoll_total.
  - apply validatePackage_total. apply Hp. reflexivity.
  - destruct (get v "gameDataPackageLoadId") as [| | | |x| |]; try exact I.
    destruct x; exact I.
Qed.

Lemma oneOfOr_includes (allowed : list string) (v : jsval) (d : string) :
  includes allowed d = true -> includes allowed (oneOfOr allowed v d) = true.
Proof.
  intros Hd. unfold oneOfOr. destruct v; try exact Hd.
  destruct (includes allowed s) eqn:E; [exact E|exact Hd].
Qed.

Lemma mapM_Forall {A B} (f : A -> M B) (Q : B -> Prop) (l : list A) :
  (forall a n n' b, f a n = Returned b n' -> Q b) ->
  forall n bs n', mapM f l n = Returned bs n' -> Forall Q bs.
Proof.
  intros Hf. induction l as [|a r IH]; intros n bs n'; cbn [mapM].
  - intros [= <- _]. constructor.
  - unfold bind at 1. destruct (f a n) as [b n1|e n1] eqn:Ea; [|discriminate].
    unfold bind. destruct (mapM f r n1) as [bs' n2|e n2] eqn:Er; [|discriminate].
    intros [= <- _]. constructor; [exact (Hf _ _ _ _ Ea)|exact (IH _ _ _ Er)].
Qed.

Lemma somes_Forall {A} (P : A -> Prop) (l : list (option A)) :
  Forall (fun o => match o with Some a => P a | None => True end) l ->
  Forall P (somes l).
Proof.
  induction 1 as [|[a|] r Ha _ IH]; cbn [somes]; auto.
Qed.

Lemma validateLogEntry_enumerated (v : jsval) (n n' : nat) (o : option LogEntry.t) :
  validateLogEntry v n = Returned o n' ->
  match o with
  | Some e =>
      includes ["normal"; "heading"] (LogEntry.type e) = true
      /\ includes PREDEFINED_COLORS_keys (LogEntry.colorKey e) = true
  | None => True
  end.
Proof.
  unfold validateLogEntry. destruct (isObject v); [|intros [= <- _]; exact I].
  unfold bind. destruct (stringOrFresh _ n) as [id n1|e n1]; [|discriminate].
  intros [= <- _]. cbn [LogEntry.type LogEntry.colorKey].
  split; apply oneOfOr_includes; reflexivity.
Qed.

Lemma validateCustomFieldTemplate_enumerated (v : jsval) (n n' : nat)
    (t : CustomFieldTemplate.t) :
  validateCustomFieldTemplate v n = Returned t n' ->
  includes ["text"; "textarea"; "number"] (CustomFieldTemplate.type t) = true.
Proof.
  unfold validateCustomFieldTemplate, bind.
  repeat match goal with
         | |- context [match ?m ?x with Returned _ _ => _ | Thrown _ _ => _ end] =>
             destruct (m x) as [? ?|? ?] eqn:?; [|discriminate]
         end.
  intros [= <- _]. cbn [CustomFieldTemplate.type].
  apply oneOfOr_includes. reflexivity.
Qed.

Lemma validatePackage_enumerated (pkg : jsval) (n n' : nat) (p : GameDataPackage.t) :
  validatePackage pkg n = Returned p n' ->
  Forall (fun t => includes ["text"; "textarea"; "number"]
                     (CustomFieldTemplate.type t) = true)
    (SheetTemplate.customFieldTemplates (GameDataPackage.characterSheetTemplate p)).
Proof.
  unfold validatePackage. cbv zeta. unfold bind.
  repeat match goal with
         | |- context [match ?m ?x with Returned _ _ => _ | Thrown _ _ => _ end] =>
             destruct (m x) as [? ?|? ?] eqn:?; [|discriminate]
         end.
  intros [= <- _].
  cbn [GameDataPackage.characterSheetTemplate SheetTemplate.customFieldTemplates].
  match goal with
  | E : (if ?c then mapM validateCustomFieldTemplate _ else _) _ = Returned _ _
    |- _ => destruct c; [|cbv [ret] in E; injection E as <- _; constructor];
            exact (mapM_Forall _ _ _ validateCustomFieldTemplate_enumerated _ _ _ E)
  end.
Qed.

Ltac run_validator :=
  unfold bind;
  repeat match goal with
         | |- context [match ?m ?x with Returned _ _ => _ | Thrown _ _ => _ end] =>
             destruct (m x) as [? ?|? ?] eqn:?; [|discriminate]
         end.

(** X4. In what the validator returns, every log entry's type and colour key are
    in their sets, and so is the type of every custom-field template of the
    loaded package. *)
Theorem validateAndMigrateData_enumerated (v : jsval) (n n' : nat)
    (s : SessionState.t) :
  validateAndMigrateData v n = Returned s n' ->
  Forall (fun e =>
            includes ["normal"; "heading"] (LogEntry.type e) = true
            /\ includes PREDEFINED_COLORS_keys (LogEntry.colorKey e) = true)
    (SessionState.playLogEntries s)
  /\ forall p, SessionState.loadedGameDataPackage s = Some p ->
       Forall (fun t => includes ["text"; "textarea"; "number"]
                          (CustomFieldTemplate.type t) = true)
         (SheetTemplate.customFieldTemplates
            (GameDataPackage.characterSheetTemplate p)).
Proof.
  unfold validateAndMigrateData.
  destruct (negb (truthy v) || negb (typeOf v =? "object")%string).
  - unfold getInitialSessionData, bind, randomUUID, ret. intros [= <- _].
    cbn [SessionState.playLogEntries SessionState.loadedGameDataPackage].
    split; [constructor|discriminate].
  - run_validator. unfold ret. intros [= <- _].
    cbn [SessionState.playLogEntries SessionState.loadedGameDataPackage].
    split.
    + match goal with
      | E : (if ?c then _ else _) _ = Returned ?l _ |- Forall _ ?l =>
          destruct c; revert E
      end.
      * cbv beta. run_validator. unfold ret. intros [= <- _].
        apply somes_Forall.
        match goal with
        | E : mapM validateLogEntry _ _ = Returned _ _ |- _ =>
            exact (mapM_Forall _ _ _ validateLogEntry_enumerated _ _ _ E)
        end.
      * match goal with
        | E : getInitialSessionData _ = Returned _ _ |- _ =>
            cbv [getInitialSessionData bind randomUUID ret] in E;
            injection E as <- _
        end.
        intros [= <- _]. constructor.
    + intros p Hp. subst.
      match goal with
      | E : (if ?c then _ else _) _ = Returned (Some p) _ |- _ =>
          destruct c; revert E
      end.
      * cbv beta. run_validator. unfold ret. intros [= <- _].
        eapply validatePackage_enumerated; eassumption.
      * match goal with
        | E : getInitialSessionData _ = Returned _ _ |- _ =>
            cbv [getInitialSessionData bind randomUUID ret] in E;
            injection E as <- _
        end.
        discriminate.
Qed.

(** X5. In what the validator returns, a package-load identifier is present
    exactly when a game-data package is. *)
Theorem validateAndMigrateData_loadId (v : jsval) (n n' : nat)
    (s : SessionState.t) :
  validateAndMigrateData v n = Returned s n' ->
  SessionState.gameDataPackageLoadId s = None
  <-> SessionState.loadedGameDataPackage s = None.
Proof.
  unfold validateAndMigrateData.
  destruct (negb (truthy v) || negb (typeOf v =? "object")%string).
  - unfold getInitialSessionData, bind, randomUUID, ret. intros [= <- _].
    cbn. tauto.
  - run_validator. unfold ret. intros [= <- _].
    cbn [SessionState.gameDataPackageLoadId SessionState.loadedGameDataPackage].
    match goal with
    | |- _ <-> ?o = None => destruct o as [p|]; [|tauto]
    end.
    match goal with
    | E : _ _ = Returned ?r _ |- ?r = None <-> _ => revert E
    end.
    destruct (get v "gameDataPackageLoadId") as [| | | |x| |];
      try (unfold randomUUID, ret; intros [= <- _]; split; discriminate).
    destruct x; unfold randomUUID, ret; intros [= <- _]; split; discriminate.
Qed.

End ValidatorFacts.

Lemma validateAndMigrateData_returns_witness :
  exists s n',
    @validateAndMigrateData host0
      (VObj [("loadedGameDataPackage",
              VObj [("rulebookSections", VArr [VObj []; VStr "rules"])])]) 0%nat
    = Returned s n'.
Proof.
  apply (@validateAndMigrateData_returns host0
           (VObj [("loadedGameDataPackage",
                   VObj [("rulebookSections", VArr [VObj []; VStr "rules"])])])
           0%nat).
  intros _. vm_compute. reflexivity.
Defined.

Lemma validateAndMigrateData_enumerated_witness :
  exists s n',
    @validateAndMigrateData host0 strayValuesFile 0%nat = Returned s n'
    /\ Forall (fun e =>
                 includes ["normal"; "heading"] (LogEntry.type e) = true
                 /\ includes PREDEFINED_COLORS_keys (LogEntry.colorKey e) = true)
         (SessionState.playLogEntries s)
    /\ forall p, SessionState.loadedGameDataPackage s = Some p ->
         Forall (fun t => includes ["text"; "textarea"; "number"]
                            (CustomFieldTemplate.type t) = true)
           (SheetTemplate.customFieldTemplates
              (GameDataPackage.characterSheetTemplate p)).
Proof.
  eexists. eexists. split; [vm_compute; reflexivity|].
  eapply (@validateAndMigrateData_enumerated host0 strayValuesFile 0%nat).
  vm_compute. reflexivity.
Defined.

Lemma validateAndMigrateData_loadId_witness :
  exists s n',
    @validateAndMigrateData host0 strayValuesFile 0%nat = Returned s n'
    /\ (SessionState.gameDataPackageLoadId s = None
        <-> SessionState.loadedGameDataPackage s = None).
Proof.
  eexists. eexists. split; [vm_compute; reflexivity|].
  eapply (@validateAndMigrateData_loadId host0 strayValuesFile 0%nat).
  vm_compute. reflexivity.
Defined.

(** ** Undo after a commit, and what a loaded session leaves of the history *)

Section UndoFacts.
Context `{Host}.

Lemma committed_before_tip (app : App) (s s' : SessionState.t) :
  wellFormed app ->
  currentSessionData app = Some s ->
  currentSessionData (handleUndo (committed app s')) = Some s
  /\ handleRedo (handleUndo (committed app s')) = committed app s'.
Proof.
  intros [[H0 Hlt] Hcap] Hcur.
  unfold currentSessionData, nthZ in Hcur.
  destruct (Z.ltb_spec (currentSessionIndex app) 0); [lia|].
  unfold lengthZ in Hlt.
  set (l := firstn (Z.to_nat (currentSessionIndex app + 1)) (sessionHistory app)).
  assert (Hl : length l = Z.to_nat (currentSessionIndex app + 1)).
  { unfold l. rewrite length_firstn. lia. }
  assert (Hs : nth_error l (length l - 1) = Some s).
  { unfold l at 1. rewrite nth_error_firstn.
    destruct (Nat.ltb_spec (length l - 1) (Z.to_nat (currentSessionIndex app + 1)));
      [|lia].
    rewrite Hl. rewrite <- Hcur. f_equal. lia. }
  unfold committed. fold l.
  pose proof (lastN_length 10 (l ++ [s'])) as Hlen.
  rewrite length_app in Hlen. cbn [length] in Hlen.
  unfold handleRedo, handleUndo, tipApp, currentSessionData, nthZ, lengthZ.
  cbn [sessionHistory currentSessionIndex].
  split.
  - destruct (Z.ltb_spec (Z.max 0 (Z.of_nat (length (lastN 10 (l ++ [s']))) - 1 - 1)) 0);
      [lia|].
    unfold lastN. rewrite nth_error_skipn.
    rewrite length_app. cbn [length].
    replace (length l + 1 - 10
             + Z.to_nat (Z.max 0
                 (Z.of_nat (length (skipn (length l + 1 - 10) (l ++ [s']))) - 1 - 1)))%nat
      with (length l - 1)%nat.
    + rewrite nth_error_app1 by lia. exact Hs.
    + rewrite length_skipn, length_app. cbn [length]. lia.
  - f_equal. lia.
Qed.

End UndoFacts.

(** X6. One undo after an accepted commit shows the snapshot that was current
    before it, and one redo after that undo gives back the history and the
    cursor the commit left. *)
Theorem undo_after_commit `{Host} (u : Updater) (app : App)
    (s s' : SessionState.t) (n n' : nat) :
  wellFormed app ->
  currentSessionData app = Some s ->
  applyUpdater u (Some s) n = Returned (Some s') n' ->
  SessionState.sessionId s' <> "" ->
  exists app',
    updateHistory u app n = Returned app' n'
    /\ currentSessionData app' = Some s'
    /\ currentSessionData (handleUndo app') = Some s
    /\ handleRedo (handleUndo app') = app'.
Proof.
  intros Hwf Hcur Hu Hid. exists (committed app s').
  destruct (committed_before_tip app s s' Hwf Hcur) as [Hundo Hredo].
  repeat split; try assumption.
  - apply updateHistory_accept; [destruct Hwf as [[? ?] ?]; lia| |exact Hid].
    rewrite Hcur. exact Hu.
  - unfold committed. apply tipApp_current.
Qed.

Lemma undo_after_commit_witness :
  exists app',
    updateHistory (UState (Some snapB)) (mkApp [fresh0; snapA] 1) 0%nat
    = Returned app' 0%nat
    /\ currentSessionData app' = Some snapB
    /\ currentSessionData (handleUndo app') = Some snapA
    /\ handleRedo (handleUndo app') = app'.
Proof.
  apply (@undo_after_commit host0 (UState (Some snapB)) (mkApp [fresh0; snapA] 1)
           snapA snapB 0%nat 0%nat).
  - unfold wellFormed, lengthZ, MAX_HISTORY_SIZE. cbn. lia.
  - reflexivity.
  - reflexivity.
  - discriminate.
Defined.

(** X7. Loading a session file never raises. When it succeeds the history is
    the validated session alone, with the cursor on it, so that undo and redo
    find nothing to move to; when the file does not parse, or the validator
    raises, the history and the cursor stay as they were. *)
Theorem handleLoadSession_outcome `{Host} (file : option jsval) (app : App) (n : nat) :
  returns (handleLoadSession file app n)
    (fun r _ =>
       match snd r with
       | SessionLoaded =>
           exists v s m, file = Some v
             /\ validateAndMigrateData v n = Returned s m
             /\ fst r = mkApp [s] 0
             /\ handleUndo (fst r) = fst r
             /\ handleRedo (fst r) = fst r
       | SessionLoadFailed e =>
           fst r = app
           /\ (file = None
               \/ exists v m, file = Some v
                    /\ validateAndMigrateData v n = Thrown e m)
       | _ => False
       end).
Proof.
  unfold handleLoadSession, tryCatch, bind.
  destruct file as [v|]; cbn [parseJSON ret throw].
  - destruct (validateAndMigrateData v n) as [s m|e m] eqn:E; cbn [returns snd fst].
    + exists v, s, m. repeat split. exact E.
    + split; [reflexivity|]. right. exists v, m. split; [reflexivity|exact E].
  - cbn [returns snd fst]. split; [reflexivity|]. now left.
Qed.

(** X8. The application always starts, with a history of one snapshot and the
    cursor on it: the validated stored session when there is one and the
    validator returns, and the default session, under a new session id,
    when nothing is stored or the validator raises on what is stored. *)
Theorem initialApp_starts `{Host} (savedSession : option jsval) (n : nat) :
  returns (initialApp savedSession n)
    (fun app _ =>
       exists s, app = mkApp [s] 0
         /\ match savedSession with
            | Some v =>
                match validateAndMigrateData v n with
                | Returned s' _ => s = s'
                | Thrown _ m => getInitialSessionData m = Returned s (S m)
                end
            | None => getInitialSessionData n = Returned s (S n)
            end).
Proof.
  unfold initialApp, tryCatch, bind.
  destruct savedSession as [v|].
  - destruct (validateAndMigrateData v n) as [s m|e m]; cbn [returns ret].
    + exists s. split; reflexivity.
    + unfold getInitialSessionData, bind, randomUUID, ret. cbn [returns].
      eexists. split; reflexivity.
  - unfold getInitialSessionData, bind, randomUUID, ret. cbn [returns].
    eexists. split; reflexivity.
Qed.

Section BlockedFacts.
Context `{Host}.

Lemma updateHistory_blocked (u : Updater) (app : App) (s : SessionState.t) (n : nat) :
  currentSessionData app = Some s ->
  returns (applyUpdater u (Some s) n)
    (fun r _ =>
       match r with
       | Some s' => SessionState.sessionId s' = ""
       | None => True
       end) ->
  returns (updateHistory u app n) (fun app' _ => app' = app).
Proof.
  intros Hcur Hu. rewrite updateHistory_unfold, Hcur.
  destruct (applyUpdater u (Some s) n) as [[s'|] m|e m]; [| |contradiction];
    cbn [returns] in Hu.
  - rewrite Hu. reflexivity.
  - reflexivity.
Qed.

Lemma onCurrent_blocked (f : SessionState.t -> M SessionState.t) (app : App)
    (s : SessionState.t) (n : nat) :
  currentSessionData app = Some s ->
  returns (f s n) (fun s' _ => SessionState.sessionId s' = "") ->
  returns (updateHistory (onCurrent f) app n) (fun app' _ => app' = app).
Proof.
  intros Hcur Hf. apply (updateHistory_blocked _ _ s); [exact Hcur|].
  cbn [applyUpdater onCurrent]. unfold bind.
  destruct (f s n) as [s' m|e m]; [exact Hf|contradiction].
Qed.

Lemma edit_blocked (e : Edit) (app : App) (s : SessionState.t) (n : nat) :
  currentSessionData app = Some s ->
  SessionState.sessionId s = "" ->
  returns (edit e app n) (fun app' _ => app' = app).
Proof.
  intros Hcur Hid.
  destruct e as [content type colorKey [trackers|]|id|id newContent newColorKey
                |newTitle|x|x|x|x|newTheme|[pkg|] loadId];
    cbn [edit];
    try (apply (onCurrent_blocked _ _ s); [exact Hcur|exact Hid]);
    try (apply (updateHistory_blocked _ _ s); [exact Hcur|exact Hid]).
  - apply (onCurrent_blocked _ _ s); [exact Hcur|].
    eapply returns_weaken;
      [exact (proj1 (loadedGameDataPackageUpdate_frame pkg loadId s n))|].
    intros s' m Hs'. cbv beta zeta in Hs'.
    repeat match goal with Hc : _ /\ _ |- _ => destruct Hc end. congruence.
Qed.

End BlockedFacts.

(** X9. A session file whose [sessionId] is the empty string is loaded as it
    is: the validator keeps the empty id, which [updateHistory] and the
    render test of [App] read as a missing one. On the history this leaves,
    every edit is dropped. *)
Theorem empty_session_id_blocks_edits `{Host} (members : list (string * jsval))
    (app : App) (s : SessionState.t) (n n' : nat) :
  get (VObj members) "sessionId" = VStr "" ->
  validateAndMigrateData (VObj members) n = Returned s n' ->
  handleLoadSession (Some (VObj members)) app n
  = Returned (mkApp [s] 0, SessionLoaded) n'
  /\ SessionState.sessionId s = ""
  /\ forall e m, returns (edit e (mkApp [s] 0) m) (fun app' _ => app' = mkApp [s] 0).
Proof.
  intros Hid Hv.
  assert (Hs : SessionState.sessionId s = "").
  { rewrite (validateAndMigrateData_sessionId _ _ _ _ Hv), Hid. reflexivity. }
  repeat split.
  - unfold handleLoadSession, tryCatch, bind. cbn [parseJSON ret]. rewrite Hv.
    reflexivity.
  - exact Hs.
  - intros e m. apply (edit_blocked e _ s); [reflexivity|exact Hs].
Qed.

Lemma empty_session_id_blocks_edits_witness :
  exists s n',
    @handleLoadSession host0 (Some (VObj [("sessionId", VStr "")]))
      (mkApp [fresh0] 0) 0%nat
    = Returned (mkApp [s] 0, SessionLoaded) n'
    /\ SessionState.sessionId s = ""
    /\ forall e m,
         returns (@edit host0 e (mkApp [s] 0) m) (fun app' _ => app' = mkApp [s] 0).
Proof.
  eexists. eexists.
  eapply (@empty_session_id_blocks_edits host0 [("sessionId", VStr "")]
            (mkApp [fresh0] 0)).
  - reflexivity.
  - vm_compute. reflexivity.
Defined.

(** ** The play log and its title *)

Section PlayLogFacts.
Context `{Host}.

(** What a commit leaves: the new snapshot is current, one undo shows the
    one before. *)
Lemma committed_view (app : App) (s s' : SessionState.t) :
  wellFormed app ->
  currentSessionData app = Some s ->
  currentSessionData (committed app s') = Some s'
  /\ currentSessionData (handleUndo (committed app s')) = Some s.
Proof.
  intros Hwf Hcur. split.
  - unfold committed. apply tipApp_current.
  - exact (proj1 (committed_before_tip app s s' Hwf Hcur)).
Qed.

(** A mutator that keeps the session id commits on a session in play. *)
Lemma onCurrent_commits (f : SessionState.t -> SessionState.t) (app : App)
    (s : SessionState.t) (n : nat) :
  wellFormed app ->
  currentSessionData app = Some s ->
  SessionState.sessionId s <> "" ->
  SessionState.sessionId (f s) = SessionState.sessionId s ->
  updateHistory (onCurrent (fun c => ret (f c))) app n
  = Returned (committed app (f s)) n.
Proof.
  intros [[H0 _] _] Hcur Hid Hf.
  apply (updateHistory_onCurrent _ app s (f s) n n);
    [exact Hcur|lia|reflexivity|congruence].
Qed.

Lemma trimStart_head (c : ascii) (r : string) :
  isSpace c = false -> trimStart (String c r) = String c r.
Proof. intros Hc. cbn [trimStart]. now rewrite Hc. Qed.

Lemma trimStart_cases (s : string) :
  trimStart s = "" \/ exists c r, trimStart s = String c r /\ isSpace c = false.
Proof.
  induction s as [|c r IH]; cbn [trimStart]; [now left|].
  destruct (isSpace c) eqn:Hc; [exact IH|].
  right. now exists c, r.
Qed.

Lemma trimEnd_head (c : ascii) (r : string) :
  isSpace c = false -> exists r', trimEnd (String c r) = String c r'.
Proof.
  intros Hc. cbn [trimEnd].
  destruct (trimEnd r) as [|c' r'] eqn:E.
  - rewrite Hc. now exists "".
  - now exists (String c' r').
Qed.

Lemma trimEnd_idempotent (s : string) : trimEnd (trimEnd s) = trimEnd s.
Proof.
  induction s as [|c r IH]; [reflexivity|].
  cbn [trimEnd]. destruct (trimEnd r) as [|c' r'] eqn:E.
  - destruct (isSpace c) eqn:Hc; [reflexivity|].
    cbn [trimEnd]. now rewrite Hc.
  - change (trimEnd (String c (String c' r')))
      with (match trimEnd (String c' r') with
            | EmptyString => if isSpace c then EmptyString else String c EmptyString
            | x => String c x
            end).
    rewrite IH. reflexivity.
Qed.

Lemma trim_idempotent (s : string) : trim (trim s) = trim s.
Proof.
  unfold trim. destruct (trimStart_cases s) as [->|[c [r [-> Hc]]]]; [reflexivity|].
  destruct (trimEnd_head c r Hc) as [r' Hr]. rewrite Hr.
  rewrite (trimStart_head c r' Hc). rewrite <- Hr. apply trimEnd_idempotent.
Qed.

End PlayLogFacts.

(** X10. Deleting a play-log entry on a session in play commits one snapshot
    whose log is the old one without the entries of that id, in their order,
    and whose other fields are the old ones; when no entry has the id, the
    snapshot equals the one before, and is committed all the same. One undo
    brings the deleted entries back. *)
Theorem deletePlayLogEntry_removes (id : string) (app : App)
    (s : SessionState.t) (n : nat) :
  wellFormed app ->
  currentSessionData app = Some s ->
  SessionState.sessionId s <> "" ->
  exists app' s',
    deletePlayLogEntry id app n = Returned app' n
    /\ currentSessionData app' = Some s'
    /\ SessionState.playLogEntries s'
       = filter (fun e => negb (LogEntry.id e =? id)%string)
           (SessionState.playLogEntries s)
    /\ ~ In id (map LogEntry.id (SessionState.playLogEntries s'))
    /\ with_playLogEntries (SessionState.playLogEntries s) s' = s
    /\ (~ In id (map LogEntry.id (SessionState.playLogEntries s)) -> s' = s)
    /\ app' = committed app s'
    /\ currentSessionData (handleUndo app') = Some s.
Proof.
  intros Hwf Hcur Hid.
  set (f := fun c : SessionState.t =>
              with_playLogEntries
                (filter (fun e => negb (LogEntry.id e =? id)%string)
                   (SessionState.playLogEntries c)) c).
  exists (committed app (f s)), (f s).
  destruct (committed_view app s (f s) Hwf Hcur) as [Hnew Hundo].
  split; [exact (onCurrent_commits f app s n Hwf Hcur Hid eq_refl)|].
  split; [exact Hnew|]. split; [reflexivity|]. split.
  - cbn [f with_playLogEntries SessionState.playLogEntries].
    intros Hin. apply in_map_iff in Hin as [e [He Hin]].
    apply filter_In in Hin as [_ Hne]. subst id.
    rewrite String.eqb_refl in Hne. discriminate.
  - split; [destruct s; reflexivity|]. split; [|split; [reflexivity|exact Hundo]].
    intros Hout. unfold f.
    replace (filter (fun e => negb (LogEntry.id e =? id)%string)
               (SessionState.playLogEntries s))
      with (SessionState.playLogEntries s); [destruct s; reflexivity|].
    symmetry. apply forallb_filter_id. apply forallb_forall. intros e He.
    destruct (String.eqb_spec (LogEntry.id e) id) as [<-|Hne]; [|reflexivity].
    exfalso. apply Hout. apply in_map. exact He.
Qed.

Lemma deletePlayLogEntry_removes_witness :
  exists app' s',
    deletePlayLogEntry "entry-1"
      (mkApp [with_playLogEntries
                [LogEntry.mk "entry-1" "a" "normal" "default" "t";
                 LogEntry.mk "entry-2" "b" "normal" "default" "t"] fresh0] 0) 0%nat
    = Returned app' 0%nat
    /\ currentSessionData app' = Some s'
    /\ SessionState.playLogEntries s'
       = [LogEntry.mk "entry-2" "b" "normal" "default" "t"].
Proof.
  destruct (deletePlayLogEntry_removes "entry-1"
              (mkApp [with_playLogEntries
                        [LogEntry.mk "entry-1" "a" "normal" "default" "t";
                         LogEntry.mk "entry-2" "b" "normal" "default" "t"] fresh0] 0)
              (with_playLogEntries
                 [LogEntry.mk "entry-1" "a" "normal" "default" "t";
                  LogEntry.mk "entry-2" "b" "normal" "default" "t"] fresh0) 0%nat)
    as [app' [s' [Hrun [Hcur [Hlog _]]]]].
  - unfold wellFormed, lengthZ, MAX_HISTORY_SIZE. cbn. lia.
  - reflexivity.
  - discriminate.
  - exists app', s'. split; [exact Hrun|]. split; [exact Hcur|]. exact Hlog.
Defined.







(** ** The resource trackers panel *)



Section TrackerFacts.
Context `{Host}.

Lemma find_none_ids (id : string) (l : list ResourceTracker.t) :
  find (fun t => (ResourceTracker.id t =? id)%string) l = None
  <-> ~ In id (map ResourceTracker.id l).
Proof.
  induction l as [|t r IH]; cbn [find map In]; [tauto|].
  destruct (String.eqb_spec (ResourceTracker.id t) id) as [->|Hne].
  - split; [discriminate|]. intros Hn. exfalso. apply Hn. now left.
  - rewrite IH. tauto.
Qed.

Lemma addPlayLogEntry_with_trackers (content type colorKey : string)
    (trackers : list ResourceTracker.t) (app : App) (s : SessionState.t) (n : nat) :
  wellFormed app ->
  currentSessionData app = Some s ->
  SessionState.sessionId s <> "" ->
  let s' :=
    with_resourceTrackers trackers
      (with_playLogEntries
         (SessionState.playLogEntries s
            ++ [LogEntry.mk (uuid n) content type colorKey nowISO]) s) in
  addPlayLogEntry content type colorKey (Some trackers) app n
  = Returned (committed app s') (S n)
  /\ currentSessionData (committed app s') = Some s'
  /\ currentSessionData (handleUndo (committed app s')) = Some s.
Proof.
  intros Hwf Hcur Hid s'.
  destruct (committed_view app s s' Hwf Hcur) as [Hnew Hundo].
  split; [|split; assumption].
  unfold addPlayLogEntry. apply updateHistory_accept.
  - destruct Hwf as [[? ?] ?]. lia.
  - rewrite Hcur. reflexivity.
  - exact Hid.
Qed.

End TrackerFacts.

(** X15. Deleting a tracker of the current snapshot: when no tracker has the
    id, nothing is committed. Otherwise one snapshot is committed in which
    the trackers of that id are gone, the others are kept in their order, and
    the play log has one more entry, a yellow one that names the first
    tracker of that id; one undo brings back the trackers and the log
    together. *)
Theorem handleDeleteTracker_removes `{Host} (id : string) (app : App)
    (s : SessionState.t) (n : nat) :
  wellFormed app ->
  currentSessionData app = Some s ->
  SessionState.sessionId s <> "" ->
  (~ In id (map ResourceTracker.id (SessionState.resourceTrackers s)) ->
   handleDeleteTracker (SessionState.resourceTrackers s) id app n = Returned app n)
  /\ (In id (map ResourceTracker.id (SessionState.resourceTrackers s)) ->
      exists app' s' t,
        handleDeleteTracker (SessionState.resourceTrackers s) id app n
        = Returned app' (S n)
        /\ currentSessionData app' = Some s'
        /\ find (fun t => (ResourceTracker.id t =? id)%string)
             (SessionState.resourceTrackers s) = Some t
        /\ SessionState.resourceTrackers s'
           = filter (fun t => negb (ResourceTracker.id t =? id)%string)
               (SessionState.resourceTrackers s)
        /\ ~ In id (map ResourceTracker.id (SessionState.resourceTrackers s'))
        /\ SessionState.playLogEntries s'
           = SessionState.playLogEntries s
             ++ [LogEntry.mk (uuid n)
                   ("リソーストラッカー「"
                      ++ toDisplayString
                           (orElse (ResourceTracker.name t) (VStr "不明なトラッカー"))
                      ++ "」を削除しました。")%string
                   "normal" "yellow" nowISO]
        /\ with_resourceTrackers (SessionState.resourceTrackers s)
             (with_playLogEntries (SessionState.playLogEntries s) s') = s
        /\ currentSessionData (handleUndo app') = Some s).
Proof.
  intros Hwf Hcur Hid. unfold handleDeleteTracker. split.
  - intros Hout. apply find_none_ids in Hout. rewrite Hout. reflexivity.
  - intros Hin.
    destruct (find (fun t => (ResourceTracker.id t =? id)%string)
                (SessionState.resourceTrackers s)) as [t|] eqn:Efind;
      [|apply find_none_ids in Efind; contradiction].
    edestruct (addPlayLogEntry_with_trackers) as [Hrun [Hnew Hundo]];
      [exact Hwf|exact Hcur|exact Hid|].
    eexists. eexists. exists t.
    split; [exact Hrun|]. split; [exact Hnew|]. split; [reflexivity|].
    cbn [with_resourceTrackers with_playLogEntries SessionState.resourceTrackers
           SessionState.playLogEntries].
    split; [reflexivity|]. split.
    { intros Hi. apply in_map_iff in Hi as [t' [Ht' Hi]].
      apply filter_In in Hi as [_ Hne]. subst id.
      rewrite String.eqb_refl in Hne. discriminate. }
    split; [reflexivity|]. split; [destruct s; reflexivity|exact Hundo].
Qed.

Lemma handleDeleteTracker_removes_witness :
  exists app' s',
    @handleDeleteTracker host0 [tracker0] "tracker-T"
      (mkApp [with_resourceTrackers [tracker0] fresh0] 0) 0%nat
    = Returned app' 1%nat
    /\ currentSessionData app' = Some s'
    /\ SessionState.resourceTrackers s' = []
    /\ map LogEntry.colorKey (SessionState.playLogEntries s') = ["yellow"].
Proof.
  destruct (@handleDeleteTracker_removes host0 "tracker-T"
              (mkApp [with_resourceTrackers [tracker0] fresh0] 0)
              (with_resourceTrackers [tracker0] fresh0) 0%nat) as [_ Hdel].
  - unfold wellFormed, lengthZ, MAX_HISTORY_SIZE. cbn. lia.
  - reflexivity.
  - discriminate.
  - destruct Hdel as [app' [s' [t [Hrun [Hcur [_ [Htr [_ [Hlog _]]]]]]]]];
      [left; reflexivity|].
    exists app', s'. split; [exact Hrun|]. split; [exact Hcur|].
    split; [rewrite Htr; reflexivity|rewrite Hlog; reflexivity].
Defined.



(** ** Dice commands *)

Section DieFacts.
Variable random : nat -> Q.
Hypothesis random_range : forall i, (0 <= random i)%Q /\ (random i < 1)%Q.

(** [Math.floor(Math.random() * k)] is one of [0 .. k - 1]. *)
Lemma floor_random_range (k : Z) (i : nat) :
  0 < k -> 0 <= Qfloor (random i * inject_Z k) <= k - 1.
Proof.
  intros Hk. destruct (random_range i) as [H0 H1].
  assert (Hk0 : (inject_Z 0 < inject_Z k)%Q) by (rewrite <- Zlt_Qlt; exact Hk).
  change (inject_Z 0) with 0%Q in Hk0.
  split.
  - change 0 with (Qfloor (inject_Z 0)). apply Qfloor_resp_le.
    apply Qmult_le_0_compat; [exact H0|apply Qlt_le_weak; exact Hk0].
  - enough (Qfloor (random i * inject_Z k) < k) by lia.
    rewrite Zlt_Qlt.
    apply Qle_lt_trans with (random i * inject_Z k)%Q; [apply Qfloor_le|].
    rewrite <- (Qmult_1_l (inject_Z k)) at 2.
    apply Qmult_lt_compat_r; assumption.
Qed.

Lemma rollDice_length (die : Q -> Z) (numDice : Z) (drawn : nat) :
  length (rollDice random die numDice drawn) = Z.to_nat numDice.
Proof. unfold rollDice. now rewrite length_map, length_seq. Qed.

Lemma rollDice_Forall (die : Q -> Z) (P : Z -> Prop) (numDice : Z) (drawn : nat) :
  (forall i, P (die (random i))) ->
  Forall P (rollDice random die numDice drawn).
Proof.
  intros Hdie. unfold rollDice. apply Forall_forall. intros r Hr.
  apply in_map_iff in Hr as [k [<- _]]. apply Hdie.
Qed.

End DieFacts.

Lemma sumRolls_bounds (lo hi : Z) (l : list Z) :
  Forall (fun r => lo <= r <= hi) l ->
  lo * Z.of_nat (length l) <= sumRolls l <= hi * Z.of_nat (length l).
Proof.
  unfold sumRolls.
  enough (G : forall acc, Forall (fun r => lo <= r <= hi) l ->
                lo * Z.of_nat (length l) + acc <= fold_left Z.add l acc
                <= hi * Z.of_nat (length l) + acc).
  { intros Hl. specialize (G 0 Hl). lia. }
  induction l as [|r l IH]; intros acc Hl; cbn [fold_left length].
  - lia.
  - inversion Hl as [|? ? Hr Hl']; subst. specialize (IH (acc + r) Hl'). nia.
Qed.

(** X17. A roll [parseAndRollDice] returns carries the trimmed command and
    between 1 and 100 dice. For fate dice every die is -1, 0 or 1 and the
    total is their sum. Otherwise the command names a number of sides from 2
    to 1000, every die is between 1 and that number, and the total is the sum
    of the dice, plus or minus a modifier from 0 to 1000 when the command has
    one; so no total is below -999 or above 101000. *)
Theorem parseAndRollDice_rolls (random : nat -> Q) (command : string) (drawn : nat)
    (cmd : string) (rolls : list Z) (total : Z) :
  (forall i, (0 <= random i)%Q /\ (random i < 1)%Q) ->
  parseAndRollDice random command drawn = Rolled cmd rolls total ->
  cmd = trim command
  /\ (1 <= length rolls <= 100)%nat
  /\ -999 <= total <= 101000
  /\ ((exists numDiceStr,
         fatePattern (toLowerCase (trim command)) = Some numDiceStr
         /\ Forall (fun r => -1 <= r <= 1) rolls
         /\ total = sumRolls rolls)
      \/ (exists numDiceStr sidesStr modifierPart,
            fatePattern (toLowerCase (trim command)) = None
            /\ standardPattern (toLowerCase (trim command))
               = Some (numDiceStr, sidesStr, modifierPart)
            /\ 2 <= parseInt sidesStr <= 1000
            /\ Forall (fun r => 1 <= r <= parseInt sidesStr) rolls
            /\ match modifierPart with
               | None => total = sumRolls rolls
               | Some (operator, modifierStr) =>
                   0 <= parseInt modifierStr <= 1000
                   /\ (operator = "+"%char \/ operator = "-"%char)
                   /\ total = if Ascii.eqb operator "+"
                              then sumRolls rolls + parseInt modifierStr
                              else sumRolls rolls - parseInt modifierStr
               end)).
Proof.
  intros Hrandom. unfold parseAndRollDice.
  destruct (fatePattern (toLowerCase (trim command))) as [numDiceStr|] eqn:Efate.
  - set (numDice := if (numDiceStr =? "")%string then 1 else parseInt numDiceStr).
    destruct ((numDice <=? 0) || (numDice >? 100)) eqn:Ecount; [discriminate|].
    apply orb_false_elim in Ecount as [E1 E2].
    apply Z.leb_gt in E1.
    assert (numDice <= 100) by (destruct (Z.gtb_spec numDice 100); [discriminate|lia]).
    remember (rollDice random (fun r => Qfloor (r * 3) - 1) numDice drawn)
      as rolled eqn:Hrolled.
    assert (Hdice : Forall (fun r => -1 <= r <= 1) rolled).
    { rewrite Hrolled. apply rollDice_Forall. intros i.
      pose proof (floor_random_range random Hrandom 3 i ltac:(lia)) as Hf.
      change (inject_Z 3) with 3%Q in Hf. lia. }
    assert (Hlen : length rolled = Z.to_nat numDice)
      by (rewrite Hrolled; apply rollDice_length).
    pose proof (sumRolls_bounds _ _ _ Hdice) as Hsum.
    rewrite Hlen in Hsum. clear Hrolled.
    intros [= <- <- <-]. rewrite Hlen.
    split; [reflexivity|]. split; [lia|]. split; [lia|].
    left. exists numDiceStr. repeat split; assumption.
  - destruct (standardPattern (toLowerCase (trim command)))
      as [[[numDiceStr sidesStr] modifierPart]|] eqn:Estd; [|discriminate].
    set (numDice := if (numDiceStr =? "")%string then 1 else parseInt numDiceStr).
    set (modifier := match modifierPart with
                     | Some (_, modifierStr) => parseInt modifierStr
                     | None => 0
                     end).
    destruct ((numDice <=? 0) || (numDice >? 100)) eqn:Ecount; [discriminate|].
    destruct ((parseInt sidesStr <=? 1) || (parseInt sidesStr >? 1000)) eqn:Esides;
      [discriminate|].
    destruct ((modifier <? 0) || (modifier >? 1000)) eqn:Emod; [discriminate|].
    apply orb_false_elim in Ecount as [E1 E2].
    apply orb_false_elim in Esides as [E3 E4].
    apply orb_false_elim in Emod as [E5 E6].
    apply Z.leb_gt in E1. apply Z.leb_gt in E3. apply Z.ltb_ge in E5.
    assert (numDice <= 100) by (destruct (Z.gtb_spec numDice 100); [discriminate|lia]).
    assert (parseInt sidesStr <= 1000)
      by (destruct (Z.gtb_spec (parseInt sidesStr) 1000); [discriminate|lia]).
    assert (modifier <= 1000)
      by (destruct (Z.gtb_spec modifier 1000); [discriminate|lia]).
    remember (rollDice random
                (fun r => Qfloor (r * inject_Z (parseInt sidesStr)) + 1)
                numDice drawn) as rolled eqn:Hrolled.
    assert (Hdice : Forall (fun r => 1 <= r <= parseInt sidesStr) rolled).
    { rewrite Hrolled. apply rollDice_Forall. intros i.
      pose proof (floor_random_range random Hrandom (parseInt sidesStr) i
                    ltac:(lia)) as Hf. lia. }
    assert (Hlen : length rolled = Z.to_nat numDice)
      by (rewrite Hrolled; apply rollDice_length).
    pose proof (sumRolls_bounds _ _ _ Hdice) as Hsum.
    rewrite Hlen in Hsum. rewrite Z2Nat.id in Hsum by lia. clear Hrolled.
    assert (Hprod : parseInt sidesStr * numDice <= 100000) by nia.
    intros [= <- <- <-]. rewrite Hlen.
    assert (Hop : match modifierPart with
                  | Some (operator, _) => operator = "+"%char \/ operator = "-"%char
                  | None => True
                  end).
    { revert Estd. unfold standardPattern.
      destruct (takeDigits _) as [d1 r1].
      destruct r1 as [|c1 r1]; [discriminate|].
      destruct (Ascii.eqb_spec c1 "d"%char) as [->|Hne];
        [|destruct c1 as [[|] [|] [|] [|] [|] [|] [|] [|]]; try discriminate;
          exfalso; apply Hne; reflexivity].
      destruct (takeDigits r1) as [d2 r2].
      destruct (d2 =? "")%string; [discriminate|].
      destruct r2 as [|op r2]; [intros [= _ _ <-]; exact I|].
      destruct (Ascii.eqb_spec op "+"%char) as [->|Hplus].
      - cbn [orb]. destruct (takeDigits r2) as [d3 r3].
        destruct (negb (d3 =? "")%string && (r3 =? "")%string); [|discriminate].
        intros [= _ _ <-]. now left.
      - destruct (Ascii.eqb_spec op "-"%char) as [->|Hminus]; [|discriminate].
        cbn [orb]. destruct (takeDigits r2) as [d3 r3].
        destruct (negb (d3 =? "")%string && (r3 =? "")%string); [|discriminate].
        intros [= _ _ <-]. now right. }
    split; [reflexivity|]. split; [lia|].
    assert (Htotal :
              match modifierPart with
              | None =>
                  match modifierPart with
                  | Some ("+"%char, _) => sumRolls rolled + modifier
                  | Some ("-"%char, _) => sumRolls rolled - modifier
                  | _ => sumRolls rolled
                  end = sumRolls rolled
              | Some (operator, modifierStr) =>
                  match modifierPart with
                  | Some ("+"%char, _) => sumRolls rolled + modifier
                  | Some ("-"%char, _) => sumRolls rolled - modifier
                  | _ => sumRolls rolled
                  end
                  = if Ascii.eqb operator "+"
                    then sumRolls rolled + parseInt modifierStr
                    else sumRolls rolled - parseInt modifierStr
              end).
    { destruct modifierPart as [[operator modifierStr]|]; [|reflexivity].
      destruct Hop as [->| ->]; reflexivity. }
    split.
    + destruct modifierPart as [[operator modifierStr]|].
      * rewrite Htotal. unfold modifier in *.
        destruct (Ascii.eqb operator "+"); lia.
      * lia.
    + right. exists numDiceStr, sidesStr, modifierPart.
      split; [reflexivity|]. split; [reflexivity|]. split; [lia|].
      split; [exact Hdice|].
      destruct modifierPart as [[operator modifierStr]|]; [|reflexivity].
      unfold modifier in *. split; [lia|]. split; [exact Hop|exact Htotal].
Qed.

Lemma parseAndRollDice_rolls_witness :
  (1 <= length [2; 5] <= 100)%nat /\ -999 <= 10 <= 101000.
Proof.
  destruct (parseAndRollDice_rolls random0 "2d6+3" 0%nat "2d6+3" [2; 5] 10)
    as [_ [Hlen [Htotal _]]].
  - intros i. unfold random0. destruct (Nat.even i); split; easy.
  - vm_compute. reflexivity.
  - split; assumption.
Defined.

(** ** Printed numbers and the patterns *)

Section TextFacts.

Lemma takeDigits_digits (d : Decimal.uint) (rest : string) :
  match rest with
  | EmptyString => True
  | String c _ => isDigit c = false
  end ->
  takeDigits (NilEmpty.string_of_uint d ++ rest)
  = (NilEmpty.string_of_uint d, rest).
Proof.
  intros Hrest.
  induction d as [|d IH|d IH|d IH|d IH|d IH|d IH|d IH|d IH|d IH|d IH];
    cbn [NilEmpty.string_of_uint String.append];
    try (cbn [takeDigits]; change (isDigit _) with true; cbv iota;
         rewrite IH; reflexivity).
  destruct rest as [|c r]; [reflexivity|]. cbn [takeDigits]. now rewrite Hrest.
Qed.

Lemma toLowerCase_digits (d : Decimal.uint) :
  toLowerCase (NilEmpty.string_of_uint d) = NilEmpty.string_of_uint d.
Proof.
  induction d; cbn [NilEmpty.string_of_uint toLowerCase]; [reflexivity|..];
    rewrite IHd; reflexivity.
Qed.

Lemma toLowerCase_app (a b : string) :
  toLowerCase (a ++ b) = (toLowerCase a ++ toLowerCase b)%string.
Proof. induction a as [|c r IH]; cbn; [reflexivity|now rewrite IH]. Qed.

Lemma trimEnd_digits (d : Decimal.uint) :
  trimEnd (NilEmpty.string_of_uint d) = NilEmpty.string_of_uint d.
Proof.
  induction d; cbn [NilEmpty.string_of_uint]; [reflexivity|..];
    cbn [trimEnd]; rewrite IHd; destruct (NilEmpty.string_of_uint d); reflexivity.
Qed.

(** A string that ends in one that [trimEnd] keeps is kept. *)
Lemma trimEnd_app (s t : string) :
  t <> "" -> trimEnd t = t -> trimEnd (s ++ t) = (s ++ t)%string.
Proof.
  intros Ht Hkeep. induction s as [|c r IH]; [exact Hkeep|].
  cbn [String.append trimEnd]. rewrite IH.
  destruct (r ++ t)%string eqn:E; [|reflexivity].
  destruct r; [cbn in E; contradiction|discriminate].
Qed.

Lemma nonzero_digits (d : Decimal.uint) :
  d <> Decimal.Nil -> NilEmpty.string_of_uint d <> "".
Proof. destruct d; [contradiction|..]; discriminate. Qed.

Lemma showNumber_digits (z : Z) :
  0 <= z -> showNumber z = NilEmpty.string_of_uint (digitsOf z)
            /\ digitsOf z <> Decimal.Nil
            /\ Z.of_uint (digitsOf z) = z.
Proof.
  intros Hz. unfold showNumber, digitsOf. cbn [toDisplayString].
  pose proof (DecimalZ.of_to z) as Hof.
  destruct z as [|p|p]; [repeat split; discriminate| |lia].
  cbn [Z.to_int NilZero.string_of_int] in *.
  assert (Hnil : Pos.to_uint p <> Decimal.Nil).
  { intros E. rewrite E in Hof. discriminate. }
  repeat split; [|exact Hnil|exact Hof].
  destruct (Pos.to_uint p); [contradiction|..]; reflexivity.
Qed.

Lemma parseInt_showNumber (z : Z) : 0 <= z -> parseInt (showNumber z) = z.
Proof.
  intros Hz. destruct (showNumber_digits z Hz) as [-> [Hnil Hof]].
  unfold parseInt, NilZero.uint_of_string.
  destruct (NilEmpty.string_of_uint (digitsOf z)) eqn:E;
    [apply nonzero_digits in Hnil; contradiction|].
  rewrite <- E, NilEmpty.usu. exact Hof.
Qed.

Lemma takeDigits_showNumber (z : Z) (rest : string) :
  0 <= z ->
  match rest with
  | EmptyString => True
  | String c _ => isDigit c = false
  end ->
  takeDigits (showNumber z ++ rest) = (showNumber z, rest).
Proof.
  intros Hz Hrest. destruct (showNumber_digits z Hz) as [-> _].
  now apply takeDigits_digits.
Qed.

Lemma showNumber_nonempty (z : Z) : 0 <= z -> (showNumber z =? "")%string = false.
Proof.
  intros Hz. destruct (showNumber_digits z Hz) as [-> [Hnil _]].
  apply String.eqb_neq. now apply nonzero_digits.
Qed.

Lemma toLowerCase_showNumber (z : Z) :
  0 <= z -> toLowerCase (showNumber z) = showNumber z.
Proof.
  intros Hz. destruct (showNumber_digits z Hz) as [-> _]. apply toLowerCase_digits.
Qed.

Lemma trimEnd_showNumber (z : Z) : 0 <= z -> trimEnd (showNumber z) = showNumber z.
Proof.
  intros Hz. destruct (showNumber_digits z Hz) as [-> _]. apply trimEnd_digits.
Qed.

Lemma trimStart_digits (d : Decimal.uint) (rest : string) :
  match rest with
  | EmptyString => True
  | String c _ => isSpace c = false
  end ->
  trimStart (NilEmpty.string_of_uint d ++ rest)
  = (NilEmpty.string_of_uint d ++ rest)%string.
Proof.
  intros Hrest. destruct d; cbn [NilEmpty.string_of_uint String.append];
    try reflexivity.
  destruct rest as [|c r]; [reflexivity|]. cbn [trimStart]. now rewrite Hrest.
Qed.

Lemma trimStart_showNumber (z : Z) (rest : string) :
  0 <= z -> trimStart (showNumber z ++ rest) = (showNumber z ++ rest)%string.
Proof.
  intros Hz. destruct (showNumber_digits z Hz) as [-> [Hnil _]].
  destruct (digitsOf z); [contradiction|..]; reflexivity.
Qed.

End TextFacts.

Section CommandFacts.

Lemma string_app_nil_r (s : string) : (s ++ "")%string = s.
Proof. induction s as [|c r IH]; cbn; [reflexivity|now rewrite IH]. Qed.

Lemma string_app_assoc (a b c : string) :
  ((a ++ b) ++ c)%string = (a ++ (b ++ c))%string.
Proof. induction a as [|x r IH]; cbn; [reflexivity|now rewrite IH]. Qed.

Lemma digit_not_letter (c : ascii) :
  isDigit c = true ->
  isSpace c = false /\ lowerChar c = c
  /\ Ascii.eqb c "d" = false /\ Ascii.eqb c "f" = false /\ Ascii.eqb c "F" = false
  /\ Ascii.eqb c "+" = false /\ Ascii.eqb c "-" = false.
Proof.
  destruct c as [[|] [|] [|] [|] [|] [|] [|] [|]]; cbn; intros Hc;
    try discriminate; repeat split.
Qed.

Lemma showNumber_head (z : Z) :
  0 <= z -> exists c r, showNumber z = String c r /\ isDigit c = true.
Proof.
  intros Hz. destruct (showNumber_digits z Hz) as [-> [Hnil _]].
  destruct (digitsOf z); [contradiction|..]; cbn [NilEmpty.string_of_uint];
    eexists; eexists; (split; [reflexivity|reflexivity]).
Qed.

Lemma takeDigits_group (pre rest : string) :
  digitsOrNothing pre ->
  match rest with
  | EmptyString => True
  | String c _ => isDigit c = false
  end ->
  takeDigits (pre ++ rest) = (pre, rest).
Proof.
  intros [->|[n [Hn ->]]] Hrest.
  - destruct rest as [|c r]; [reflexivity|]. cbn [String.append takeDigits].
    now rewrite Hrest.
  - now apply takeDigits_showNumber.
Qed.

Lemma toLowerCase_group (pre : string) :
  digitsOrNothing pre -> toLowerCase pre = pre.
Proof.
  intros [->|[n [Hn ->]]]; [reflexivity|now apply toLowerCase_showNumber].
Qed.

Lemma trimStart_group (pre rest : string) :
  digitsOrNothing pre ->
  match rest with
  | EmptyString => True
  | String c _ => isSpace c = false
  end ->
  trimStart (pre ++ rest) = (pre ++ rest)%string.
Proof.
  intros [->|[n [Hn ->]]] Hrest.
  - destruct rest as [|c r]; [reflexivity|]. cbn [String.append trimStart].
    now rewrite Hrest.
  - now apply trimStart_showNumber.
Qed.

(** The text of a command: a count or none, [d], the sides, and a tail that
    [trimEnd] keeps. *)
Lemma trim_command (pre tail : string) (d : ascii) (sides : Z) :
  digitsOrNothing pre -> isSpace d = false -> 0 <= sides ->
  (tail = "" \/ (trimEnd tail = tail /\ tail <> "")) ->
  trim (pre ++ String d (showNumber sides ++ tail))
  = (pre ++ String d (showNumber sides ++ tail))%string.
Proof.
  intros Hpre Hd Hsides Htail. unfold trim.
  rewrite trimStart_group by assumption.
  destruct Htail as [->|[Hkeep Hne]].
  - rewrite string_app_nil_r.
    change (String d (showNumber sides)) with ((String d "") ++ showNumber sides)%string.
    rewrite <- string_app_assoc. apply trimEnd_app.
    + destruct (showNumber_head sides Hsides) as [c [r [-> _]]]. discriminate.
    + now apply trimEnd_showNumber.
  - change (String d (showNumber sides ++ tail))
      with ((String d "") ++ (showNumber sides ++ tail))%string.
    rewrite <- !string_app_assoc. now apply trimEnd_app.
Qed.

End CommandFacts.

Section ParseFacts.

Lemma rest_is_not_fate (c : ascii) (x : string) :
  isDigit c = true ->
  ((String "d" (String c x) =? "df")%string
   || (String "d" (String c x) =? "dF")%string) = false.
Proof.
  intros Hc. destruct (digit_not_letter c Hc) as [_ [_ [_ [Hf [HF _]]]]].
  cbn [String.eqb]. change (Ascii.eqb "d" "d") with true. cbv iota.
  rewrite Hf, HF. reflexivity.
Qed.

(** The groups the patterns find in a printed command without a modifier. *)
Lemma patterns_plain (pre : string) (d : ascii) (sides : Z) :
  digitsOrNothing pre -> d = "d"%char \/ d = "D"%char -> 0 <= sides ->
  let text := (pre ++ String d (showNumber sides))%string in
  trim text = text
  /\ fatePattern (toLowerCase text) = None
  /\ standardPattern (toLowerCase text) = Some (pre, showNumber sides, None).
Proof.
  intros Hpre Hd Hsides text.
  assert (Hlower : toLowerCase text = (pre ++ String "d" (showNumber sides))%string).
  { unfold text. rewrite toLowerCase_app, (toLowerCase_group pre Hpre).
    cbn [toLowerCase]. rewrite toLowerCase_showNumber by exact Hsides.
    destruct Hd as [-> | ->]; reflexivity. }
  split.
  - unfold text. rewrite <- (string_app_nil_r (showNumber sides)).
    apply trim_command; [exact Hpre| |exact Hsides|now left].
    destruct Hd as [-> | ->]; reflexivity.
  - rewrite Hlower. unfold fatePattern, standardPattern.
    rewrite (takeDigits_group pre (String "d" (showNumber sides)) Hpre)
      by reflexivity.
    destruct (showNumber_head sides Hsides) as [c [r [Hshow Hc]]].
    split.
    + rewrite Hshow, (rest_is_not_fate c r Hc). reflexivity.
    + rewrite <- (string_app_nil_r (showNumber sides)) at 1.
      rewrite (takeDigits_showNumber sides "" Hsides I).
      rewrite (showNumber_nonempty sides Hsides). reflexivity.
Qed.

(** The groups the patterns find in a printed command with a modifier. *)
Lemma patterns_modifier (pre : string) (d operator : ascii) (sides modifier : Z) :
  digitsOrNothing pre -> d = "d"%char \/ d = "D"%char ->
  operator = "+"%char \/ operator = "-"%char ->
  0 <= sides -> 0 <= modifier ->
  let text :=
    (pre ++ String d (showNumber sides ++ String operator (showNumber modifier)))%string in
  trim text = text
  /\ fatePattern (toLowerCase text) = None
  /\ standardPattern (toLowerCase text)
     = Some (pre, showNumber sides, Some (operator, showNumber modifier)).
Proof.
  intros Hpre Hd Hop Hsides Hmod text.
  assert (Hlower : toLowerCase text
                   = (pre ++ String "d" (showNumber sides
                        ++ String operator (showNumber modifier)))%string).
  { unfold text. rewrite toLowerCase_app, (toLowerCase_group pre Hpre).
    cbn [toLowerCase]. rewrite toLowerCase_app.
    rewrite toLowerCase_showNumber by exact Hsides.
    cbn [toLowerCase]. rewrite toLowerCase_showNumber by exact Hmod.
    destruct Hd as [-> | ->]; destruct Hop as [-> | ->]; reflexivity. }
  split.
  - unfold text. apply trim_command; [exact Hpre| |exact Hsides|].
    + destruct Hd as [-> | ->]; reflexivity.
    + right. split; [|discriminate].
      change (String operator (showNumber modifier))
        with ((String operator "") ++ showNumber modifier)%string.
      apply trimEnd_app; [|now apply trimEnd_showNumber].
      destruct (showNumber_head modifier Hmod) as [c [r [-> _]]]. discriminate.
  - rewrite Hlower. unfold fatePattern, standardPattern.
    rewrite (takeDigits_group pre _ Hpre) by reflexivity.
    destruct (showNumber_head sides Hsides) as [c [r [Hshow Hc]]].
    split.
    + rewrite Hshow. cbn [String.append]. rewrite (rest_is_not_fate c _ Hc).
      reflexivity.
    + rewrite (takeDigits_showNumber sides _ Hsides)
        by (destruct Hop as [-> | ->]; reflexivity).
      rewrite (showNumber_nonempty sides Hsides).
      replace (Ascii.eqb operator "+" || Ascii.eqb operator "-") with true
        by (destruct Hop as [-> | ->]; reflexivity).
      rewrite <- (string_app_nil_r (showNumber modifier)) at 1.
      rewrite (takeDigits_showNumber modifier "" Hmod I).
      rewrite (showNumber_nonempty modifier Hmod). reflexivity.
Qed.

(** The group the fate pattern finds in a printed fate command. *)
Lemma patterns_fate (pre : string) (d f : ascii) :
  digitsOrNothing pre -> d = "d"%char \/ d = "D"%char ->
  f = "f"%char \/ f = "F"%char ->
  let text := (pre ++ String d (String f ""))%string in
  trim text = text /\ fatePattern (toLowerCase text) = Some pre.
Proof.
  intros Hpre Hd Hf text. split.
  - unfold text, trim. rewrite trimStart_group;
      [|exact Hpre|destruct Hd as [-> | ->]; reflexivity].
    apply trimEnd_app; [discriminate|].
    destruct Hd as [-> | ->]; destruct Hf as [-> | ->]; reflexivity.
  - unfold text. rewrite toLowerCase_app, (toLowerCase_group pre Hpre).
    unfold fatePattern.
    replace (toLowerCase (String d (String f ""))) with "df"
      by (destruct Hd as [-> | ->]; destruct Hf as [-> | ->]; reflexivity).
    rewrite (takeDigits_group pre "df" Hpre) by reflexivity. reflexivity.
Qed.

Lemma count_of_group (pre : string) :
  digitsOrNothing pre ->
  (if (pre =? "")%string then 1 else parseInt pre)
  = match pre with EmptyString => 1 | _ => parseInt pre end.
Proof. intros _. destruct pre; reflexivity. Qed.

End ParseFacts.

Section AcceptFacts.
Variable random : nat -> Q.

Lemma in_range (lo hi z : Z) :
  lo < z -> z <= hi -> (z <=? lo) || (z >? hi) = false.
Proof.
  intros Hlo Hhi. apply orb_false_intro; [apply Z.leb_gt; exact Hlo|].
  destruct (Z.gtb_spec z hi); [lia|reflexivity].
Qed.

Lemma modifier_in_range (z : Z) :
  0 <= z -> z <= 1000 -> (z <? 0) || (z >? 1000) = false.
Proof.
  intros Hlo Hhi. apply orb_false_intro; [apply Z.ltb_ge; exact Hlo|].
  destruct (Z.gtb_spec z 1000); [lia|reflexivity].
Qed.

Lemma out_of_range (lo hi z : Z) :
  z <= lo \/ hi < z -> (z <=? lo) || (z >? hi) = true.
Proof.
  intros [Hlo|Hhi].
  - apply orb_true_intro. left. apply Z.leb_le. exact Hlo.
  - apply orb_true_intro. right. destruct (Z.gtb_spec z hi); [reflexivity|lia].
Qed.

(** What [parseAndRollDice] does once the patterns have answered. *)
Lemma parseAndRollDice_standard (command numDiceStr sidesStr : string)
    (modifierPart : option (ascii * string)) (drawn : nat) :
  fatePattern (toLowerCase (trim command)) = None ->
  standardPattern (toLowerCase (trim command))
  = Some (numDiceStr, sidesStr, modifierPart) ->
  parseAndRollDice random command drawn
  = let numDice := if (numDiceStr =? "")%string then 1 else parseInt numDiceStr in
    let sides := parseInt sidesStr in
    let modifier :=
      match modifierPart with
      | Some (_, modifierStr) => parseInt modifierStr
      | None => 0
      end in
    if (numDice <=? 0) || (numDice >? 100)
    then RollError "ダイスの数は1から100の間でなければなりません。"
    else if (sides <=? 1) || (sides >? 1000)
    then RollError "ダイスの面は2から1000の間でなければなりません。"
    else if (modifier <? 0) || (modifier >? 1000)
    then RollError "修正値は0から1000の間でなければなりません。"
    else
      let individualRolls :=
        rollDice random (fun r => Qfloor (r * inject_Z sides) + 1) numDice drawn in
      Rolled (trim command) individualRolls
        (match modifierPart with
         | Some ("+"%char, _) => sumRolls individualRolls + modifier
         | Some ("-"%char, _) => sumRolls individualRolls - modifier
         | _ => sumRolls individualRolls
         end).
Proof. intros Hfate Hstd. unfold parseAndRollDice. rewrite Hfate, Hstd. reflexivity. Qed.

Lemma parseAndRollDice_fate (command numDiceStr : string) (drawn : nat) :
  fatePattern (toLowerCase (trim command)) = Some numDiceStr ->
  parseAndRollDice random command drawn
  = let numDice := if (numDiceStr =? "")%string then 1 else parseInt numDiceStr in
    if (numDice <=? 0) || (numDice >? 100)
    then RollError "ダイスの数は1から100の間でなければなりません。"
    else
      let individualRolls :=
        rollDice random (fun r => Qfloor (r * 3) - 1) numDice drawn in
      Rolled (trim command) individualRolls (sumRolls individualRolls).
Proof. intros Hfate. unfold parseAndRollDice. rewrite Hfate. reflexivity. Qed.

End AcceptFacts.

(** X18. Every command printed from a number of dice from 1 to 100, a number
    of sides from 2 to 1000 and, or not, a modifier from 0 to 1000 is
    accepted: N d S rolls N dice of S sides, d S one die, N d S + M and
    N d S - M add and subtract the modifier, N dF rolls N fate dice. The dice
    are the next draws of [Math.random], one for each die in order, and the
    command is returned as it was typed. *)
Theorem parseAndRollDice_accepts (random : nat -> Q) (numDice sides modifier : Z)
    (drawn : nat) :
  1 <= numDice <= 100 -> 2 <= sides <= 1000 -> 0 <= modifier <= 1000 ->
  let dice := rollDice random (fun r => Qfloor (r * inject_Z sides) + 1) in
  let fate := rollDice random (fun r => Qfloor (r * 3) - 1) in
  let n := showNumber numDice in
  let s := showNumber sides in
  let m := showNumber modifier in
  parseAndRollDice random (n ++ "d" ++ s) drawn
  = Rolled (n ++ "d" ++ s) (dice numDice drawn) (sumRolls (dice numDice drawn))
  /\ parseAndRollDice random ("d" ++ s) drawn
     = Rolled ("d" ++ s) (dice 1 drawn) (sumRolls (dice 1 drawn))
  /\ parseAndRollDice random (n ++ "d" ++ s ++ "+" ++ m) drawn
     = Rolled (n ++ "d" ++ s ++ "+" ++ m) (dice numDice drawn)
         (sumRolls (dice numDice drawn) + modifier)
  /\ parseAndRollDice random (n ++ "D" ++ s ++ "-" ++ m) drawn
     = Rolled (n ++ "D" ++ s ++ "-" ++ m) (dice numDice drawn)
         (sumRolls (dice numDice drawn) - modifier)
  /\ parseAndRollDice random (n ++ "dF") drawn
     = Rolled (n ++ "dF") (fate numDice drawn) (sumRolls (fate numDice drawn))
  /\ length (dice numDice drawn) = Z.to_nat numDice
  /\ length (fate numDice drawn) = Z.to_nat numDice.
Proof.
  intros Hdice Hsides Hmod dice fate n s m.
  assert (Hn : digitsOrNothing n) by (right; exists numDice; split; [lia|reflexivity]).
  assert (Hnone : digitsOrNothing "") by now left.
  assert (Hcount : (if (n =? "")%string then 1 else parseInt n) = numDice).
  { unfold n. rewrite showNumber_nonempty by lia. apply parseInt_showNumber. lia. }
  change (n ++ "d" ++ s)%string with (n ++ String "d" (showNumber sides))%string.
  change ("d" ++ s)%string with ("" ++ String "d" (showNumber sides))%string.
  change (n ++ "d" ++ s ++ "+" ++ m)%string
    with (n ++ String "d" (showNumber sides ++ String "+" (showNumber modifier)))%string.
  change (n ++ "D" ++ s ++ "-" ++ m)%string
    with (n ++ String "D" (showNumber sides ++ String "-" (showNumber modifier)))%string.
  change (n ++ "dF")%string with (n ++ String "d" (String "F" ""))%string.
  split; [|split; [|split; [|split; [|split; [|split]]]]].
  - destruct (patterns_plain n "d" sides Hn ltac:(now left) ltac:(lia))
      as [Htrim [Hfate Hstd]]. rewrite <- Htrim in Hfate, Hstd.
    rewrite (parseAndRollDice_standard random _ _ _ _ drawn Hfate Hstd).
    cbv zeta. rewrite Hcount, Htrim. rewrite parseInt_showNumber by lia.
    rewrite (in_range 0 100), (in_range 1 1000) by lia. reflexivity.
  - destruct (patterns_plain "" "d" sides Hnone ltac:(now left) ltac:(lia))
      as [Htrim [Hfate Hstd]]. rewrite <- Htrim in Hfate, Hstd.
    rewrite (parseAndRollDice_standard random _ _ _ _ drawn Hfate Hstd).
    cbv zeta. rewrite Htrim. rewrite parseInt_showNumber by lia.
    rewrite (in_range 1 1000) by lia. reflexivity.
  - destruct (patterns_modifier n "d" "+" sides modifier Hn ltac:(now left)
                ltac:(now left) ltac:(lia) ltac:(lia)) as [Htrim [Hfate Hstd]].
    rewrite <- Htrim in Hfate, Hstd.
    rewrite (parseAndRollDice_standard random _ _ _ _ drawn Hfate Hstd).
    cbv zeta. rewrite Hcount, Htrim.
    rewrite !parseInt_showNumber by lia.
    rewrite (in_range 0 100), (in_range 1 1000), modifier_in_range by lia.
    reflexivity.
  - destruct (patterns_modifier n "D" "-" sides modifier Hn ltac:(now right)
                ltac:(now right) ltac:(lia) ltac:(lia)) as [Htrim [Hfate Hstd]].
    rewrite <- Htrim in Hfate, Hstd.
    rewrite (parseAndRollDice_standard random _ _ _ _ drawn Hfate Hstd).
    cbv zeta. rewrite Hcount, Htrim.
    rewrite !parseInt_showNumber by lia.
    rewrite (in_range 0 100), (in_range 1 1000), modifier_in_range by lia.
    reflexivity.
  - destruct (patterns_fate n "d" "F" Hn ltac:(now left) ltac:(now right))
      as [Htrim Hfate]. rewrite <- Htrim in Hfate.
    rewrite (parseAndRollDice_fate random _ _ drawn Hfate).
    cbv zeta. rewrite Hcount, Htrim.
    rewrite (in_range 0 100) by lia. reflexivity.
  - apply rollDice_length.
  - apply rollDice_length.
Qed.

Lemma parseAndRollDice_accepts_witness :
  parseAndRollDice random0 "3D6-2" 1%nat = Rolled "3D6-2" [5; 2; 5] 10.
Proof.
  destruct (parseAndRollDice_accepts random0 3 6 2 1%nat
              ltac:(lia) ltac:(lia) ltac:(lia)) as [_ [_ [_ [Hminus _]]]].
  vm_compute in Hminus. vm_compute. exact Hminus.
Defined.

(** X19. What [parseAndRollDice] refuses, each with its own message and
    before any die is rolled: a printed command whose number of dice is 0 or
    above 100, fate dice included; with a number of dice in range, a number
    of sides below 2 or above 1000; with both in range, a modifier above
    1000; and a blank command, which has no valid form. *)
Theorem parseAndRollDice_rejects (random : nat -> Q) (numDice sides modifier : Z)
    (command : string) (drawn : nat) :
  0 <= numDice -> 0 <= sides -> 0 <= modifier ->
  let n := showNumber numDice in
  let s := showNumber sides in
  let m := showNumber modifier in
  (numDice = 0 \/ 100 < numDice ->
   parseAndRollDice random (n ++ "d" ++ s) drawn
   = RollError "ダイスの数は1から100の間でなければなりません。"
   /\ parseAndRollDice random (n ++ "dF") drawn
      = RollError "ダイスの数は1から100の間でなければなりません。")
  /\ (1 <= numDice <= 100 -> sides <= 1 \/ 1000 < sides ->
      parseAndRollDice random (n ++ "d" ++ s) drawn
      = RollError "ダイスの面は2から1000の間でなければなりません。"
      /\ parseAndRollDice random ("d" ++ s) drawn
         = RollError "ダイスの面は2から1000の間でなければなりません。")
  /\ (1 <= numDice <= 100 -> 2 <= sides <= 1000 -> 1000 < modifier ->
      parseAndRollDice random (n ++ "d" ++ s ++ "+" ++ m) drawn
      = RollError "修正値は0から1000の間でなければなりません。"
      /\ parseAndRollDice random (n ++ "d" ++ s ++ "-" ++ m) drawn
         = RollError "修正値は0から1000の間でなければなりません。")
  /\ (trim command = "" ->
      parseAndRollDice random command drawn
      = RollError "無効なダイスコマンド形式です。例: 2d6, d20+3, 4dF").
Proof.
  intros Hdice Hsides Hmod n s m.
  assert (Hn : digitsOrNothing n) by (right; exists numDice; split; [lia|reflexivity]).
  assert (Hnone : digitsOrNothing "") by now left.
  assert (Hcount : (if (n =? "")%string then 1 else parseInt n) = numDice).
  { unfold n. rewrite showNumber_nonempty by lia. apply parseInt_showNumber. lia. }
  change (n ++ "d" ++ s)%string with (n ++ String "d" (showNumber sides))%string.
  change ("d" ++ s)%string with ("" ++ String "d" (showNumber sides))%string.
  change (n ++ "d" ++ s ++ "+" ++ m)%string
    with (n ++ String "d" (showNumber sides ++ String "+" (showNumber modifier)))%string.
  change (n ++ "d" ++ s ++ "-" ++ m)%string
    with (n ++ String "d" (showNumber sides ++ String "-" (showNumber modifier)))%string.
  change (n ++ "dF")%string with (n ++ String "d" (String "F" ""))%string.
  destruct (patterns_plain n "d" sides Hn ltac:(now left) Hsides)
    as [Htrim1 [Hfate1 Hstd1]]. rewrite <- Htrim1 in Hfate1, Hstd1.
  destruct (patterns_plain "" "d" sides Hnone ltac:(now left) Hsides)
    as [Htrim2 [Hfate2 Hstd2]]. rewrite <- Htrim2 in Hfate2, Hstd2.
  destruct (patterns_modifier n "d" "+" sides modifier Hn ltac:(now left)
              ltac:(now left) Hsides Hmod) as [Htrim3 [Hfate3 Hstd3]].
  rewrite <- Htrim3 in Hfate3, Hstd3.
  destruct (patterns_modifier n "d" "-" sides modifier Hn ltac:(now left)
              ltac:(now right) Hsides Hmod) as [Htrim4 [Hfate4 Hstd4]].
  rewrite <- Htrim4 in Hfate4, Hstd4.
  destruct (patterns_fate n "d" "F" Hn ltac:(now left) ltac:(now right))
    as [Htrim5 Hfate5]. rewrite <- Htrim5 in Hfate5.
  rewrite (parseAndRollDice_standard random _ _ _ _ drawn Hfate1 Hstd1).
  rewrite (parseAndRollDice_standard random _ _ _ _ drawn Hfate2 Hstd2).
  rewrite (parseAndRollDice_standard random _ _ _ _ drawn Hfate3 Hstd3).
  rewrite (parseAndRollDice_standard random _ _ _ _ drawn Hfate4 Hstd4).
  rewrite (parseAndRollDice_fate random _ _ drawn Hfate5).
  cbv zeta. rewrite Hcount. rewrite !parseInt_showNumber by lia.
  split; [|split; [|split]].
  - intros Hout. rewrite (out_of_range 0 100) by lia. split; reflexivity.
  - intros Hin Hout. rewrite (in_range 0 100) by lia.
    rewrite (out_of_range 1 1000) by lia. split; reflexivity.
  - intros Hin Hin' Hout. rewrite (in_range 0 100), (in_range 1 1000) by lia.
    replace ((modifier <? 0) || (modifier >? 1000)) with true; [split; reflexivity|].
    symmetry. apply orb_true_intro. right.
    destruct (Z.gtb_spec modifier 1000); [reflexivity|lia].
  - intros Hblank. unfold parseAndRollDice. rewrite Hblank. reflexivity.
Qed.

Lemma parseAndRollDice_rejects_witness :
  parseAndRollDice random0 "101d6" 0%nat
  = RollError "ダイスの数は1から100の間でなければなりません。"
  /\ parseAndRollDice random0 "2d1" 0%nat
     = RollError "ダイスの面は2から1000の間でなければなりません。"
  /\ parseAndRollDice random0 "2d6+1001" 0%nat
     = RollError "修正値は0から1000の間でなければなりません。".
Proof.
  split; [|split].
  - destruct (parseAndRollDice_rejects random0 101 6 0 "" 0%nat
                ltac:(lia) ltac:(lia) ltac:(lia)) as [Hcount _].
    destruct Hcount as [Hcount _]; [right; lia|]. exact Hcount.
  - destruct (parseAndRollDice_rejects random0 2 1 0 "" 0%nat
                ltac:(lia) ltac:(lia) ltac:(lia)) as [_ [Hsides _]].
    destruct Hsides as [Hsides _]; [lia|left; lia|]. exact Hsides.
  - destruct (parseAndRollDice_rejects random0 2 6 1001 "" 0%nat
                ltac:(lia) ltac:(lia) ltac:(lia)) as [_ [_ [Hmod _]]].
    destruct Hmod as [Hmod _]; [lia|lia|lia|]. exact Hmod.
Defined.

(** ** Random tables *)

Section MatchFacts.

Lemma trim_printed (z : Z) (tail : string) :
  0 <= z -> tail = "" \/ (trimEnd tail = tail /\ tail <> "") ->
  trim (showNumber z ++ tail) = (showNumber z ++ tail)%string.
Proof.
  intros Hz Htail. unfold trim. rewrite trimStart_showNumber by exact Hz.
  destruct Htail as [->|[Hkeep Hne]].
  - rewrite string_app_nil_r. now apply trimEnd_showNumber.
  - now apply trimEnd_app.
Qed.

Lemma printed_not_blank (z : Z) (tail : string) :
  0 <= z -> (showNumber z ++ tail =? "")%string = false.
Proof.
  intros Hz. destruct (showNumber_head z Hz) as [c [r [-> _]]]. reflexivity.
Qed.

Lemma takeDigits_printed (z : Z) :
  0 <= z -> takeDigits (showNumber z) = (showNumber z, "").
Proof.
  intros Hz. rewrite <- (string_app_nil_r (showNumber z)) at 1.
  now apply takeDigits_showNumber.
Qed.

Lemma geb_leb (a b : Z) : (a >=? b) = (b <=? a).
Proof. apply Z.geb_leb. Qed.

End MatchFacts.

(** X20. What a roll value matches, for numbers [a] and [b] that are not
    negative: [a-b] the totals from [a] to [b] (none when [b] is below [a]),
    [a+] the totals from [a] up, [a-] the totals up to [a], [a] the total
    [a] alone. A roll value that is missing, [null], empty or blank matches
    nothing. A roll value that is a number other than 0, [true], an array or
    an object raises a TypeError. *)
Theorem matchRollToEntry_matches (total a b : Z) (n : nat) :
  0 <= a -> 0 <= b ->
  matchRollToEntry total (VStr (showNumber a ++ "-" ++ showNumber b)) n
  = Returned ((a <=? total) && (total <=? b)) n
  /\ matchRollToEntry total (VStr (showNumber a ++ "+")) n = Returned (a <=? total) n
  /\ matchRollToEntry total (VStr (showNumber a ++ "-")) n = Returned (total <=? a) n
  /\ matchRollToEntry total (VStr (showNumber a)) n = Returned (total =? a) n
  /\ (b < a ->
      matchRollToEntry total (VStr (showNumber a ++ "-" ++ showNumber b)) n
      = Returned false n)
  /\ (forall v, truthy v = false -> matchRollToEntry total v n = Returned false n)
  /\ (forall str, trim str = "" ->
        matchRollToEntry total (VStr str) n = Returned false n)
  /\ (forall v, truthy v = true -> isString v = false ->
        matchRollToEntry total v n = Thrown TypeError n).
Proof.
  intros Ha Hb.
  assert (Hrange : matchRollToEntry total (VStr (showNumber a ++ "-" ++ showNumber b)) n
                   = Returned ((a <=? total) && (total <=? b)) n).
  { unfold matchRollToEntry. cbn [truthy]. rewrite printed_not_blank by exact Ha.
    cbn [negb].
    change (showNumber a ++ "-" ++ showNumber b)%string
      with (showNumber a ++ String "-" (showNumber b))%string.
    assert (Htrim : trim (showNumber a ++ String "-" (showNumber b))
                    = (showNumber a ++ String "-" (showNumber b))%string).
    { apply trim_printed; [exact Ha|]. right. split; [|discriminate].
      change (String "-" (showNumber b)) with ((String "-" "") ++ showNumber b)%string.
      apply trimEnd_app; [|now apply trimEnd_showNumber].
      destruct (showNumber_head b Hb) as [c [r [-> _]]]. discriminate. }
    rewrite Htrim, printed_not_blank by exact Ha.
    unfold rangePattern. rewrite (takeDigits_showNumber a _ Ha) by reflexivity.
    cbv beta iota. rewrite (showNumber_nonempty a Ha).
    rewrite (takeDigits_printed b Hb). cbv beta iota.
    rewrite (showNumber_nonempty b Hb).
    cbn [negb andb String.eqb]. rewrite !parseInt_showNumber by assumption.
    rewrite geb_leb. reflexivity. }
  split; [exact Hrange|]. split; [|split; [|split; [|split; [|split; [|split]]]]].
  - unfold matchRollToEntry. cbn [truthy]. rewrite printed_not_blank by exact Ha.
    cbn [negb]. rewrite trim_printed; [|exact Ha|right; split; [reflexivity|discriminate]].
    rewrite printed_not_blank by exact Ha.
    unfold rangePattern, plusPattern.
    rewrite (takeDigits_showNumber a "+" Ha) by reflexivity.
    cbv beta iota. rewrite (showNumber_nonempty a Ha). cbn [negb andb String.eqb Ascii.eqb Bool.eqb].
    rewrite parseInt_showNumber by exact Ha. rewrite geb_leb. reflexivity.
  - unfold matchRollToEntry. cbn [truthy]. rewrite printed_not_blank by exact Ha.
    cbn [negb]. rewrite trim_printed; [|exact Ha|right; split; [reflexivity|discriminate]].
    rewrite printed_not_blank by exact Ha.
    unfold rangePattern, plusPattern, minusPattern.
    rewrite (takeDigits_showNumber a "-" Ha) by reflexivity.
    cbv beta iota. rewrite (showNumber_nonempty a Ha).
    cbn [negb andb String.eqb Ascii.eqb Bool.eqb takeDigits].
    rewrite parseInt_showNumber by exact Ha. reflexivity.
  - unfold matchRollToEntry. cbn [truthy].
    rewrite <- (string_app_nil_r (showNumber a)).
    rewrite printed_not_blank by exact Ha. cbn [negb].
    rewrite trim_printed; [|exact Ha|now left].
    rewrite printed_not_blank by exact Ha.
    unfold rangePattern, plusPattern, minusPattern, exactPattern.
    rewrite string_app_nil_r, (takeDigits_printed a Ha).
    cbv beta iota. rewrite (showNumber_nonempty a Ha). cbn [negb andb String.eqb].
    rewrite parseInt_showNumber by exact Ha. reflexivity.
  - intros Hlt. rewrite Hrange. f_equal.
    destruct (Z.leb_spec a total); [|reflexivity].
    destruct (Z.leb_spec total b); [lia|reflexivity].
  - intros v Hv. unfold matchRollToEntry. rewrite Hv. reflexivity.
  - intros str Hblank. unfold matchRollToEntry. cbn [truthy].
    destruct (negb (negb (str =? "")%string)); [reflexivity|].
    rewrite Hblank. reflexivity.
  - intros v Hv Hs. unfold matchRollToEntry. rewrite Hv.
    destruct v; try reflexivity. discriminate.
Qed.

Lemma matchRollToEntry_matches_witness :
  matchRollToEntry 4 (VStr "2-5") 0%nat = Returned true 0%nat
  /\ matchRollToEntry 4 (VStr "5-2") 0%nat = Returned false 0%nat.
Proof.
  split.
  - exact (proj1 (matchRollToEntry_matches 4 2 5 0%nat ltac:(lia) ltac:(lia))).
  - destruct (matchRollToEntry_matches 4 5 2 0%nat ltac:(lia) ltac:(lia))
      as [_ [_ [_ [_ [Hreversed _]]]]].
    exact (Hreversed ltac:(lia)).
Defined.

Section RollTableFacts.
Context `{Host}.

Lemma addPlayLogEntry_logged (content type colorKey : string) (app : App)
    (s : SessionState.t) (n : nat) :
  wellFormed app ->
  currentSessionData app = Some s ->
  SessionState.sessionId s <> "" ->
  addPlayLogEntry content type colorKey None app n
  = Returned (committed app (logged s n content type colorKey)) (S n).
Proof.
  intros [[H0 _] _] Hcur Hid. unfold addPlayLogEntry. apply updateHistory_accept.
  - lia.
  - rewrite Hcur. reflexivity.
  - exact Hid.
Qed.

Lemma matchRollToEntry_answers (total : Z) (v : jsval) (n : nat) :
  readableRollValue v = true ->
  matchRollToEntry total v n = Returned (rollMatches total v) n.
Proof.
  unfold readableRollValue, rollMatches, matchRollToEntry. intros Hv.
  destruct (negb (truthy v)) eqn:Et; [reflexivity|].
  destruct v; try discriminate.
  destruct (trim s =? "")%string; [reflexivity|].
  destruct (rangePattern (trim s)) as [[minStr maxStr]|]; [reflexivity|].
  destruct (plusPattern (trim s)); [reflexivity|].
  destruct (minusPattern (trim s)); [reflexivity|].
  destruct (exactPattern (trim s)); reflexivity.
Qed.

Lemma filterM_answers (total : Z) (l : list TableEntry.t) (n : nat) :
  forallb (fun e => readableRollValue (TableEntry.rollValue e)) l = true ->
  filterM (fun entry => matchRollToEntry total (TableEntry.rollValue entry)) l n
  = Returned (filter (fun e => rollMatches total (TableEntry.rollValue e)) l) n.
Proof.
  induction l as [|e r IH]; intros Hl; [reflexivity|].
  cbn [forallb] in Hl. apply andb_prop in Hl as [He Hr].
  cbn [filterM filter]. unfold bind at 1.
  rewrite (matchRollToEntry_answers total _ n He).
  unfold bind. rewrite (IH Hr). reflexivity.
Qed.

Lemma nthZ_in_range {A} (l : list A) (k : Z) :
  0 <= k <= lengthZ l - 1 -> exists a, nthZ l k = Some a /\ In a l.
Proof.
  intros Hk. unfold nthZ, lengthZ in *.
  destruct (Z.ltb_spec k 0); [lia|].
  destruct (nth_error l (Z.to_nat k)) as [a|] eqn:E.
  - exists a. split; [reflexivity|]. eapply nth_error_In. exact E.
  - apply nth_error_None in E. lia.
Qed.

End RollTableFacts.

(** X21. Rolling on a table without a dice command, on a session in play: the
    result is the value of one of the table's entries, drawn with one call of
    [Math.random]; the panel shows it, and one snapshot is committed whose
    play log has one more entry, which names the table and the result. The
    tables and everything else of the session stay, and one undo removes the
    entry. *)
Theorem handleRollTable_plain `{Host} (random : nat -> Q)
    (tables : list RandomTable.t) (selectedTableId : string)
    (table : RandomTable.t) (shown : RollShown.t) (drawn : nat) (app : App)
    (s : SessionState.t) (n : nat) :
  (forall i, (0 <= random i)%Q /\ (random i < 1)%Q) ->
  wellFormed app ->
  currentSessionData app = Some s ->
  SessionState.sessionId s <> "" ->
  selectedTableId <> "" ->
  find (fun t => isTheString (RandomTable.id t) selectedTableId) tables = Some table ->
  RandomTable.entries table <> [] ->
  truthy (RandomTable.diceCommand table) = false ->
  exists entry app',
    In entry (RandomTable.entries table)
    /\ nthZ (RandomTable.entries table)
         (Qfloor (random drawn * inject_Z (lengthZ (RandomTable.entries table))))
       = Some entry
    /\ handleRollTable random tables selectedTableId shown drawn app n
       = Returned (app', RollShown.mk (Some (TableEntry.value entry)) None) (S n)
    /\ currentSessionData app'
       = Some (logged s n
                 ("ランダムテーブル「" ++ toDisplayString (RandomTable.name table)
                    ++ "」の結果: " ++ toDisplayString (TableEntry.value entry))%string
                 "normal" "default")
    /\ currentSessionData (handleUndo app') = Some s.
Proof.
  intros Hrandom Hwf Hcur Hid Hsel Hfind Hentries Hplain.
  assert (Hlen : 0 < lengthZ (RandomTable.entries table)).
  { unfold lengthZ. destruct (RandomTable.entries table); [contradiction|cbn; lia]. }
  destruct (nthZ_in_range (RandomTable.entries table)
              (Qfloor (random drawn * inject_Z (lengthZ (RandomTable.entries table))))
              (floor_random_range random Hrandom _ drawn Hlen))
    as [entry [Hnth Hin]].
  set (s' := logged s n
               ("ランダムテーブル「" ++ toDisplayString (RandomTable.name table)
                  ++ "」の結果: " ++ toDisplayString (TableEntry.value entry))%string
               "normal" "default").
  exists entry, (committed app s').
  destruct (committed_view app s s' Hwf Hcur) as [Hnew Hundo].
  split; [exact Hin|]. split; [exact Hnth|].
  split; [|split; [exact Hnew|exact Hundo]].
  unfold handleRollTable. apply String.eqb_neq in Hsel. rewrite Hsel, Hfind.
  replace (length (RandomTable.entries table) =? 0)%nat with false
    by (destruct (RandomTable.entries table); [contradiction|reflexivity]).
  rewrite Hplain, Hnth. unfold bind.
  rewrite (addPlayLogEntry_logged _ _ _ app s n Hwf Hcur Hid). reflexivity.
Qed.

Lemma handleRollTable_plain_witness :
  exists entry app',
    In entry [TableEntry.mk (VStr "e1") (VStr "Goblin") VUndef;
              TableEntry.mk (VStr "e2") (VStr "Dragon") VUndef]
    /\ @handleRollTable host0 random0
         [RandomTable.mk (VStr "t1") (VStr "Foes") (VStr "")
            [TableEntry.mk (VStr "e1") (VStr "Goblin") VUndef;
             TableEntry.mk (VStr "e2") (VStr "Dragon") VUndef]]
         "t1" (RollShown.mk None None) 1%nat (mkApp [fresh0] 0) 0%nat
       = Returned (app', RollShown.mk (Some (TableEntry.value entry)) None) 1%nat
    /\ TableEntry.value entry = VStr "Dragon".
Proof.
  destruct (@handleRollTable_plain host0 random0
              [RandomTable.mk (VStr "t1") (VStr "Foes") (VStr "")
                 [TableEntry.mk (VStr "e1") (VStr "Goblin") VUndef;
                  TableEntry.mk (VStr "e2") (VStr "Dragon") VUndef]]
              "t1"
              (RandomTable.mk (VStr "t1") (VStr "Foes") (VStr "")
                 [TableEntry.mk (VStr "e1") (VStr "Goblin") VUndef;
                  TableEntry.mk (VStr "e2") (VStr "Dragon") VUndef])
              (RollShown.mk None None) 1%nat (mkApp [fresh0] 0) fresh0 0%nat)
    as [entry [app' [Hin [Hnth [Hrun _]]]]].
  - intros i. unfold random0. destruct (Nat.even i); split; easy.
  - unfold wellFormed, lengthZ, MAX_HISTORY_SIZE. cbn. lia.
  - reflexivity.
  - discriminate.
  - discriminate.
  - reflexivity.
  - discriminate.
  - reflexivity.
  - exists entry, app'. split; [exact Hin|]. split; [exact Hrun|].
    vm_compute in Hnth. injection Hnth as <-. reflexivity.
Defined.

(** X22. Rolling on a table with a dice command, on a session in play, when
    the command is an ASCII string and every entry's roll value is an ASCII
    string or falsy. A command that does not
    parse is logged in red with its error and rolls nothing. Otherwise the
    dice are rolled once; when no entry matches the total the log gets a
    yellow entry that says so; when some do, the result is one of the entries
    whose roll value matches the total, drawn with the next call of
    [Math.random], and the log gets an entry with the command, the total and
    the result. In each case one snapshot is committed that differs from the
    one before by that log entry alone. *)
Theorem handleRollTable_dice `{Host} (random : nat -> Q)
    (tables : list RandomTable.t) (selectedTableId diceCommand : string)
    (table : RandomTable.t) (shown : RollShown.t) (drawn : nat) (app : App)
    (s : SessionState.t) (n : nat) :
  (forall i, (0 <= random i)%Q /\ (random i < 1)%Q) ->
  wellFormed app ->
  currentSessionData app = Some s ->
  SessionState.sessionId s <> "" ->
  selectedTableId <> "" ->
  find (fun t => isTheString (RandomTable.id t) selectedTableId) tables = Some table ->
  RandomTable.entries table <> [] ->
  RandomTable.diceCommand table = VStr diceCommand ->
  diceCommand <> "" ->
  isAscii diceCommand = true ->
  forallb (fun e => readableRollValue (TableEntry.rollValue e))
    (RandomTable.entries table) = true ->
  let tableName := toDisplayString (RandomTable.name table) in
  let roll := handleRollTable random tables selectedTableId shown drawn app n in
  match parseAndRollDice random diceCommand drawn with
  | RollError error =>
      roll
      = Returned
          (committed app
             (logged s n
                ("ランダムテーブル「" ++ tableName ++ "」ダイスエラー ("
                   ++ diceCommand ++ "): " ++ error)%string "normal" "red"),
           RollShown.mk (Some (VStr ("ダイスエラー: " ++ error))) None)
          (S n)
  | Rolled _ individualRolls total =>
      let matching :=
        filter (fun e => rollMatches total (TableEntry.rollValue e))
          (RandomTable.entries table) in
      (matching = [] ->
       roll
       = Returned
           (committed app
              (logged s n
                 ("ランダムテーブル「" ++ tableName ++ "」 (" ++ diceCommand
                    ++ " -> " ++ showNumber total ++ "): 該当なし")%string
                 "normal" "yellow"),
            RollShown.mk None
              (Some (RollDetails.mk (VStr diceCommand) individualRolls total
                       (VStr "該当なし"))))
           (S n))
      /\ (matching <> [] ->
          exists entry,
            In entry (RandomTable.entries table)
            /\ matchRollToEntry total (TableEntry.rollValue entry) n
               = Returned true n
            /\ roll
               = Returned
                   (committed app
                      (logged s n
                         ("ランダムテーブル「" ++ tableName ++ "」 (" ++ diceCommand
                            ++ " -> " ++ showNumber total ++ "): "
                            ++ toDisplayString (TableEntry.value entry))%string
                         "normal" "default"),
                    RollShown.mk None
                      (Some (RollDetails.mk (VStr diceCommand) individualRolls
                               total (TableEntry.value entry))))
                   (S n))
  end.
Proof.
  intros Hrandom Hwf Hcur Hid Hsel Hfind Hentries Hcmd Hcmd' _ Hread tableName roll.
  assert (Hstart :
            roll
            = match parseAndRollDice random diceCommand drawn with
              | RollError error =>
                  (app' <- addPlayLogEntry
                             ("ランダムテーブル「" ++ tableName ++ "」ダイスエラー ("
                                ++ diceCommand ++ "): " ++ error)%string
                             "normal" "red" None app ;;
                   ret (app', RollShown.mk (Some (VStr ("ダイスエラー: " ++ error))) None))
                    n
              | Rolled _ individualRolls total =>
                  (matchingEntries <-
                     filterM (fun entry =>
                                matchRollToEntry total (TableEntry.rollValue entry))
                       (RandomTable.entries table) ;;
                   if (0 <? length matchingEntries)%nat then
                     match nthZ matchingEntries
                             (Qfloor (random (drawn + length individualRolls)%nat
                                      * inject_Z (lengthZ matchingEntries))) with
                     | None => throw TypeError
                     | Some resultEntry =>
                         app' <- addPlayLogEntry
                                   ("ランダムテーブル「" ++ tableName ++ "」 ("
                                      ++ diceCommand ++ " -> " ++ showNumber total
                                      ++ "): "
                                      ++ toDisplayString (TableEntry.value resultEntry))%string
                                   "normal" "default" None app ;;
                         ret (app',
                              RollShown.mk None
                                (Some (RollDetails.mk (VStr diceCommand)
                                         individualRolls total
                                         (TableEntry.value resultEntry))))
                     end
                   else
                     app' <- addPlayLogEntry
                               ("ランダムテーブル「" ++ tableName ++ "」 ("
                                  ++ diceCommand ++ " -> " ++ showNumber total
                                  ++ "): 該当なし")%string
                               "normal" "yellow" None app ;;
                     ret (app',
                          RollShown.mk None
                            (Some (RollDetails.mk (VStr diceCommand)
                                     individualRolls total (VStr "該当なし")))))
                    n
              end).
  { unfold roll, handleRollTable. apply String.eqb_neq in Hsel. rewrite Hsel, Hfind.
    replace (length (RandomTable.entries table) =? 0)%nat with false
      by (destruct (RandomTable.entries table); [contradiction|reflexivity]).
    rewrite Hcmd. cbn [truthy]. apply String.eqb_neq in Hcmd'. rewrite Hcmd'.
    cbn [negb]. destruct (parseAndRollDice random diceCommand drawn); reflexivity. }
  rewrite Hstart. clear Hstart.
  destruct (parseAndRollDice random diceCommand drawn)
    as [error|command individualRolls total].
  - unfold bind. rewrite (addPlayLogEntry_logged _ _ _ app s n Hwf Hcur Hid).
    reflexivity.
  - cbv zeta.
    set (matching := filter (fun e => rollMatches total (TableEntry.rollValue e))
                       (RandomTable.entries table)).
    match goal with
    | |- (_ -> ?r = _) /\ _ =>
        assert (Hrun : r
                  = (if (0 <? length matching)%nat then
                       match nthZ matching
                               (Qfloor (random (drawn + length individualRolls)%nat
                                        * inject_Z (lengthZ matching))) with
                       | None => throw TypeError
                       | Some resultEntry =>
                           app' <- addPlayLogEntry
                                     ("ランダムテーブル「" ++ tableName ++ "」 ("
                                        ++ diceCommand ++ " -> " ++ showNumber total
                                        ++ "): "
                                        ++ toDisplayString
                                             (TableEntry.value resultEntry))%string
                                     "normal" "default" None app ;;
                           ret (app',
                                RollShown.mk None
                                  (Some (RollDetails.mk (VStr diceCommand)
                                           individualRolls total
                                           (TableEntry.value resultEntry))))
                       end
                     else
                       app' <- addPlayLogEntry
                                 ("ランダムテーブル「" ++ tableName ++ "」 ("
                                    ++ diceCommand ++ " -> " ++ showNumber total
                                    ++ "): 該当なし")%string
                                 "normal" "yellow" None app ;;
                       ret (app',
                            RollShown.mk None
                              (Some (RollDetails.mk (VStr diceCommand)
                                       individualRolls total (VStr "該当なし")))))
                      n);
          [unfold bind at 1; rewrite (filterM_answers total _ n Hread); reflexivity|];
          rewrite Hrun; clear Hrun
    end.
    split.
    + intros Hnone. rewrite Hnone. cbn [length Nat.ltb Nat.leb]. unfold bind.
      rewrite (addPlayLogEntry_logged _ _ _ app s n Hwf Hcur Hid). reflexivity.
    + intros Hsome.
      assert (Hlen : 0 < lengthZ matching).
      { unfold lengthZ. destruct matching; [contradiction|cbn; lia]. }
      replace (0 <? length matching)%nat with true
        by (destruct matching; [contradiction|reflexivity]).
      destruct (nthZ_in_range matching
                  (Qfloor (random (drawn + length individualRolls)%nat
                           * inject_Z (lengthZ matching)))
                  (floor_random_range random Hrandom _ _ Hlen))
        as [entry [Hnth Hin]].
      exists entry. apply filter_In in Hin as [Hin Hmatch].
      split; [exact Hin|]. split.
      * rewrite matchRollToEntry_answers, Hmatch; [reflexivity|].
        exact (proj1 (forallb_forall _ _) Hread entry Hin).
      * rewrite Hnth. unfold bind.
        rewrite (addPlayLogEntry_logged _ _ _ app s n Hwf Hcur Hid). reflexivity.
Qed.

Lemma handleRollTable_dice_witness :
  exists entry,
    In entry (RandomTable.entries foes)
    /\ matchRollToEntry 2 (TableEntry.rollValue entry) 0%nat = Returned true 0%nat
    /\ @handleRollTable host0 random0 [foes] "t1" (RollShown.mk None None) 0%nat
         (mkApp [fresh0] 0) 0%nat
       = Returned
           (committed (mkApp [fresh0] 0)
              (@logged host0 fresh0 0%nat
                 ("ランダムテーブル「" ++ "Foes" ++ "」 (" ++ "1d6" ++ " -> "
                    ++ showNumber 2 ++ "): "
                    ++ toDisplayString (TableEntry.value entry))%string
                 "normal" "default"),
            RollShown.mk None
              (Some (RollDetails.mk (VStr "1d6") [2] 2 (TableEntry.value entry))))
           1%nat.
Proof.
  assert (Hrandom : forall i, (0 <= random0 i)%Q /\ (random0 i < 1)%Q).
  { intros i. unfold random0. destruct (Nat.even i); split; easy. }
  assert (Hwf : wellFormed (mkApp [fresh0] 0)).
  { unfold wellFormed, lengthZ, MAX_HISTORY_SIZE. cbn. lia. }
  pose proof (@handleRollTable_dice host0 random0 [foes] "t1" "1d6" foes
                (RollShown.mk None None) 0%nat (mkApp [fresh0] 0) fresh0 0%nat
                Hrandom Hwf eq_refl ltac:(discriminate) ltac:(discriminate)
                eq_refl ltac:(discriminate) eq_refl ltac:(discriminate) eq_refl eq_refl)
    as Hroll.
  cbv zeta in Hroll.
  change (parseAndRollDice random0 "1d6" 0%nat) with (Rolled "1d6" [2] 2) in Hroll.
  cbv iota in Hroll. destruct Hroll as [_ Hsome].
  destruct Hsome as [entry [Hin [Hmatch Hrun]]]; [vm_compute; discriminate|].
  exists entry. split; [exact Hin|]. split; [exact Hmatch|exact Hrun].
Defined.

(** ** CSV tables *)

Section LineFacts.

Lemma splitLines_line (s : string) :
  noLineEnd s = true -> splitLines s = [s].
Proof.
  induction s as [|c r IH]; [reflexivity|]. cbn [noLineEnd splitLines].
  intros Hs. apply andb_prop in Hs as [Hs Hr]. apply andb_prop in Hs as [Hcr Hlf].
  apply negb_true_iff in Hcr, Hlf. rewrite Hcr, Hlf, (IH Hr). reflexivity.
Qed.

Lemma splitLines_cons (s rest : string) :
  noLineEnd s = true ->
  splitLines (s ++ String lineFeed rest) = s :: splitLines rest.
Proof.
  induction s as [|c r IH]; intros Hs.
  - reflexivity.
  - cbn [noLineEnd] in Hs. apply andb_prop in Hs as [Hs Hr].
    apply andb_prop in Hs as [Hcr Hlf]. apply negb_true_iff in Hcr, Hlf.
    cbn [String.append splitLines]. rewrite Hcr, Hlf, (IH Hr). reflexivity.
Qed.

Lemma splitLines_joinLines (line : string) (lines : list string) :
  forallb noLineEnd (line :: lines) = true ->
  splitLines (joinLines (line :: lines)) = line :: lines.
Proof.
  revert line. induction lines as [|l ls IH]; intros line Hl.
  - cbn in *. rewrite andb_true_r in Hl. now apply splitLines_line.
  - cbn [forallb] in Hl. apply andb_prop in Hl as [Hline Hrest].
    change (joinLines (line :: l :: ls))
      with (line ++ String lineFeed (joinLines (l :: ls)))%string.
    rewrite (splitLines_cons _ _ Hline). f_equal. now apply IH.
Qed.

Lemma splitAtComma_row (r v : string) :
  noComma r = true -> v <> "" -> splitAtComma (r ++ "," ++ v) = Some (r, v).
Proof.
  intros Hr Hv. induction r as [|c r IH].
  - cbn. destruct v; [contradiction|reflexivity].
  - cbn [noComma] in Hr. apply andb_prop in Hr as [Hc Hr].
    apply negb_true_iff in Hc. cbn [String.append splitAtComma].
    rewrite Hc. cbn [String.append] in IH. rewrite (IH Hr). reflexivity.
Qed.

Lemma trimStart_length (s : string) :
  (String.length (trimStart s) <= String.length s)%nat.
Proof.
  induction s as [|c r IH]; [apply Nat.le_refl|]. cbn [trimStart].
  destruct (isSpace c); cbn [String.length]; lia.
Qed.

Lemma trimEnd_length (s : string) :
  (String.length (trimEnd s) <= String.length s)%nat.
Proof.
  induction s as [|c r IH]; [apply Nat.le_refl|]. cbn [trimEnd].
  destruct (trimEnd r) as [|c' r'].
  - destruct (isSpace c); cbn [String.length]; lia.
  - cbn [String.length] in *. lia.
Qed.

Lemma trimStart_same_length (s : string) :
  String.length (trimStart s) = String.length s -> trimStart s = s.
Proof.
  destruct s as [|c r]; [reflexivity|]. cbn [trimStart].
  destruct (isSpace c); [|reflexivity].
  pose proof (trimStart_length r). cbn [String.length]. lia.
Qed.

(** A text that [trim] keeps is kept by [trimStart] and by [trimEnd]. *)
Lemma trim_fixed (s : string) :
  trim s = s -> trimStart s = s /\ trimEnd s = s.
Proof.
  intros Hs. unfold trim in Hs.
  assert (Hstart : trimStart s = s).
  { apply trimStart_same_length.
    pose proof (trimStart_length s). pose proof (trimEnd_length (trimStart s)).
    rewrite Hs in *. lia. }
  split; [exact Hstart|]. rewrite Hstart in Hs. exact Hs.
Qed.

Lemma trimStart_app (s t : string) :
  s <> "" -> trimStart s = s -> trimStart (s ++ t) = (s ++ t)%string.
Proof.
  destruct s as [|c r]; [contradiction|]. intros _. cbn [trimStart String.append].
  destruct (isSpace c); [|reflexivity].
  intros E. pose proof (trimStart_length r) as Hl. rewrite E in Hl.
  cbn [String.length] in Hl. lia.
Qed.

Lemma trim_row (r v : string) :
  trim r = r -> trim v = v -> v <> "" -> trim (r ++ "," ++ v) = (r ++ "," ++ v)%string.
Proof.
  intros Hr Hv Hne. destruct (trim_fixed r Hr) as [Hr1 _].
  destruct (trim_fixed v Hv) as [_ Hv2]. unfold trim.
  assert (Hstart : trimStart (r ++ "," ++ v) = (r ++ "," ++ v)%string).
  { destruct r as [|c r']; [reflexivity|]. apply trimStart_app; [discriminate|exact Hr1]. }
  rewrite Hstart. rewrite <- string_app_assoc. now apply trimEnd_app.
Qed.

End LineFacts.

Section CsvFacts.

Lemma noLineEnd_app (a b : string) :
  noLineEnd (a ++ b) = noLineEnd a && noLineEnd b.
Proof.
  induction a as [|c r IH]; [reflexivity|]. cbn [String.append noLineEnd].
  rewrite IH. now rewrite !andb_assoc.
Qed.

Lemma cell_parts (s : string) :
  cell s = true -> isAscii s = true /\ noLineEnd s = true /\ trim s = s.
Proof.
  unfold cell. intros Hs. apply andb_prop in Hs as [Hs Ht].
  apply andb_prop in Hs as [Ha Hl]. apply String.eqb_eq in Ht. auto.
Qed.

Lemma flat_map_step {A B} (f : A -> list B) (a : A) (l : list A) :
  flat_map f (a :: l) = f a ++ flat_map f l.
Proof. reflexivity. Qed.

Lemma length_zero (s : string) : (String.length s =? 0)%nat = (s =? "")%string.
Proof. destruct s; reflexivity. Qed.

(** The entries read from the lines of a dice table. *)
Lemma rows_read (diceCommand : string) (rows : list (string * string)) :
  truthyId (Some diceCommand) = true ->
  forallb (fun row => cell (fst row) && noComma (fst row) && cell (snd row)
                      && negb (snd row =? "")%string) rows = true ->
  flat_map
    (fun rawLine =>
       let line := trim rawLine in
       if (String.length line =? 0)%nat then []
       else if truthyId (Some diceCommand) then
         match splitAtComma line with
         | Some (before, after) =>
             [ParsedCSVEntry.mk (Some (trim before)) (trim after)]
         | None =>
             if negb (trim line =? "")%string
             then [ParsedCSVEntry.mk None (trim line)]
             else []
         end
       else [ParsedCSVEntry.mk None line])
    (map csvRow rows)
  = map (fun row => ParsedCSVEntry.mk (Some (fst row)) (snd row)) rows.
Proof.
  intros Hcmd. induction rows as [|[r v] rows IH]; intros Hrows; [reflexivity|].
  cbn [forallb fst snd] in Hrows. apply andb_prop in Hrows as [Hrow Hrest].
  apply andb_prop in Hrow as [Hrow Hv]. apply andb_prop in Hrow as [Hrow Hcv].
  apply andb_prop in Hrow as [Hcr Hnc].
  destruct (cell_parts r Hcr) as [_ [_ Hr]].
  destruct (cell_parts v Hcv) as [_ [_ Hv']].
  apply negb_true_iff, String.eqb_neq in Hv.
  rewrite !map_cons, flat_map_step, (IH Hrest). unfold csvRow at 1. cbn [fst snd].
  cbv zeta. rewrite (trim_row r v Hr Hv' Hv), length_zero.
  replace ((r ++ "," ++ v)%string =? "")%string with false
    by (symmetry; apply String.eqb_neq; destruct r; discriminate).
  rewrite Hcmd, (splitAtComma_row r v Hnc Hv), Hr, Hv'. reflexivity.
Qed.

(** The entries read from the lines of a plain list. *)
Lemma values_read (values : list string) :
  forallb (fun v => cell v && negb (v =? "")%string) values = true ->
  flat_map
    (fun rawLine =>
       let line := trim rawLine in
       if (String.length line =? 0)%nat then []
       else if truthyId None then
         match splitAtComma line with
         | Some (before, after) =>
             [ParsedCSVEntry.mk (Some (trim before)) (trim after)]
         | None =>
             if negb (trim line =? "")%string
             then [ParsedCSVEntry.mk None (trim line)]
             else []
         end
       else [ParsedCSVEntry.mk None line])
    values
  = map (ParsedCSVEntry.mk None) values.
Proof.
  induction values as [|v values IH]; intros Hvalues; [reflexivity|].
  cbn [forallb] in Hvalues. apply andb_prop in Hvalues as [Hv Hrest].
  apply andb_prop in Hv as [Hcv Hne].
  destruct (cell_parts v Hcv) as [_ [_ Hv]].
  rewrite !map_cons, flat_map_step, (IH Hrest). cbv zeta.
  rewrite Hv, length_zero. apply negb_true_iff in Hne. rewrite Hne. reflexivity.
Qed.

End CsvFacts.

(** X24. A CSV file written from a dice command and rows of a roll value and
    a value, or from plain values, is read back as it was written: after the
    header line of the dice command, each line gives the entry of its roll
    value (the text before the first comma) and its value, in order; without
    a header, each line gives a value and no roll value. The texts are ASCII,
    on one line and without white space at their ends; values and the dice
    command are not empty, and a roll value holds no comma. *)
Theorem parseCSV_reads_back (diceCommand : string) (rows : list (string * string))
    (values : list string) :
  cell diceCommand = true ->
  diceCommand <> "" ->
  forallb (fun row => cell (fst row) && noComma (fst row) && cell (snd row)
                      && negb (snd row =? "")%string) rows = true ->
  forallb (fun v => cell v && negb (v =? "")%string) values = true ->
  match values with
  | first :: _ => startsWith (toUpperCase first) "#DICE:" = false
  | [] => True
  end ->
  parseCSV (joinLines (("#DICE:" ++ diceCommand)%string :: map csvRow rows))
  = ParsedCSVResult.mk (Some diceCommand)
      (map (fun row => ParsedCSVEntry.mk (Some (fst row)) (snd row)) rows)
  /\ parseCSV (joinLines values)
     = ParsedCSVResult.mk None (map (ParsedCSVEntry.mk None) values).
Proof.
  intros Hcmd Hne Hrows Hvalues Hfirst.
  destruct (cell_parts diceCommand Hcmd) as [_ [Hcl Hct]].
  split.
  - unfold parseCSV. rewrite splitLines_joinLines.
    + change (startsWith (toUpperCase ("#DICE:" ++ diceCommand)%string) "#DICE:")
        with true.
      cbv iota zeta beta.
      change (substringFrom 6 ("#DICE:" ++ diceCommand)%string) with diceCommand.
      rewrite Hct. cbn [skipn]. f_equal. apply rows_read; [|exact Hrows].
      cbn [truthyId]. apply negb_true_iff, String.eqb_neq. exact Hne.
    + cbn [forallb]. rewrite noLineEnd_app, Hcl. cbn [noLineEnd andb].
      apply forallb_forall. intros line Hline.
      apply in_map_iff in Hline as [[r v] [<- Hin]].
      pose proof (proj1 (forallb_forall _ _) Hrows (r, v) Hin) as Hrow.
      cbn [fst snd] in Hrow. apply andb_prop in Hrow as [Hrow _].
      apply andb_prop in Hrow as [Hrow Hcv]. apply andb_prop in Hrow as [Hcr _].
      destruct (cell_parts r Hcr) as [_ [Hr _]].
      destruct (cell_parts v Hcv) as [_ [Hv _]].
      unfold csvRow. cbn [fst snd]. rewrite !noLineEnd_app, Hr, Hv. reflexivity.
  - destruct values as [|first values]; [reflexivity|].
    unfold parseCSV. rewrite splitLines_joinLines.
    + rewrite Hfirst. cbv iota zeta beta. cbn [skipn]. f_equal.
      now apply values_read.
    + apply forallb_forall. intros v Hv.
      pose proof (proj1 (forallb_forall _ _) Hvalues v Hv) as Hc.
      apply andb_prop in Hc as [Hc _]. now destruct (cell_parts v Hc) as [_ [? _]].
Qed.

Lemma parseCSV_reads_back_witness :
  parseCSV (joinLines ["#DICE:1d6"; "1-3,Goblin"; "4-6,Dragon, red"])
  = ParsedCSVResult.mk (Some "1d6")
      [ParsedCSVEntry.mk (Some "1-3") "Goblin";
       ParsedCSVEntry.mk (Some "4-6") "Dragon, red"]
  /\ parseCSV (joinLines ["Goblin"; "Dragon"])
     = ParsedCSVResult.mk None
         [ParsedCSVEntry.mk None "Goblin"; ParsedCSVEntry.mk None "Dragon"].
Proof.
  exact (parseCSV_reads_back "1d6" [("1-3", "Goblin"); ("4-6", "Dragon, red")]
           ["Goblin"; "Dragon"] eq_refl ltac:(discriminate) eq_refl eq_refl eq_refl).
Defined.

Section CleanFacts.

Lemma trimStart_suffix (s : string) :
  exists spaces, s = (spaces ++ trimStart s)%string.
Proof.
  induction s as [|c r [spaces IH]]; [now exists ""|]. cbn [trimStart].
  destruct (isSpace c).
  - exists (String c spaces). cbn. now rewrite <- IH.
  - now exists "".
Qed.

Lemma trimStart_blank (s : string) : trimStart s = "" -> trimEnd s = "".
Proof.
  induction s as [|c r IH]; [reflexivity|]. cbn [trimStart trimEnd].
  destruct (isSpace c) eqn:Hc; [|discriminate].
  intros Hr. rewrite (IH Hr). reflexivity.
Qed.

(** The end of a text that [trimEnd] keeps is kept. *)
Lemma trimEnd_suffix (s t : string) :
  t <> "" -> trimEnd (s ++ t) = (s ++ t)%string -> trimEnd t = t.
Proof.
  intros Ht. induction s as [|c r IH]; [tauto|].
  cbn [String.append trimEnd]. intros E. apply IH.
  destruct (trimEnd (r ++ t)) as [|c' r'] eqn:Er.
  - exfalso. destruct (isSpace c); [discriminate|].
    injection E as E. destruct r; [cbn in E; now subst|discriminate].
  - now injection E.
Qed.

(** A text that [trimEnd] keeps and that is not empty is not blank. *)
Lemma trim_of_kept_end (t : string) :
  t <> "" -> trimEnd t = t -> trim t <> "" /\ trim (trim t) = trim t.
Proof.
  intros Ht Hkeep. split; [|apply trim_idempotent].
  unfold trim. destruct (trimStart_suffix t) as [spaces Hs].
  assert (Hne : trimStart t <> "").
  { intros E. apply trimStart_blank in E. congruence. }
  rewrite (trimEnd_suffix spaces (trimStart t) Hne); [exact Hne|].
  rewrite <- Hs. exact Hkeep.
Qed.

Lemma splitAtComma_parts (line before after : string) :
  splitAtComma line = Some (before, after) ->
  line = (before ++ "," ++ after)%string /\ after <> "".
Proof.
  revert before. induction line as [|c r IH]; intros before; [discriminate|].
  cbn [splitAtComma]. destruct (Ascii.eqb_spec c ",") as [->|Hc].
  - destruct r as [|c' r']; [discriminate|]. intros [= <- <-].
    split; [reflexivity|discriminate].
  - destruct (splitAtComma r) as [[b a]|]; [|discriminate].
    intros [= <- <-]. destruct (IH b eq_refl) as [-> Ha].
    split; [reflexivity|exact Ha].
Qed.

Lemma trimEnd_trim (s : string) : trimEnd (trim s) = trim s.
Proof. unfold trim. apply trimEnd_idempotent. Qed.

End CleanFacts.

(** X25. Whatever ASCII text a CSV file holds, every entry [parseCSV] reads
    from it has a value that is not blank and has no white space at its
    ends; a roll value, where the entry has one, has no white space at its
    ends either, and entries have roll values only under a header with a dice
    command that is not empty. The dice command of a header is trimmed. *)
Theorem parseCSV_entries_clean (csvText : string) :
  isAscii csvText = true ->
  let parsed := parseCSV csvText in
  Forall cleanEntry (ParsedCSVResult.entries parsed)
  /\ (truthyId (ParsedCSVResult.diceCommand parsed) = false ->
      Forall (fun e => ParsedCSVEntry.rollValue e = None)
        (ParsedCSVResult.entries parsed))
  /\ match ParsedCSVResult.diceCommand parsed with
     | Some c => trim c = c
     | None => True
     end.
Proof.
  intros _ parsed. unfold parsed, parseCSV.
  set (lines := splitLines csvText).
  set (firstLine := match lines with first :: _ => first | [] => "" end).
  set (hasHeader := startsWith (toUpperCase firstLine) "#DICE:").
  set (diceCommand := if hasHeader then Some (trim (substringFrom 6 firstLine))
                      else None).
  cbn [ParsedCSVResult.entries ParsedCSVResult.diceCommand].
  split; [|split].
  - apply Forall_flat_map. apply Forall_forall. intros rawLine _.
    cbv zeta. rewrite length_zero.
    destruct (String.eqb_spec (trim rawLine) "") as [Hblank|Hfull]; [constructor|].
    assert (Hclean : trim (trim rawLine) <> "" /\ trim (trim (trim rawLine))
                                                   = trim (trim rawLine)).
    { rewrite !trim_idempotent. split; [exact Hfull|reflexivity]. }
    destruct (truthyId diceCommand).
    + destruct (splitAtComma (trim rawLine)) as [[before after]|] eqn:Esplit.
      * constructor; [|constructor].
        destruct (splitAtComma_parts _ _ _ Esplit) as [Hline Hafter].
        assert (Hkeep : trimEnd after = after).
        { apply (trimEnd_suffix (before ++ ",") after Hafter).
          rewrite string_app_assoc. cbn [String.append] in *.
          rewrite <- Hline. apply trimEnd_trim. }
        destruct (trim_of_kept_end after Hafter Hkeep) as [Hne Hidem].
        unfold cleanEntry. cbn [ParsedCSVEntry.value ParsedCSVEntry.rollValue].
        split; [exact Hne|]. split; [exact Hidem|apply trim_idempotent].
      * rewrite trim_idempotent.
        apply String.eqb_neq in Hfull. rewrite Hfull. cbn [negb].
        apply String.eqb_neq in Hfull.
        constructor; [|constructor]. unfold cleanEntry.
        cbn [ParsedCSVEntry.value ParsedCSVEntry.rollValue].
        split; [exact Hfull|]. split; [apply trim_idempotent|exact I].
    + constructor; [|constructor]. unfold cleanEntry.
      cbn [ParsedCSVEntry.value ParsedCSVEntry.rollValue].
      split; [exact Hfull|]. split; [apply trim_idempotent|exact I].
  - intros Hnone. rewrite Hnone.
    apply Forall_flat_map. apply Forall_forall. intros rawLine _. cbv zeta.
    destruct (String.length (trim rawLine) =? 0)%nat; constructor;
      [reflexivity|constructor].
  - unfold diceCommand. destruct hasHeader; [apply trim_idempotent|exact I].
Qed.

Lemma parseCSV_entries_clean_witness :
  Forall cleanEntry
    (ParsedCSVResult.entries (parseCSV "#dice: 2d6 "))
  /\ Forall cleanEntry
       (ParsedCSVResult.entries
          (parseCSV (joinLines ["#DICE:1d6"; " 1-3 ,  Goblin  "; "   "; "x,"]))).
Proof.
  split.
  - exact (proj1 (parseCSV_entries_clean "#dice: 2d6 " eq_refl)).
  - exact (proj1 (parseCSV_entries_clean
                    (joinLines ["#DICE:1d6"; " 1-3 ,  Goblin  "; "   "; "x,"])
                    eq_refl)).
Defined.

Section ImportFacts.
Context `{Host}.


End ImportFacts.



Section RaiseFacts.

Lemma matchRollToEntry_raises (total : Z) (v : jsval) (n : nat) :
  truthy v = true -> isString v = false ->
  matchRollToEntry total v n = Thrown TypeError n.
Proof.
  intros Hv Hs. unfold matchRollToEntry. rewrite Hv.
  destruct v; try reflexivity. discriminate.
Qed.

Lemma matchRollToEntry_returns (total : Z) (v : jsval) (n : nat) :
  truthy v && negb (isString v) = false ->
  exists b, matchRollToEntry total v n = Returned b n.
Proof.
  intros Hv. unfold matchRollToEntry.
  destruct (truthy v) eqn:Et; [|now exists false].
  destruct v; try discriminate. cbn [negb].
  destruct (trim s =? "")%string; [now exists false|].
  destruct (rangePattern (trim s)) as [[minStr maxStr]|]; [eexists; reflexivity|].
  destruct (plusPattern (trim s)); [eexists; reflexivity|].
  destruct (minusPattern (trim s)); [eexists; reflexivity|].
  destruct (exactPattern (trim s)); eexists; reflexivity.
Qed.

Lemma filterM_raises (total : Z) (l : list TableEntry.t) (n : nat) :
  existsb (fun e => truthy (TableEntry.rollValue e)
                    && negb (isString (TableEntry.rollValue e))) l = true ->
  filterM (fun entry => matchRollToEntry total (TableEntry.rollValue entry)) l n
  = Thrown TypeError n.
Proof.
  induction l as [|e r IH]; [discriminate|]. cbn [existsb filterM]. intros Hl.
  unfold bind at 1.
  destruct (truthy (TableEntry.rollValue e)
            && negb (isString (TableEntry.rollValue e))) eqn:He.
  - apply andb_prop in He as [Ht Hs]. apply negb_true_iff in Hs.
    now rewrite (matchRollToEntry_raises total _ n Ht Hs).
  - destruct (matchRollToEntry_returns total _ n He) as [b ->].
    unfold bind. now rewrite (IH Hl).
Qed.

End RaiseFacts.

(** X23. Rolling on a table raises a TypeError, and commits nothing, when the
    table's dice command is a truthy value that is not a string, and when the
    command is a string that parses but one of the entries has a roll value
    that is truthy and not a string: a number, [true], an array or an
    object. *)
Theorem handleRollTable_raises `{Host} (random : nat -> Q)
    (tables : list RandomTable.t) (selectedTableId : string)
    (table : RandomTable.t) (shown : RollShown.t) (drawn : nat) (app : App) (n : nat) :
  selectedTableId <> "" ->
  find (fun t => isTheString (RandomTable.id t) selectedTableId) tables = Some table ->
  RandomTable.entries table <> [] ->
  (truthy (RandomTable.diceCommand table) = true ->
   isString (RandomTable.diceCommand table) = false ->
   handleRollTable random tables selectedTableId shown drawn app n
   = Thrown TypeError n)
  /\ (forall diceCommand command individualRolls total,
        RandomTable.diceCommand table = VStr diceCommand ->
        parseAndRollDice random diceCommand drawn
        = Rolled command individualRolls total ->
        existsb (fun e => truthy (TableEntry.rollValue e)
                          && negb (isString (TableEntry.rollValue e)))
          (RandomTable.entries table) = true ->
        handleRollTable random tables selectedTableId shown drawn app n
        = Thrown TypeError n).
Proof.
  intros Hsel Hfind Hentries.
  assert (Hlen : (length (RandomTable.entries table) =? 0)%nat = false)
    by (destruct (RandomTable.entries table); [contradiction|reflexivity]).
  apply String.eqb_neq in Hsel. split.
  - intros Ht Hs. unfold handleRollTable. rewrite Hsel, Hfind, Hlen, Ht.
    destruct (RandomTable.diceCommand table); try reflexivity. discriminate.
  - intros diceCommand command individualRolls total Hcmd Hparse Hbad.
    unfold handleRollTable. rewrite Hsel, Hfind, Hlen, Hcmd.
    assert (Htruthy : truthy (VStr diceCommand) = true).
    { cbn [truthy]. destruct diceCommand; [|reflexivity].
      vm_compute in Hparse. discriminate. }
    rewrite Htruthy, Hparse. unfold bind.
    rewrite (filterM_raises total _ n Hbad). reflexivity.
Qed.

Lemma handleRollTable_raises_witness :
  @handleRollTable host0 random0
    [RandomTable.mk (VStr "t1") (VStr "Foes") (VNum 6)
       [TableEntry.mk (VStr "e1") (VStr "Goblin") (VNum 1)]]
    "t1" (RollShown.mk None None) 0%nat (mkApp [fresh0] 0) 0%nat
  = Thrown TypeError 0%nat
  /\ @handleRollTable host0 random0
       [RandomTable.mk (VStr "t1") (VStr "Foes") (VStr "1d6")
          [TableEntry.mk (VStr "e1") (VStr "Goblin") (VNum 1)]]
       "t1" (RollShown.mk None None) 0%nat (mkApp [fresh0] 0) 0%nat
     = Thrown TypeError 0%nat.
Proof.
  split.
  - destruct (@handleRollTable_raises host0 random0
                [RandomTable.mk (VStr "t1") (VStr "Foes") (VNum 6)
                   [TableEntry.mk (VStr "e1") (VStr "Goblin") (VNum 1)]]
                "t1"
                (RandomTable.mk (VStr "t1") (VStr "Foes") (VNum 6)
                   [TableEntry.mk (VStr "e1") (VStr "Goblin") (VNum 1)])
                (RollShown.mk None None) 0%nat (mkApp [fresh0] 0) 0%nat
                ltac:(discriminate) eq_refl ltac:(discriminate)) as [Hcmd _].
    exact (Hcmd eq_refl eq_refl).
  - destruct (@handleRollTable_raises host0 random0
                [RandomTable.mk (VStr "t1") (VStr "Foes") (VStr "1d6")
                   [TableEntry.mk (VStr "e1") (VStr "Goblin") (VNum 1)]]
                "t1"
                (RandomTable.mk (VStr "t1") (VStr "Foes") (VStr "1d6")
                   [TableEntry.mk (VStr "e1") (VStr "Goblin") (VNum 1)])
                (RollShown.mk None None) 0%nat (mkApp [fresh0] 0) 0%nat
                ltac:(discriminate) eq_refl ltac:(discriminate)) as [_ Hroll].
    apply (Hroll "1d6" "1d6" [2] 2); [reflexivity|vm_compute; reflexivity|reflexivity].
Defined.

(** ** Tables of a session file *)

Section SessionTableFacts.
Context `{Host}.

Lemma validateTableEntry_valid (v : jsval) (n n' : nat) (o : option TableEntry.t) :
  validateTableEntry v n = Returned o n' ->
  match o with Some e => validTableEntry e = true | None => True end.
Proof.
  unfold validateTableEntry.
  destruct (negb (typeOf v =? "object")%string || isNull v);
    [intros [= <- _]; exact I|].
  unfold bind. destruct (stringOrFresh _ n) as [id n1|e n1]; [|discriminate].
  intros [= <- _]. unfold validTableEntry.
  cbn [TableEntry.id TableEntry.value TableEntry.rollValue].
  destruct (get v "rollValue"); reflexivity.
Qed.

Lemma Forall_forallb {A} (p : A -> bool) (l : list A) :
  Forall (fun a => p a = true) l -> forallb p l = true.
Proof.
  induction 1 as [|a r Ha _ IH]; [reflexivity|]. cbn [forallb]. now rewrite Ha, IH.
Qed.

Lemma validateTable_valid (v : jsval) (n n' : nat) (o : option RandomTable.t) :
  validateTable v n = Returned o n' ->
  match o with Some t => validTable t = true | None => True end.
Proof.
  unfold validateTable.
  destruct (negb (typeOf v =? "object")%string || isNull v);
    [intros [= <- _]; exact I|].
  unfold bind at 1. destruct (stringOrFresh _ n) as [id n1|e n1]; [|discriminate].
  unfold bind at 1.
  destruct ((if isArray (get v "entries")
             then es <- mapM validateTableEntry (elements (get v "entries")) ;;
                  ret (somes es)
             else ret []) n1) as [entries n2|e n2] eqn:Eentries; [|discriminate].
  intros [= <- _]. unfold validTable.
  cbn [RandomTable.id RandomTable.name RandomTable.diceCommand RandomTable.entries].
  cbn [isString andb].
  destruct (isArray (get v "entries")).
  - revert Eentries. unfold bind.
    destruct (mapM validateTableEntry _ n1) as [es n3|e n3] eqn:Ees; [|discriminate].
    intros [= <- _]. apply Forall_forallb. apply somes_Forall.
    exact (mapM_Forall _ _ _ validateTableEntry_valid _ _ _ Ees).
  - cbv [ret] in Eentries. injection Eentries as <- _. reflexivity.
Qed.

Lemma filterM_returns (total : Z) (l : list TableEntry.t) (n : nat) :
  forallb validTableEntry l = true ->
  exists m,
    filterM (fun entry => matchRollToEntry total (TableEntry.rollValue entry)) l n
    = Returned m n.
Proof.
  induction l as [|e r IH]; intros Hl; [now exists []|].
  cbn [forallb] in Hl. apply andb_prop in Hl as [He Hr].
  destruct (IH Hr) as [m Hm].
  assert (Hv : truthy (TableEntry.rollValue e)
               && negb (isString (TableEntry.rollValue e)) = false).
  { unfold validTableEntry in He. apply andb_prop in He as [_ He].
    destruct (TableEntry.rollValue e); try discriminate; try reflexivity.
    cbn [isString negb]. apply andb_false_r. }
  destruct (matchRollToEntry_returns total _ n Hv) as [b Hb].
  exists (if b then e :: m else m). cbn [filterM]. unfold bind at 1. rewrite Hb.
  unfold bind. rewrite Hm. reflexivity.
Qed.

Lemma addPlayLogEntry_one_commit (content type colorKey : string) (app : App)
    (s : SessionState.t) (n : nat) :
  wellFormed app ->
  currentSessionData app = Some s ->
  SessionState.sessionId s <> "" ->
  exists entry,
    addPlayLogEntry content type colorKey None app n
    = Returned
        (committed app
           (with_playLogEntries (SessionState.playLogEntries s ++ [entry]) s))
        (S n).
Proof.
  intros Hwf Hcur Hid. eexists.
  rewrite (addPlayLogEntry_logged _ _ _ app s n Hwf Hcur Hid). reflexivity.
Qed.

End SessionTableFacts.

(** X27. The tables the validator returns have strings for their identifier,
    name and dice command, and their entries have strings for their identifier
    and value and a string or nothing for their roll value, whatever the file
    held. *)
Theorem validateAndMigrateData_tables `{Host} (v : jsval) (n n' : nat)
    (s : SessionState.t) :
  validateAndMigrateData v n = Returned s n' ->
  forallb validTable (SessionState.tables s) = true.
Proof.
  unfold validateAndMigrateData.
  destruct (negb (truthy v) || negb (typeOf v =? "object")%string).
  - unfold getInitialSessionData, bind, randomUUID, ret. intros [= <- _]. reflexivity.
  - unfold bind.
    repeat match goal with
           | |- context [match ?m ?x with Returned _ _ => _ | Thrown _ _ => _ end] =>
               destruct (m x) as [? ?|? ?] eqn:?; [|discriminate]
           end.
    unfold ret. intros [= <- _]. cbn [SessionState.tables].
    match goal with
    | E : (if ?c then _ else _) _ = Returned ?l _ |- forallb validTable ?l = true =>
        destruct c; revert E
    end.
    + cbv beta. unfold bind.
      destruct (mapM validateTable _ _) as [ts k|e k] eqn:Ets; [|discriminate].
      unfold ret. intros [= <- _]. apply Forall_forallb. apply somes_Forall.
      exact (mapM_Forall _ _ _ validateTable_valid _ _ _ Ets).
    + match goal with
      | E : getInitialSessionData _ = Returned _ _ |- _ =>
          cbv [getInitialSessionData bind randomUUID ret] in E;
          injection E as <- _
      end.
      intros [= <- _]. reflexivity.
Qed.

(** X28. On tables whose fields are strings, as the tables of a session file
    are, rolling never raises on a session in play: it returns, and it leaves
    the history as it is or commits one snapshot that differs from the one
    before by one more log entry. *)
Theorem handleRollTable_returns `{Host} (random : nat -> Q)
    (tables : list RandomTable.t) (selectedTableId : string)
    (shown : RollShown.t) (drawn : nat) (app : App) (s : SessionState.t) (n : nat) :
  (forall i, (0 <= random i)%Q /\ (random i < 1)%Q) ->
  forallb validTable tables = true ->
  wellFormed app ->
  currentSessionData app = Some s ->
  SessionState.sessionId s <> "" ->
  exists app' shown' n',
    handleRollTable random tables selectedTableId shown drawn app n
    = Returned (app', shown') n'
    /\ (app' = app
        \/ exists entry,
             app' = committed app
                      (with_playLogEntries
                         (SessionState.playLogEntries s ++ [entry]) s)).
Proof.
  intros Hrandom Htables Hwf Hcur Hid. unfold handleRollTable.
  destruct (selectedTableId =? "")%string;
    [exists app, shown, n; split; [reflexivity|now left]|].
  destruct (find _ tables) as [table|] eqn:Hfind;
    [|eexists app, _, n; split; [reflexivity|now left]].
  apply find_some in Hfind as [Hin _].
  pose proof (proj1 (forallb_forall _ _) Htables table Hin) as Htable.
  unfold validTable in Htable.
  apply andb_prop in Htable as [Htable Hentries].
  apply andb_prop in Htable as [_ Hcmd].
  destruct (length (RandomTable.entries table) =? 0)%nat eqn:Hlen;
    [eexists app, _, n; split; [reflexivity|now left]|].
  assert (Hpos : 0 < lengthZ (RandomTable.entries table)).
  { unfold lengthZ. destruct (RandomTable.entries table); [discriminate|cbn; lia]. }
  destruct (RandomTable.diceCommand table) as [| | | |diceCommand| |];
    try discriminate.
  destruct (truthy (VStr diceCommand)).
  - destruct (parseAndRollDice random diceCommand drawn)
      as [error|command individualRolls total].
    + unfold bind.
      destruct (addPlayLogEntry_one_commit
                  ("ランダムテーブル「" ++ toDisplayString (RandomTable.name table)
                     ++ "」ダイスエラー (" ++ diceCommand ++ "): " ++ error)%string
                  "normal" "red" app s n Hwf Hcur Hid) as [entry ->].
      eexists _, _, _. split; [reflexivity|]. right. now exists entry.
    + unfold bind at 1.
      destruct (filterM_returns total _ n Hentries) as [matching ->].
      destruct (0 <? length matching)%nat eqn:Hsome.
      * assert (Hm : 0 < lengthZ matching).
        { unfold lengthZ. destruct matching; [discriminate|cbn; lia]. }
        destruct (nthZ_in_range matching
                    (Qfloor (random (drawn + length individualRolls)%nat
                             * inject_Z (lengthZ matching)))
                    (floor_random_range random Hrandom _ _ Hm))
          as [resultEntry [-> _]].
        unfold bind.
        destruct (addPlayLogEntry_one_commit
                    ("ランダムテーブル「" ++ toDisplayString (RandomTable.name table)
                       ++ "」 (" ++ diceCommand ++ " -> " ++ showNumber total
                       ++ "): "
                       ++ toDisplayString (TableEntry.value resultEntry))%string
                    "normal" "default" app s n Hwf Hcur Hid) as [entry ->].
        eexists _, _, _. split; [reflexivity|]. right. now exists entry.
      * unfold bind.
        destruct (addPlayLogEntry_one_commit
                    ("ランダムテーブル「" ++ toDisplayString (RandomTable.name table)
                       ++ "」 (" ++ diceCommand ++ " -> " ++ showNumber total
                       ++ "): 該当なし")%string
                    "normal" "yellow" app s n Hwf Hcur Hid) as [entry ->].
        eexists _, _, _. split; [reflexivity|]. right. now exists entry.
  - destruct (nthZ_in_range (RandomTable.entries table)
                (Qfloor (random drawn
                         * inject_Z (lengthZ (RandomTable.entries table))))
                (floor_random_range random Hrandom _ drawn Hpos))
      as [entry0 [-> _]].
    unfold bind.
    destruct (addPlayLogEntry_one_commit
                ("ランダムテーブル「" ++ toDisplayString (RandomTable.name table)
                   ++ "」の結果: " ++ toDisplayString (TableEntry.value entry0))%string
                "normal" "default" app s n Hwf Hcur Hid) as [entry ->].
    eexists _, _, _. split; [reflexivity|]. right. now exists entry.
Qed.

Lemma validateAndMigrateData_tables_witness :
  exists s n',
    @validateAndMigrateData host0
      (VObj [("tables",
              VArr [VObj [("diceCommand", VNum 6);
                          ("entries", VArr [VObj [("rollValue", VNum 1)]; VNull])];
                    VStr "table"])]) 0%nat
    = Returned s n'
    /\ forallb validTable (SessionState.tables s) = true
    /\ length (SessionState.tables s) = 1%nat.
Proof.
  eexists. eexists. split; [vm_compute; reflexivity|]. split.
  - eapply (@validateAndMigrateData_tables host0
              (VObj [("tables",
                      VArr [VObj [("diceCommand", VNum 6);
                                  ("entries",
                                   VArr [VObj [("rollValue", VNum 1)]; VNull])];
                            VStr "table"])]) 0%nat).
    vm_compute. reflexivity.
  - reflexivity.
Defined.

Lemma handleRollTable_returns_witness :
  exists app' shown' n',
    @handleRollTable host0 random0 [foes] "t1" (RollShown.mk None None) 0%nat
      (mkApp [fresh0] 0) 0%nat
    = Returned (app', shown') n'
    /\ (app' = mkApp [fresh0] 0
        \/ exists entry,
             app' = committed (mkApp [fresh0] 0)
                      (with_playLogEntries
                         (SessionState.playLogEntries fresh0 ++ [entry]) fresh0)).
Proof.
  apply (@handleRollTable_returns host0 random0 [foes] "t1"
           (RollShown.mk None None) 0%nat (mkApp [fresh0] 0) fresh0 0%nat).
  - intros i. unfold random0. destruct (Nat.even i); split; easy.
  - reflexivity.
  - unfold wellFormed, lengthZ, MAX_HISTORY_SIZE. cbn. lia.
  - reflexivity.
  - discriminate.
Defined.

(** ** The exported page *)

Section EscapeFacts.

Lemma replaceChar_app (c : ascii) (replacement s1 s2 : string) :
  replaceChar c replacement (s1 ++ s2)%string
  = (replaceChar c replacement s1 ++ replaceChar c replacement s2)%string.
Proof.
  induction s1 as [|a r IH]; [reflexivity|]. cbn [String.append replaceChar].
  rewrite IH. destruct (Ascii.eqb a c); [|reflexivity].
  now rewrite string_app_assoc.
Qed.

Lemma replaceChar_substitute (c : ascii) (replacement : string) (f : ascii -> string)
    (s : string) :
  replaceChar c replacement (substitute f s)
  = substitute (fun a => replaceChar c replacement (f a)) s.
Proof.
  induction s as [|a r IH]; [reflexivity|]. cbn [substitute].
  now rewrite replaceChar_app, IH.
Qed.

Lemma replaceChar_single (c : ascii) (replacement s : string) :
  replaceChar c replacement s
  = substitute (fun a => if Ascii.eqb a c then replacement else String a EmptyString) s.
Proof.
  induction s as [|a r IH]; [reflexivity|]. cbn [replaceChar substitute].
  rewrite IH. destruct (Ascii.eqb a c); reflexivity.
Qed.

Lemma substitute_ext (f g : ascii -> string) (s : string) :
  (forall a, f a = g a) -> substitute f s = substitute g s.
Proof.
  intros Hfg. induction s as [|a r IH]; [reflexivity|]. cbn [substitute].
  now rewrite Hfg, IH.
Qed.

Lemma occurs_app (c : ascii) (s1 s2 : string) :
  occurs c (s1 ++ s2)%string = occurs c s1 || occurs c s2.
Proof.
  induction s1 as [|a r IH]; [reflexivity|]. cbn [String.append occurs].
  rewrite IH. apply orb_assoc.
Qed.

Lemma occurs_substitute (c : ascii) (f : ascii -> string) (s : string) :
  (forall a, occurs c (f a) = false) -> occurs c (substitute f s) = false.
Proof.
  intros Hf. induction s as [|a r IH]; [reflexivity|]. cbn [substitute].
  now rewrite occurs_app, Hf, IH.
Qed.

End EscapeFacts.

(** X29. [escapeHtml] gives the empty text for [null] and [undefined]. For any
    other value it gives the text of the value with each character replaced
    on its own, once: the ampersand, the two angle brackets, the double quote
    and the apostrophe by their character references, every other character
    by itself; the ampersands of the references are not escaped again. The
    result holds no angle bracket, double quote or apostrophe. *)
Theorem escapeHtml_escapes (unsafe : jsval) :
  escapeHtml unsafe
  = (if isNull unsafe || isUndefined unsafe then ""
     else substitute entity (toDisplayString unsafe))
  /\ occurs "<" (escapeHtml unsafe) = false
  /\ occurs ">" (escapeHtml unsafe) = false
  /\ occurs doubleQuote (escapeHtml unsafe) = false
  /\ occurs "'" (escapeHtml unsafe) = false.
Proof.
  assert (Hpass : forall s,
            replaceChar "'" "&#039;"
              (replaceChar doubleQuote "&quot;"
                 (replaceChar ">" "&gt;"
                    (replaceChar "<" "&lt;" (replaceChar "&" "&amp;" s))))
            = substitute entity s).
  { intros s. rewrite (replaceChar_single "&").
    rewrite !replaceChar_substitute. apply substitute_ext.
    intros [[] [] [] [] [] [] [] []]; reflexivity. }
  assert (Hclean : forall c s,
            In c ["<"; ">"; doubleQuote; "'"]%char ->
            occurs c (substitute entity s) = false).
  { intros c s Hc. apply occurs_substitute.
    cbn [In] in Hc.
    destruct Hc as [<-|[<-|[<-|[<-|[]]]]];
      intros [[] [] [] [] [] [] [] []]; reflexivity. }
  assert (Hform : escapeHtml unsafe
                  = (if isNull unsafe || isUndefined unsafe then ""
                     else substitute entity (toDisplayString unsafe))).
  { destruct unsafe; cbn [escapeHtml isNull isUndefined orb]; try reflexivity;
      apply Hpass. }
  split; [exact Hform|]. rewrite Hform.
  destruct (isNull unsafe || isUndefined unsafe).
  - repeat split; reflexivity.
  - repeat split; apply Hclean; cbn [In]; tauto.
Qed.
